(** * SQL agent pipeline: the orchestrator (client.py) and its stages (server.py)

    A shallow embedding of [SQLAgentClient.ask] and of the server helpers and
    tools it talks to, together with the object model of Python they rely on:
    strings as sequences of code points, exceptions, JSON values, and the
    standard [json] decoder and encoder. *)

From Stdlib Require Import List NArith ZArith Bool Lia String Ascii DecimalString FunInd.
From Stdlib Require DecimalFacts DecimalPos.
Import ListNotations.


(** ** Python strings *)

(** A Python [str] is a sequence of Unicode code points. *)
Definition str := list N.

(** A literal.  The source text of a literal is ASCII. *)
Definition py (s : string) : str :=
  map N_of_ascii (list_ascii_of_string s).

Module Ch.
Definition tab : N := 9.
Definition newline : N := 10.
Definition formfeed : N := 12.
Definition cr : N := 13.
Definition space : N := 32.
Definition dquote : N := 34.
Definition squote : N := 39.
Definition plus : N := 43.
Definition comma : N := 44.
Definition minus : N := 45.
Definition dot : N := 46.
Definition slash : N := 47.
Definition zero : N := 48.
Definition nine : N := 57.
Definition colon : N := 58.
Definition lbracket : N := 91.
Definition backslash : N := 92.
Definition rbracket : N := 93.
Definition backspace : N := 8.
Definition caret : N := 94.
Definition lbrace : N := 123.
Definition rbrace : N := 125.
End Ch.

(** Literals that contain a double quote are written with a stand-in
    character: [sq] reads every apostrophe as a double quote, [qq] every
    caret. *)
Definition subst_char (from to : N) (s : str) : str :=
  map (fun c => if N.eqb c from then to else c) s.

Definition sq (s : string) : str := subst_char Ch.squote Ch.dquote (py s).
Definition qq (s : string) : str := subst_char Ch.caret Ch.dquote (py s).

Fixpoint str_eqb (a b : str) : bool :=
  match a, b with
  | [], [] => true
  | x :: a', y :: b' => N.eqb x y && str_eqb a' b'
  | _, _ => false
  end.

(** [str(n)] for a non-negative machine-independent integer. *)
Definition str_of_nat (n : nat) : str := py (NilZero.string_of_uint (Nat.to_uint n)).
Definition str_of_Z (z : Z) : str := py (NilZero.string_of_int (Z.to_int z)).

(** [s.find(c)] for a one-character needle: the lowest index, or -1. *)
Fixpoint find_from (c : N) (s : str) (i : Z) : Z :=
  match s with
  | [] => (-1)%Z
  | x :: s' => if N.eqb x c then i else find_from c s' (i + 1)%Z
  end.

Definition find (s : str) (c : N) : Z := find_from c s 0%Z.

(** [s.rfind(c)]: the highest index, or -1. *)
Fixpoint rfind_from (c : N) (s : str) (i : Z) (last : Z) : Z :=
  match s with
  | [] => last
  | x :: s' => rfind_from c s' (i + 1)%Z (if N.eqb x c then i else last)
  end.

Definition rfind (s : str) (c : N) : Z := rfind_from c s 0%Z (-1)%Z.

(** [s[lo:hi]] for [0 <= lo] and [0 <= hi]; empty when [hi <= lo]. *)
Definition slice (s : str) (lo hi : Z) : str :=
  firstn (Z.to_nat (hi - lo)) (skipn (Z.to_nat lo) s).

Fixpoint starts_with (p s : str) : bool :=
  match p, s with
  | [], _ => true
  | x :: p', y :: s' => N.eqb x y && starts_with p' s'
  | _ :: _, [] => false
  end.

(** [needle in s] on strings: substring search. *)
Fixpoint str_contains (needle s : str) : bool :=
  starts_with needle s ||
  match s with
  | [] => false
  | _ :: s' => str_contains needle s'
  end.

(** [s.replace(old, new)] for a one-character [old]. *)
Definition replace_char (old : N) (new : str) (s : str) : str :=
  flat_map (fun c => if N.eqb c old then new else [c]) s.

(** ** Exceptions *)

(** The classes of exception the two files distinguish or provoke.  All are
    subclasses of [Exception]; [OtherException] stands for whatever else a
    collaborator raises (transport, LLM API, sqlite, pandas).  What derives
    from [BaseException] alone (the cancellation of the task, an interrupt
    from the keyboard) is no fault of a stage and is not modelled. *)
Inductive ExcClass : Type :=
| JSONDecodeError
| RecursionError
| FileNotFoundError
| IndexError
| AttributeError
| TypeError
| KeyError
| UnboundLocalError
| OtherException.

Definition ExcClass_eqb (a b : ExcClass) : bool :=
  match a, b with
  | JSONDecodeError, JSONDecodeError
  | RecursionError, RecursionError
  | FileNotFoundError, FileNotFoundError
  | IndexError, IndexError
  | AttributeError, AttributeError
  | TypeError, TypeError
  | KeyError, KeyError
  | UnboundLocalError, UnboundLocalError
  | OtherException, OtherException => true
  | _, _ => false
  end.

(** An exception instance: its class and what [str(e)] gives. *)
Record PyExc : Type := mkExc { exc_class : ExcClass; exc_str : str }.

(** The result of evaluating an expression or a call. *)
Inductive Outcome (A : Type) : Type :=
| Returned (a : A)
| Raised (e : PyExc).
Arguments Returned {A} a.
Arguments Raised {A} e.

Definition obind {A B} (o : Outcome A) (f : A -> Outcome B) : Outcome B :=
  match o with
  | Returned a => f a
  | Raised e => Raised e
  end.

(** [try: o  except cls as e: handler(e)]. *)
Definition except_ {A} (cls : ExcClass) (o : Outcome A) (handler : PyExc -> Outcome A)
  : Outcome A :=
  match o with
  | Returned a => Returned a
  | Raised e => if ExcClass_eqb (exc_class e) cls then handler e else Raised e
  end.

(** [try: o  except Exception as e: handler(e)]. *)
Definition except_Exception {A} (o : Outcome A) (handler : PyExc -> Outcome A)
  : Outcome A :=
  match o with
  | Returned a => Returned a
  | Raised e => handler e
  end.

(** ** JSON values *)

(** What [json.loads] builds.  A dict keeps its keys in insertion order and
    has no duplicate key; a float is kept as the literal it was read from. *)
Unset Elimination Schemes.
Inductive json : Type :=
| JNull
| JBool (b : bool)
| JInt (z : Z)
| JFloat (literal : str)
| JStr (s : str)
| JList (items : list json)
| JDict (fields : list (str * json)).
Set Elimination Schemes.

Definition dict := list (str * json).

Fixpoint dict_lookup (d : dict) (key : str) : option json :=
  match d with
  | [] => None
  | (k, v) :: d' => if str_eqb k key then Some v else dict_lookup d' key
  end.

(** [d[key] = v]: replaces in place, or appends. *)
Fixpoint dict_set (d : dict) (key : str) (v : json) : dict :=
  match d with
  | [] => [(key, v)]
  | (k, v0) :: d' =>
      if str_eqb k key then (k, v) :: d' else (k, v0) :: dict_set d' key v
  end.

Definition dict_has (d : dict) (key : str) : bool :=
  match dict_lookup d key with Some _ => true | None => false end.

Definition type_name (v : json) : str :=
  match v with
  | JNull => py "NoneType"
  | JBool _ => py "bool"
  | JInt _ => py "int"
  | JFloat _ => py "float"
  | JStr _ => py "str"
  | JList _ => py "list"
  | JDict _ => py "dict"
  end.

Definition is_str (v : json) (s : str) : bool :=
  match v with
  | JStr t => str_eqb s t
  | _ => false
  end.

(** [key in v] for a string [key]: key membership on a dict, substring on a
    string, element membership on a list, [TypeError] otherwise. *)
Definition py_in (key : str) (v : json) : Outcome bool :=
  match v with
  | JDict d => Returned (dict_has d key)
  | JStr s => Returned (str_contains key s)
  | JList l => Returned (existsb (fun x => is_str x key) l)
  | _ => Raised (mkExc TypeError
                   (py "argument of type '" ++ type_name v ++ py "' is not iterable"))
  end.

(** [v.get(key, default)]: only a dict has the method. *)
Definition py_get (v : json) (key : str) (default : json) : Outcome json :=
  match v with
  | JDict d =>
      Returned (match dict_lookup d key with Some x => x | None => default end)
  | _ => Raised (mkExc AttributeError
                   (py "'" ++ type_name v ++ py "' object has no attribute 'get'"))
  end.

(** The parts of the interpreter the model leaves abstract: how [repr] quotes
    a string, and what a float prints as, serialises as, and whether it is
    zero. *)
Record PyRuntime : Type := mkRuntime {
  str_repr : str -> str;
  float_repr : str -> str;
  float_json : str -> str;
  float_is_zero : str -> bool
}.

Fixpoint join (sep : str) (l : list str) : str :=
  match l with
  | [] => []
  | [x] => x
  | x :: l' => x ++ sep ++ join sep l'
  end.

Section Rendering.
Variable rt : PyRuntime.

(** [repr(v)]. *)
Fixpoint py_repr (v : json) : str :=
  match v with
  | JNull => py "None"
  | JBool true => py "True"
  | JBool false => py "False"
  | JInt z => str_of_Z z
  | JFloat f => float_repr rt f
  | JStr s => str_repr rt s
  | JList l => py "[" ++ join (py ", ") (map py_repr l) ++ py "]"
  | JDict d =>
      py "{" ++
      join (py ", ") (map (fun kv => str_repr rt (fst kv) ++ py ": " ++ py_repr (snd kv)) d)
      ++ py "}"
  end.

(** [str(v)], which is what an f-string field [{v}] renders. *)
Definition py_str (v : json) : str :=
  match v with
  | JStr s => s
  | _ => py_repr v
  end.

(** [bool(v)]. *)
Definition truthy (v : json) : bool :=
  match v with
  | JNull => false
  | JBool b => b
  | JInt z => negb (Z.eqb z 0)
  | JFloat f => negb (float_is_zero rt f)
  | JStr s => match s with [] => false | _ => true end
  | JList l => match l with [] => false | _ => true end
  | JDict d => match d with [] => false | _ => true end
  end.
End Rendering.

(** ** The [json] decoder

    [json.loads] as CPython implements it (the scanner and [scanstring] of the
    [_json] accelerator, driven by [JSONDecoder.decode]).  A position in the
    document is carried as the suffix that starts there.  The interpreter's
    own limits (recursion depth, the digit limit of [int]) are not part of
    the model: the depth allowed is twice the length of the document (a
    level of nesting takes two calls), which is never reached. *)

Inductive scan (A : Type) : Type :=
| Scanned (a : A) (rest : str)
| DecodeError_at (msg : string) (at_ : str)
| StopIteration_at (at_ : str)
| TooDeep.
Arguments Scanned {A} a rest.
Arguments DecodeError_at {A} msg at_.
Arguments StopIteration_at {A} at_.
Arguments TooDeep {A}.

Definition is_whitespace (c : N) : bool :=
  N.eqb c Ch.space || N.eqb c Ch.tab || N.eqb c Ch.newline || N.eqb c Ch.cr.

Fixpoint skip_ws (s : str) : str :=
  match s with
  | c :: s' => if is_whitespace c then skip_ws s' else s
  | [] => []
  end.

Definition is_digit (c : N) : bool := N.leb Ch.zero c && N.leb c Ch.nine.

Definition hex_value (c : N) : option N :=
  if N.leb 48 c && N.leb c 57 then Some (c - 48)%N
  else if N.leb 97 c && N.leb c 102 then Some (c - 97 + 10)%N
  else if N.leb 65 c && N.leb c 70 then Some (c - 65 + 10)%N
  else None.

Definition hex4 (a b c d : N) : option N :=
  match hex_value a, hex_value b, hex_value c, hex_value d with
  | Some x, Some y, Some z, Some w => Some (((x * 16 + y) * 16 + z) * 16 + w)%N
  | _, _, _, _ => None
  end.

Definition is_high_surrogate (c : N) : bool := N.leb 55296 c && N.leb c 56319.
Definition is_low_surrogate (c : N) : bool := N.leb 56320 c && N.leb c 57343.
Definition join_surrogates (hi lo : N) : N :=
  (65536 + ((hi - 55296) * 1024 + (lo - 56320)))%N.

(** The one-character escapes after a backslash. *)
Definition simple_escape (c : N) : option N :=
  if N.eqb c Ch.dquote then Some Ch.dquote
  else if N.eqb c Ch.backslash then Some Ch.backslash
  else if N.eqb c Ch.slash then Some Ch.slash
  else if N.eqb c 98 then Some Ch.backspace
  else if N.eqb c 102 then Some Ch.formfeed
  else if N.eqb c 110 then Some Ch.newline
  else if N.eqb c 114 then Some Ch.cr
  else if N.eqb c 116 then Some Ch.tab
  else None.

(** [scanstring] in strict mode.  [begin_] starts at the opening quote, [s]
    just after it; [acc] holds the characters read so far, last first.  A
    [\uXXXX] escape is only read when a character follows it, and a second
    one is only tried as the low half of a pair when a character follows
    that one too. *)
Fixpoint scanstring_from (begin_ : str) (acc : str) (s : str) {struct s} : scan str :=
  match s with
  | [] => DecodeError_at "Unterminated string starting at" begin_
  | c :: s1 =>
      if N.eqb c Ch.dquote then Scanned (rev acc) s1
      else if N.eqb c Ch.backslash then
        match s1 with
        | [] => DecodeError_at "Unterminated string starting at" begin_
        | esc :: s2 =>
            if N.eqb esc 117 then
              match s2 with
              | h1 :: h2 :: h3 :: h4 :: s3 =>
                  match s3 with
                  | [] => DecodeError_at "Invalid \uXXXX escape" s1
                  | b :: s3' =>
                      match hex4 h1 h2 h3 h4 with
                      | None => DecodeError_at "Invalid \uXXXX escape" s1
                      | Some uni =>
                          if is_high_surrogate uni then
                            match s3' with
                            | u2 :: k1 :: k2 :: k3 :: k4 :: s5 =>
                                match s5 with
                                | [] => scanstring_from begin_ (uni :: acc) s3
                                | _ :: _ =>
                                    if N.eqb b Ch.backslash && N.eqb u2 117 then
                                      match hex4 k1 k2 k3 k4 with
                                      | None => DecodeError_at "Invalid \uXXXX escape" s3'
                                      | Some uni2 =>
                                          if is_low_surrogate uni2
                                          then scanstring_from begin_
                                                 (join_surrogates uni uni2 :: acc) s5
                                          else scanstring_from begin_ (uni :: acc) s3
                                      end
                                    else scanstring_from begin_ (uni :: acc) s3
                                end
                            | _ => scanstring_from begin_ (uni :: acc) s3
                            end
                          else scanstring_from begin_ (uni :: acc) s3
                      end
                  end
              | _ => DecodeError_at "Invalid \uXXXX escape" s1
              end
            else
              match simple_escape esc with
              | Some ch => scanstring_from begin_ (ch :: acc) s2
              | None => DecodeError_at "Invalid \escape" s
              end
        end
      else if N.leb c 31 then DecodeError_at "Invalid control character at" s
      else scanstring_from begin_ (c :: acc) s1
  end.

(** [scanstring(s, end)] with [end] just after the opening quote of [begin_]. *)
Definition scanstring (begin_ : str) : scan str :=
  match begin_ with
  | _ :: s => scanstring_from begin_ [] s
  | [] => StopIteration_at []
  end.

(** The longest run of digits in front of [s], and what follows it. *)
Fixpoint span_digits (s : str) : str * str :=
  match s with
  | c :: s' =>
      if is_digit c then let (ds, r) := span_digits s' in (c :: ds, r)
      else ([], s)
  | [] => ([], [])
  end.

Definition digits_value (ds : str) : Z :=
  fold_left (fun acc c => (acc * 10 + Z.of_N (c - Ch.zero))%Z) ds 0%Z.

(** The integer part of a number: a single [0], or a nonzero digit and the
    digits after it. *)
Definition match_integer (s : str) : option (str * str) :=
  match s with
  | c :: s' =>
      if N.eqb c Ch.zero then Some ([c], s')
      else if is_digit c then let (ds, r) := span_digits s' in Some (c :: ds, r)
      else None
  | [] => None
  end.

(** A fraction: a dot and at least one digit. *)
Definition match_frac (s : str) : option (str * str) :=
  match s with
  | d :: s' =>
      if N.eqb d Ch.dot then
        match span_digits s' with
        | ([], _) => None
        | (ds, r) => Some (d :: ds, r)
        end
      else None
  | [] => None
  end.

(** An exponent: [e] or [E], an optional sign, at least one digit. *)
Definition match_exp (s : str) : option (str * str) :=
  match s with
  | e :: s' =>
      if N.eqb e 101 || N.eqb e 69 then
        let (sign, s'') :=
          match s' with
          | g :: t => if N.eqb g Ch.minus || N.eqb g Ch.plus then ([g], t) else ([], s')
          | [] => ([], s')
          end in
        match span_digits s'' with
        | ([], _) => None
        | (ds, r) => Some (e :: sign ++ ds, r)
        end
      else None
  | [] => None
  end.

(** [_match_number]: an [int] when there is neither fraction nor exponent,
    a [float] otherwise. *)
Definition match_number (s : str) : option (json * str) :=
  let (neg, s0) :=
    match s with
    | c :: s' => if N.eqb c Ch.minus then (true, s') else (false, s)
    | [] => (false, s)
    end in
  match match_integer s0 with
  | None => None
  | Some (int_part, r1) =>
      let (frac, r2) :=
        match match_frac r1 with Some (f, r) => (f, r) | None => ([], r1) end in
      let (exp, r3) :=
        match match_exp r2 with Some (e, r) => (e, r) | None => ([], r2) end in
      let sign := if neg then [Ch.minus] else [] in
      match frac, exp with
      | [], [] =>
          Some (JInt (if neg then - digits_value int_part else digits_value int_part)%Z, r3)
      | _, _ => Some (JFloat (sign ++ int_part ++ frac ++ exp), r3)
      end
  end.

(** A named constant when [s] starts with it. *)
Definition literal (name : string) (v : json) (s : str) : option (json * str) :=
  if starts_with (py name) s
  then Some (v, skipn (List.length (py name)) s)
  else None.

Definition first_some {A} (a b : option A) : option A :=
  match a with Some _ => a | None => b end.

(** What [scan_once] does with a document that opens with neither a quote,
    a brace nor a bracket. *)
Definition scan_atom (s : str) : scan json :=
  match
    first_some (literal "null" JNull s)
   (first_some (literal "true" (JBool true) s)
   (first_some (literal "false" (JBool false) s)
   (first_some (literal "NaN" (JFloat (py "NaN")) s)
   (first_some (literal "Infinity" (JFloat (py "Infinity")) s)
   (first_some (literal "-Infinity" (JFloat (py "-Infinity")) s)
               (match_number s))))))
  with
  | Some (v, r) => Scanned v r
  | None => StopIteration_at s
  end.

(** [scan_once], [_parse_object] (from the first key on) and [_parse_array]
    (from the first element on).  [depth] bounds the calls still allowed. *)
Fixpoint scan_once (depth : nat) (s : str) {struct depth} : scan json :=
  match depth with
  | O => TooDeep
  | S n =>
      match s with
      | [] => StopIteration_at s
      | c :: s1 =>
          if N.eqb c Ch.dquote then
            match scanstring s with
            | Scanned t r => Scanned (JStr t) r
            | DecodeError_at m a => DecodeError_at m a
            | StopIteration_at a => StopIteration_at a
            | TooDeep => TooDeep
            end
          else if N.eqb c Ch.lbrace then
            match skip_ws s1 with
            | c2 :: s2 =>
                if N.eqb c2 Ch.rbrace then Scanned (JDict []) s2
                else parse_members n [] (c2 :: s2)
            | [] => parse_members n [] []
            end
          else if N.eqb c Ch.lbracket then
            match skip_ws s1 with
            | c2 :: s2 =>
                if N.eqb c2 Ch.rbracket then Scanned (JList []) s2
                else parse_elements n [] (c2 :: s2)
            | [] => parse_elements n [] []
            end
          else scan_atom s
      end
  end

with parse_members (depth : nat) (acc : dict) (s : str) {struct depth} : scan json :=
  match depth with
  | O => TooDeep
  | S n =>
      match s with
      | [] => DecodeError_at "Expecting property name enclosed in double quotes" s
      | c :: _ =>
          if negb (N.eqb c Ch.dquote)
          then DecodeError_at "Expecting property name enclosed in double quotes" s
          else
            match scanstring s with
            | Scanned key r1 =>
                match skip_ws r1 with
                | [] => DecodeError_at "Expecting ':' delimiter" []
                | c2 :: r2 =>
                    if negb (N.eqb c2 Ch.colon)
                    then DecodeError_at "Expecting ':' delimiter" (c2 :: r2)
                    else
                      match scan_once n (skip_ws r2) with
                      | Scanned v r3 =>
                          let acc' := dict_set acc key v in
                          match skip_ws r3 with
                          | [] => DecodeError_at "Expecting ',' delimiter" []
                          | c3 :: r4 =>
                              if N.eqb c3 Ch.rbrace then Scanned (JDict acc') r4
                              else if N.eqb c3 Ch.comma
                              then parse_members n acc' (skip_ws r4)
                              else DecodeError_at "Expecting ',' delimiter" (c3 :: r4)
                          end
                      | other => other
                      end
                end
            | DecodeError_at m a => DecodeError_at m a
            | StopIteration_at a => StopIteration_at a
            | TooDeep => TooDeep
            end
      end
  end

with parse_elements (depth : nat) (acc : list json) (s : str) {struct depth} : scan json :=
  match depth with
  | O => TooDeep
  | S n =>
      match scan_once n s with
      | Scanned v r1 =>
          match skip_ws r1 with
          | [] => DecodeError_at "Expecting ',' delimiter" []
          | c :: r2 =>
              if N.eqb c Ch.rbracket then Scanned (JList (acc ++ [v])) r2
              else if N.eqb c Ch.comma then parse_elements n (acc ++ [v]) (skip_ws r2)
              else DecodeError_at "Expecting ',' delimiter" (c :: r2)
          end
      | other => other
      end
  end.

(** [str(JSONDecodeError(msg, doc, pos))]. *)
Definition count_newlines (s : str) : nat :=
  List.length (filter (N.eqb Ch.newline) s).

Fixpoint after_last_newline (s : str) (cur : nat) : nat :=
  match s with
  | [] => cur
  | c :: s' => after_last_newline s' (if N.eqb c Ch.newline then 0 else S cur)
  end.

Definition errmsg (msg : string) (doc : str) (pos : nat) : str :=
  let before := firstn pos doc in
  py msg ++ py ": line " ++ str_of_nat (count_newlines before + 1)
  ++ py " column " ++ str_of_nat (after_last_newline before 0 + 1)
  ++ py " (char " ++ str_of_nat pos ++ py ")".

Definition decode_error (msg : string) (doc at_ : str) : PyExc :=
  mkExc JSONDecodeError (errmsg msg doc (List.length doc - List.length at_)).

(** [json.loads(doc)]: no byte order mark; then leading whitespace, one
    value, trailing whitespace, and nothing more. *)
Definition json_loads (doc : str) : Outcome json :=
  if starts_with [65279%N] doc
  then Raised (decode_error "Unexpected UTF-8 BOM (decode using utf-8-sig)" doc doc)
  else
  match scan_once (S (2 * List.length doc)) (skip_ws doc) with
  | Scanned v rest =>
      match skip_ws rest with
      | [] => Returned v
      | extra => Raised (decode_error "Extra data" doc extra)
      end
  | DecodeError_at msg at_ => Raised (decode_error msg doc at_)
  | StopIteration_at at_ => Raised (decode_error "Expecting value" doc at_)
  | TooDeep =>
      Raised (mkExc RecursionError (py "maximum recursion depth exceeded"))
  end.

(** ** The [json] encoder

    [json.dumps] with its default settings: ASCII output, [", "] and [": "]
    as separators. *)

Definition hex_digit (n : N) : N :=
  if N.ltb n 10 then (48 + n)%N else (97 + (n - 10))%N.

(** [\uXXXX] for a code point below 65536. *)
Definition u_escape (c : N) : str :=
  [Ch.backslash; 117;
   hex_digit (c / 4096); hex_digit ((c / 256) mod 16);
   hex_digit ((c / 16) mod 16); hex_digit (c mod 16)]%N.

Definition escape_char (c : N) : str :=
  if N.eqb c Ch.backslash then [Ch.backslash; Ch.backslash]
  else if N.eqb c Ch.dquote then [Ch.backslash; Ch.dquote]
  else if N.eqb c Ch.backspace then [Ch.backslash; 98%N]
  else if N.eqb c Ch.formfeed then [Ch.backslash; 102%N]
  else if N.eqb c Ch.newline then [Ch.backslash; 110%N]
  else if N.eqb c Ch.cr then [Ch.backslash; 114%N]
  else if N.eqb c Ch.tab then [Ch.backslash; 116%N]
  else if N.leb 32 c && N.leb c 126 then [c]
  else if N.ltb c 65536 then u_escape c
  else
    let n := (c - 65536)%N in
    u_escape (55296 + (n / 1024) mod 1024) ++ u_escape (56320 + n mod 1024).

Definition encode_basestring_ascii (s : str) : str :=
  [Ch.dquote] ++ flat_map escape_char s ++ [Ch.dquote].

Section Encoder.
Variable rt : PyRuntime.

Fixpoint json_dumps (v : json) : str :=
  match v with
  | JNull => py "null"
  | JBool true => py "true"
  | JBool false => py "false"
  | JInt z => str_of_Z z
  | JFloat f => float_json rt f
  | JStr s => encode_basestring_ascii s
  | JList l => py "[" ++ join (py ", ") (map json_dumps l) ++ py "]"
  | JDict d =>
      py "{" ++
      join (py ", ")
        (map (fun kv => encode_basestring_ascii (fst kv) ++ py ": " ++ json_dumps (snd kv)) d)
      ++ py "}"
  end.
End Encoder.

(** [json.dumps(v, indent=2)]: the separators become [","] and [": "], and
    every item of a non-empty list or dict goes on a line of its own,
    indented by two spaces for each level of nesting. *)
Definition newline_indent (level : nat) : str :=
  Ch.newline :: repeat Ch.space (2 * level).

Section IndentedEncoder.
Variable rt : PyRuntime.

Fixpoint json_dumps_indent (level : nat) (v : json) : str :=
  match v with
  | JNull => py "null"
  | JBool true => py "true"
  | JBool false => py "false"
  | JInt z => str_of_Z z
  | JFloat f => float_json rt f
  | JStr s => encode_basestring_ascii s
  | JList [] => py "[]"
  | JList l =>
      py "[" ++ newline_indent (S level)
      ++ join (py "," ++ newline_indent (S level))
              (map (json_dumps_indent (S level)) l)
      ++ newline_indent level ++ py "]"
  | JDict [] => py "{}"
  | JDict d =>
      py "{" ++ newline_indent (S level)
      ++ join (py "," ++ newline_indent (S level))
              (map (fun kv => encode_basestring_ascii (fst kv) ++ py ": "
                              ++ json_dumps_indent (S level) (snd kv)) d)
      ++ newline_indent level ++ py "}"
  end.
End IndentedEncoder.

(** ** server.py *)

(** A content block of a response; [response.content[0].text] is what both
    files read.  A block of another class has no [text]. *)
Inductive ContentBlock : Type :=
| TextBlock (text : str)
| OtherBlock (class_name : str).

(** [content[0].text]. *)
Definition first_text (content : list ContentBlock) : Outcome str :=
  match content with
  | [] => Raised (mkExc IndexError (py "list index out of range"))
  | TextBlock t :: _ => Returned t
  | OtherBlock cls :: _ =>
      Raised (mkExc AttributeError
                (py "'" ++ cls ++ py "' object has no attribute 'text'"))
  end.

(** What [pd.read_csv] hands back: the rows in order, each a map from a
    column label to the text the cell formats as. *)
Definition Row := list (str * str).
Definition DataFrame := list Row.

Fixpoint row_lookup (row : Row) (label : str) : option str :=
  match row with
  | [] => None
  | (k, v) :: row' => if str_eqb k label then Some v else row_lookup row' label
  end.

(** [row[label]]. *)
Definition row_get (row : Row) (label : str) : Outcome str :=
  match row_lookup row label with
  | Some v => Returned v
  | None => Raised (mkExc KeyError (py "'" ++ label ++ py "'"))
  end.

Definition describe_row (row : Row) : Outcome str :=
  obind (row_get row (py "Column Header")) (fun column =>
  obind (row_get row (py "Business Header")) (fun business =>
  obind (row_get row (py "Definition")) (fun definition =>
  obind (row_get row (py "Example")) (fun example =>
  Returned (py "- Column '" ++ column ++ py "' (also called '" ++ business
            ++ py "'): " ++ definition ++ py ". Example: " ++ example
            ++ [Ch.newline]))))).

Fixpoint describe_rows (description : str) (rows : list Row) : Outcome str :=
  match rows with
  | [] => Returned description
  | row :: rows' =>
      obind (describe_row row) (fun line => describe_rows (description ++ line) rows')
  end.

Definition dictionary_missing : str :=
  py "Data dictionary file not found. I will proceed without it.".

(** [get_data_dictionary_description()], given what [pd.read_csv] does on
    [DATA_DICT_PATH]. *)
Definition get_data_dictionary_description (read_csv : Outcome DataFrame) : Outcome str :=
  match
    obind read_csv (fun df =>
      describe_rows
        (py "This is the data dictionary. It explains the columns in the database tables:"
         ++ [Ch.newline]) df)
  with
  | Returned description => Returned description
  | Raised e =>
      if ExcClass_eqb (exc_class e) FileNotFoundError
      then Returned dictionary_missing
      else Returned (py "Error reading data dictionary: " ++ exc_str e)
  end.

Definition error_payload (message : str) : json :=
  JDict [(py "error", JStr message)].

(** [_parse_llm_json_response(llm_text_response)]. *)
Definition _parse_llm_json_response (llm_text_response : str) : Outcome json :=
  match
    (let start_index := find llm_text_response Ch.lbrace in
     let end_index := (rfind llm_text_response Ch.rbrace + 1)%Z in
     if negb (Z.eqb start_index (-1)) && negb (Z.eqb end_index 0) then
       let json_str := slice llm_text_response start_index end_index in
       obind (json_loads json_str) (fun v => Returned (Some v))
     else Returned None)
  with
  | Returned (Some v) => Returned v
  | Returned None => Returned (error_payload (py "No valid JSON found in the response."))
  | Raised e =>
      if ExcClass_eqb (exc_class e) JSONDecodeError
      then Returned (error_payload (py "JSON decoding error: " ++ exc_str e))
      else Raised e
  end.

(** A request to [anthropic_client.messages.create]: one user message. *)
Record LLMRequest : Type := mkRequest {
  model : str;
  max_tokens : nat;
  prompt : str
}.

(** The language model, as far as a tool sees it: a request is answered by
    the content of a response, or by an exception. *)
Definition LLM := LLMRequest -> Outcome (list ContentBlock).

Definition claude_model : str := py "claude-3-5-sonnet-20241022".

Definition ner_prompt (data_dictionary question : str) : str :=
  qq "
    You are a data analyst. Your job is to extract key entities from a user's question.
    Use the provided data dictionary to understand the columns.

    Data Dictionary:
    "
  ++ data_dictionary ++
  qq "

    User Question: ^"
  ++ question ++
  qq "^

    Extract the necessary components to answer the question. Your output MUST be a single JSON object with keys: ^table^, ^columns_to_select^, and ^filters^.
    - ^table^: The table name, which is always a county name (e.g., ^King^).
    - ^columns_to_select^: A list of columns the user wants to see.
    - ^filters^: A dictionary of filters to apply, where the key is the column name and value is the condition.

    ".

Definition repair_prompt (failed_sql_query error_message : str) : str :=
  qq "
    You are a highly skilled SQLite expert debugging a query.
    
    The following SQL query failed to execute:
    ```sql
    "
  ++ failed_sql_query ++
  qq "
    ```

    It produced this specific error message:
    `"
  ++ error_message ++
  qq "`

    Task:
    1.  Carefully analyze the query and the error message.
    2.  Provide a corrected SQLite query that resolves the identified error.
    
    Your output MUST be a single JSON object with one key: ^sql_query^, containing only the corrected query.
    ".


Section Tools.
Variable rt : PyRuntime.

(** Tool 1: [ner_generator_dynamic(question)]. *)
Definition ner_generator_dynamic (read_csv : Outcome DataFrame) (llm : LLM)
    (question : str) : Outcome str :=
  obind (get_data_dictionary_description read_csv) (fun data_dictionary =>
  let prompt := ner_prompt data_dictionary question in
  except_Exception
    (obind (llm (mkRequest claude_model 1024 prompt)) (fun content =>
     obind (first_text content) (fun json_str =>
     obind (_parse_llm_json_response json_str) (fun parsed_dict =>
     Returned (json_dumps rt parsed_dict)))))
    (fun e =>
       Returned (json_dumps rt
                   (error_payload (py "Error in ner_generator_dynamic: " ++ exc_str e))))).

(** Tool 4: [run_sqlite_query(sql_dict)].  [sqlite] stands for the
    statements from [sqlite3.connect] to [formatted_results]: given the
    query it yields the rows as a list of dicts, or raises. *)
Definition run_sqlite_query (sqlite : json -> Outcome json) (sql_dict : json)
  : Outcome str :=
  except_Exception
    (obind (py_get sql_dict (py "sql_query") JNull) (fun sql_query =>
     if negb (truthy rt sql_query) then
       Returned (json_dumps rt
                   (JDict [(py "error", JStr (py "No SQL query provided."));
                           (py "data", JList [])]))
     else
       obind (sqlite sql_query) (fun formatted_results =>
       Returned (json_dumps rt (JDict [(py "data", formatted_results)])))))
    (fun e =>
       Returned (json_dumps rt
                   (JDict [(py "error", JStr (py "Database query failed: " ++ exc_str e));
                           (py "data", JList [])]))).

(** Tool 5: [handle_error_agent(failed_sql_query_dict, error_message)]. *)
Definition handle_error_agent (llm : LLM) (failed_sql_query_dict : json)
    (error_message : str) : Outcome str :=
  obind (py_get failed_sql_query_dict (py "sql_query") (JStr (py "Query not provided")))
    (fun failed_sql_query =>
  let prompt := repair_prompt (py_str rt failed_sql_query) error_message in
  except_Exception
    (obind (llm (mkRequest claude_model 1024 prompt)) (fun content =>
     obind (first_text content) (fun text =>
     obind (_parse_llm_json_response text) (fun parsed_dict =>
     Returned (json_dumps rt parsed_dict)))))
    (fun e =>
       Returned (json_dumps rt
                   (error_payload (py "LLM Error in handle_error_agent: " ++ exc_str e))))).
End Tools.

(** *** The schema, and the tools that read a prompt of their own *)

(** What [sqlite3] does with the database at [DB_PATH], as far as
    [get_database_schema] sees it: whether it opens, the names the first
    statement yields ([table[0]] of each row), and, for a [PRAGMA
    table_info] statement, the name and the type of each column ([col[1]]
    and [col[2]] of each row).  Closing the connection does not fail. *)
Record Database : Type := mkDatabase {
  db_connect : Outcome unit;
  db_tables : str -> Outcome (list str);
  db_table_info : str -> Outcome (list (str * str))
}.

Definition column_line (col : str * str) : str :=
  fst col ++ py " (" ++ snd col ++ py ")" ++ [Ch.newline].

(** The [for table_name in table_names] loop. *)
Fixpoint describe_tables (db : Database) (schema_description : str)
    (table_names : list str) : Outcome str :=
  match table_names with
  | [] => Returned schema_description
  | table_name :: later =>
      let schema_description :=
        schema_description ++ [Ch.newline; Ch.newline] ++ py "Table: " ++ table_name
        ++ [Ch.newline] ++ py "Columns:" ++ [Ch.newline] in
      obind (db_table_info db (py "PRAGMA table_info(" ++ table_name ++ py ");"))
        (fun columns =>
           describe_tables db
             (fold_left (fun description col => description ++ column_line col)
                        columns schema_description)
             later)
  end.

(** [get_database_schema(db_path)]. *)
Definition get_database_schema (db : Database) : Outcome str :=
  obind (db_connect db) (fun _ =>
  obind (db_tables db (py "SELECT name FROM sqlite_master WHERE type='table';"))
    (fun table_names =>
  let str_table_names := join (py ", ") table_names in
  let str_table_names := replace_char Ch.space [] str_table_names in
  let schema_description :=
    py "Database schema contains the following tables: " ++ str_table_names
    ++ py ". Each table contains various columns with specific data types." in
  describe_tables db schema_description table_names)).

Definition sql_prompt (question ner_json : str) : str :=
  qq "
    You are an expert SQLite developer. Create a single, valid SQLite query to answer the user's question.
    Understand the user's intent and the context provided by the extracted entities.
    The query may be complex, using window functions (like ROW_NUMBER(), PARTITION BY), subqueries, or other advanced features.

    User's Question: ^"
  ++ question ++
  qq "^
    Extracted Entities: "
  ++ ner_json ++
  qq "

    Your output MUST be the raw SQLite query text, and nothing else. Do not wrap it in JSON or markdown.

    ".

Definition validator_prompt (question ner_json generated_query_json schema_info : str)
  : str :=
  qq "
    You are a SQL validator and debugger. Your task is to check if the provided SQL query correctly answers the user's question and is syntactically correct for SQLite.
    Strictly follow the schema information provided to ensure no hallucinations or incorrect names.

    Provided Information:
    1.  User's Original Question: ^"
  ++ question ++
  qq "^
    2.  Extracted Entities (for context): "
  ++ ner_json ++
  qq "
    3.  Generated SQL Query to Validate: "
  ++ generated_query_json ++
  qq "
    4.  Database Schema Information: "
  ++ schema_info ++
  qq "

    Your Tasks:
    1.  Check for syntax errors.
    2.  Check for ^hallucinated^ or incorrect column and table names by comparing against the schema.
    3.  Ensure the query logic accurately reflects the user's question (e.g., if they ask for ^top 3^, there should be an ORDER BY and LIMIT 3).
 
    
    Your output MUST be a single JSON object with one key: ^sql_query^, containing the final, validated, and potentially corrected query.
    ".

Definition answer_prompt (question query_result_json : str) : str :=
  qq "
    You are a helpful assistant. Answer the user's question based on the provided data.
    If the data contains an error, explain it simply. If the data is empty, say so.

    Original Question: ^"
  ++ question ++
  qq "^
    Data from Database: "
  ++ query_result_json ++
  qq "
    ".

Section MoreTools.
Variable rt : PyRuntime.

(** Tool 2: [create_sql(question, ner_dict)]. *)
Definition create_sql (llm : LLM) (question : str) (ner_dict : json) : Outcome str :=
  let ner_json := json_dumps_indent rt 0 ner_dict in
  let prompt := sql_prompt question ner_json in
  except_Exception
    (obind (llm (mkRequest claude_model 1024 prompt)) (fun content =>
     obind (first_text content) (fun raw_sql_query =>
     let sql_dict := JDict [(py "sql_query", JStr raw_sql_query)] in
     Returned (json_dumps rt sql_dict))))
    (fun e =>
       Returned (json_dumps rt
                   (error_payload (py "LLM Error in create_sql: " ++ exc_str e)))).

(** Tool 3: [validator_sql_agent(question, ner_dict, generated_query_dict)]. *)
Definition validator_sql_agent (db : Database) (llm : LLM) (question : str)
    (ner_dict generated_query_dict : json) : Outcome str :=
  obind (get_database_schema db) (fun schema_info =>
  let generated_query_json := json_dumps rt generated_query_dict in
  let prompt :=
    validator_prompt question (json_dumps_indent rt 0 ner_dict)
                     generated_query_json schema_info in
  except_Exception
    (obind (llm (mkRequest claude_model 1024 prompt)) (fun content =>
     obind (first_text content) (fun text =>
     obind (_parse_llm_json_response text) (fun parsed_dict =>
     Returned (json_dumps rt parsed_dict)))))
    (fun e =>
       Returned (json_dumps rt
                   (error_payload (py "LLM Error in validator_sql_agent: " ++ exc_str e))))).

(** Tool 6: [generate_final_answer(question, query_result_dict)]. *)
Definition generate_final_answer (llm : LLM) (question : str) (query_result_dict : json)
  : Outcome str :=
  let query_result_json := json_dumps_indent rt 0 query_result_dict in
  let prompt := answer_prompt question query_result_json in
  except_Exception
    (obind (llm (mkRequest claude_model 2048 prompt)) (fun content =>
     first_text content))
    (fun e => Returned (py "Error formulating final answer: " ++ exc_str e)).
End MoreTools.

(** ** client.py *)

(** What [session.call_tool] returns. *)
Record CallToolResult : Type := mkResult {
  content : list ContentBlock;
  isError : bool
}.

(** The result the server side builds from the string a tool returns. *)
Definition text_result (text : str) : CallToolResult :=
  mkResult [TextBlock text] false.

(** A computation of the client: it returns, raises, or awaits a tool call
    and goes on with what the call gave. *)
Inductive Prog (A : Type) : Type :=
| Ret (a : A)
| Throw (e : PyExc)
| CallTool (name : str) (arguments : json) (k : Outcome CallToolResult -> Prog A).
Arguments Ret {A} a.
Arguments Throw {A} e.
Arguments CallTool {A} name arguments k.

Fixpoint bind {A B} (p : Prog A) (f : A -> Prog B) : Prog B :=
  match p with
  | Ret a => f a
  | Throw e => Throw e
  | CallTool name arguments k => CallTool name arguments (fun o => bind (k o) f)
  end.

(** [try: p  except Exception as e: handler(e)]. *)
Fixpoint try_except {A} (p : Prog A) (handler : PyExc -> Prog A) : Prog A :=
  match p with
  | Ret a => Ret a
  | Throw e => handler e
  | CallTool name arguments k =>
      CallTool name arguments (fun o => try_except (k o) handler)
  end.

Definition lift {A} (o : Outcome A) : Prog A :=
  match o with
  | Returned a => Ret a
  | Raised e => Throw e
  end.

Declare Scope prog_scope.
Delimit Scope prog_scope with prog.
Notation "x <- p ;; q" := (bind p (fun x => q))
  (at level 61, p at next level, right associativity) : prog_scope.

(** [await self.session.call_tool(name, arguments)]. *)
Definition call_tool (name : str) (arguments : json) : Prog CallToolResult :=
  CallTool name arguments lift.

(** [json.loads(result.content[0].text)]. *)
Definition payload (result : CallToolResult) : Outcome json :=
  obind (first_text (content result)) json_loads.

(** The far end of the session: it answers each call from its own state. *)
Definition Session (World : Type) : Type :=
  World -> str -> json -> Outcome CallToolResult * World.

(** One awaited call, as the far end saw it. *)
Record Event : Type := mkEvent {
  tool : str;
  arguments_of : json;
  outcome_of : Outcome CallToolResult
}.

(** Running a computation against a session: what it gives, the state the
    far end is left in, and the calls made, in order. *)
Fixpoint run {A World} (p : Prog A) (h : Session World) (w : World)
  : Outcome A * World * list Event :=
  match p with
  | Ret a => (Returned a, w, [])
  | Throw e => (Raised e, w, [])
  | CallTool name arguments k =>
      let (o, w1) := h w name arguments in
      let '(r, w2, tr) := run (k o) h w1 in
      (r, w2, mkEvent name arguments o :: tr)
  end.

(** The handles of an established connection are opaque. *)
Inductive Stream : Type := stream (id : nat).
Inductive ClientSession : Type := client_session (stdio write : Stream).

Record SQLAgentClient : Type := mkClient {
  session : option ClientSession;
  stdio : option Stream;
  write : option Stream
}.

(** [SQLAgentClient()]. *)
Definition SQLAgentClient_init : SQLAgentClient := mkClient None None None.

Definition max_retries : nat := 3.

Definition ner_tool : str := py "ner_generator_dynamic".
Definition sql_tool : str := py "create_sql".
Definition validator_tool : str := py "validator_sql_agent".
Definition execute_tool : str := py "run_sqlite_query".
Definition repair_tool : str := py "handle_error_agent".
Definition answer_tool : str := py "generate_final_answer".

Section Client.
Variable rt : PyRuntime.
Open Scope prog_scope.

Definition failed_message (last_error : json) : str :=
  py "Failed to execute the query after " ++ str_of_nat max_retries
  ++ py " attempts. Last error: " ++ py_str rt last_error.

Definition critical_message (e : PyExc) : str :=
  py "A critical error occurred in the pipeline: " ++ exc_str e.

(** The [for i in range(max_retries)] loop and the [return] after it.
    [attempts] holds the values of [i] still to come, [db_dict] the
    variable of that name once an iteration has bound it. *)
Fixpoint retry_loop (question : str) (attempts : list nat)
    (validated_sql_dict : json) (db_dict : option json) : Prog str :=
  match attempts with
  | [] =>
      match db_dict with
      | Some d =>
          last_error <- lift (py_get d (py "error") JNull) ;;
          Ret (failed_message last_error)
      | None =>
          Throw (mkExc UnboundLocalError
                   (py "cannot access local variable 'db_dict' where it is not associated with a value"))
      end
  | _ :: later =>
      db_result <- call_tool execute_tool
                     (JDict [(py "sql_dict", validated_sql_dict)]) ;;
      db_dict <- lift (payload db_result) ;;
      has_error <- lift (py_in (py "error") db_dict) ;;
      if negb has_error then
        final_answer <- call_tool answer_tool
                          (JDict [(py "question", JStr question);
                                  (py "query_result_dict", db_dict)]) ;;
        lift (first_text (content final_answer))
      else
        error_message <- lift (py_get db_dict (py "error")
                                 (JStr (py "Unknown database error"))) ;;
        error_handler_result <- call_tool repair_tool
                                  (JDict [(py "failed_sql_query_dict", validated_sql_dict);
                                          (py "error_message", error_message)]) ;;
        validated_sql_dict <- lift (payload error_handler_result) ;;
        retry_loop question later validated_sql_dict (Some db_dict)
  end.

(** The body of the [try] in [ask]. *)
Definition pipeline (question : str) : Prog str :=
  ner_result <- call_tool ner_tool (JDict [(py "question", JStr question)]) ;;
  ner_dict <- lift (payload ner_result) ;;
  sql_result <- call_tool sql_tool
                  (JDict [(py "question", JStr question); (py "ner_dict", ner_dict)]) ;;
  sql_dict <- lift (payload sql_result) ;;
  validated_result <- call_tool validator_tool
                        (JDict [(py "question", JStr question);
                                (py "ner_dict", ner_dict);
                                (py "generated_query_dict", sql_dict)]) ;;
  validated_sql_dict <- lift (payload validated_result) ;;
  retry_loop question (seq 0 max_retries) validated_sql_dict None.

(** [SQLAgentClient.ask(self, question)]. *)
Definition ask (self : SQLAgentClient) (question : str) : Prog str :=
  match session self with
  | None => Ret (py "Error: Not connected to the server.")
  | Some _ => try_except (pipeline question) (fun e => Ret (critical_message e))
  end.
End Client.

(** *** Connecting and cleaning up *)

(** A context the exit stack has entered and will leave on [aclose]. *)
Inductive Entered : Type :=
| stdio_context (server_script_path : str)
| session_context (s : ClientSession).

(** What starting the server and shaking hands with it can do: entering
    the [stdio_client] context yields the two streams, entering the
    [ClientSession] context yields the session, and [initialize] and
    [list_tools] are requests on that session.  [aclose] leaves the
    contexts entered, the last one first. *)
Record Launcher : Type := mkLauncher {
  enter_stdio : str -> Outcome (Stream * Stream);
  enter_session : ClientSession -> Outcome ClientSession;
  initialize : ClientSession -> Outcome unit;
  list_tools : ClientSession -> Outcome (list str);
  aclose : list Entered -> Outcome unit
}.

(** The object and its [exit_stack]. *)
Record Connected : Type := mkConnected {
  client : SQLAgentClient;
  exit_stack : list Entered
}.

(** [SQLAgentClient()], with the stack [__init__] creates. *)
Definition new_client : Connected := mkConnected SQLAgentClient_init [].

(** [SQLAgentClient.connect(self, server_script_path)]: the outcome, and
    the object as the call leaves it.  The handler prints and raises the
    exception again. *)
Definition connect (launcher : Launcher) (self : Connected) (server_script_path : str)
  : Outcome unit * Connected :=
  match enter_stdio launcher server_script_path with
  | Raised e => (Raised e, self)
  | Returned (stdio0, write0) =>
      let entered1 := stdio_context server_script_path :: exit_stack self in
      let self1 :=
        mkConnected (mkClient (session (client self)) (Some stdio0) (Some write0))
                    entered1 in
      match enter_session launcher (client_session stdio0 write0) with
      | Raised e => (Raised e, self1)
      | Returned s =>
          let self2 :=
            mkConnected (mkClient (Some s) (Some stdio0) (Some write0))
                        (session_context s :: entered1) in
          match initialize launcher s with
          | Raised e => (Raised e, self2)
          | Returned _ =>
              match list_tools launcher s with
              | Raised e => (Raised e, self2)
              | Returned _ => (Returned tt, self2)
              end
          end
      end
  end.

(** [SQLAgentClient.cleanup(self)]. *)
Definition cleanup (launcher : Launcher) (self : Connected) : Outcome unit :=
  aclose launcher (exit_stack self).

Definition main_question : str :=
  py "Find Make and Model combinations in King where all vechicles are BEVs?".

(** [main()]: what it ends with, the calls made on the session, and the
    contexts handed to [aclose]. *)
Definition main {World} (rt : PyRuntime) (launcher : Launcher) (h : Session World)
    (w : World) : Outcome unit * list Event * list Entered :=
  let (connected, self) := connect launcher new_client (py "server.py") in
  let (body, calls) :=
    match connected with
    | Raised e => (Raised e, [])
    | Returned _ =>
        let '(response, _, calls) := run (ask rt (client self) main_question) h w in
        (obind response (fun _ => Returned tt), calls)
    end in
  (match cleanup launcher self with
   | Raised e => Raised e
   | Returned _ => body
   end,
   calls, exit_stack self).

(** ** Sessions that answer by stage and attempt *)

(** The calls of one name so far. *)
Definition calls_to (name : str) (tr : list Event) : list Event :=
  filter (fun ev => str_eqb (tool ev) name) tr.

Definition count_calls (name : str) (tr : list Event) : nat :=
  List.length (calls_to name tr).

(** A far end whose answer to a call depends on the stage called, on how
    many times that stage was called before, and on the arguments. *)
Definition Stages : Type := str -> nat -> json -> Outcome CallToolResult.

(** How many times a stage was called, given the names called so far. *)
Definition seen (name : str) (history : list str) : nat :=
  List.length (filter (str_eqb name) history).

Definition staged (stages : Stages) : Session (list str) :=
  fun history name arguments =>
    (stages name (seen name history) arguments, history ++ [name]).

(** Running [ask] against such a far end, from its first call on. *)
Definition ask_staged (rt : PyRuntime) (stages : Stages) (self : SQLAgentClient)
    (question : str) : Outcome str * list Event :=
  let '(r, _, tr) := run (ask rt self question) (staged stages) [] in (r, tr).

(** The stages that answer as a given trace records. *)
Definition replay (tr : list Event) : Stages :=
  fun name i _ =>
    match nth_error (calls_to name tr) i with
    | Some ev => outcome_of ev
    | None => Raised (mkExc OtherException [])
    end.

(** What the client reads off a stage's answer: the decoded payload, or the
    bare text. *)
Definition stage_payload (o : Outcome CallToolResult) : Outcome json :=
  obind o payload.

Definition stage_text (o : Outcome CallToolResult) : Outcome str :=
  obind o (fun r => first_text (content r)).

(** An execution result that reports an error: a dict with an [error] key. *)
Definition error_bearing (d : json) : bool :=
  match d with
  | JDict fields => dict_has fields (py "error")
  | _ => false
  end.

(** An execution result on which the test ["error" not in db_dict] holds. *)
Definition error_free (d : json) : bool :=
  match py_in (py "error") d with
  | Returned false => true
  | _ => false
  end.

(** [d.get("error")] on a dict. *)
Definition error_of (d : json) : json :=
  match d with
  | JDict fields =>
      match dict_lookup fields (py "error") with Some x => x | None => JNull end
  | _ => JNull
  end.

(** The arguments [ask] passes to each stage. *)
Definition ner_arguments (question : str) : json :=
  JDict [(py "question", JStr question)].

Definition sql_arguments (question : str) (ner_dict : json) : json :=
  JDict [(py "question", JStr question); (py "ner_dict", ner_dict)].

Definition validator_arguments (question : str) (ner_dict sql_dict : json) : json :=
  JDict [(py "question", JStr question); (py "ner_dict", ner_dict);
         (py "generated_query_dict", sql_dict)].

Definition execute_arguments (sql_dict : json) : json :=
  JDict [(py "sql_dict", sql_dict)].

Definition repair_arguments (failed_sql_query_dict error_message : json) : json :=
  JDict [(py "failed_sql_query_dict", failed_sql_query_dict);
         (py "error_message", error_message)].

Definition answer_arguments (question : str) (query_result_dict : json) : json :=
  JDict [(py "question", JStr question); (py "query_result_dict", query_result_dict)].

(** The three stages before the loop answer with payloads: the entities,
    the query, and the validated query. *)
Definition pre_loop_answers (stages : Stages) (question : str)
    (ner_dict sql_dict validated : json) : Prop :=
  stage_payload (stages ner_tool 0 (ner_arguments question)) = Returned ner_dict /\
  stage_payload (stages sql_tool 0 (sql_arguments question ner_dict)) = Returned sql_dict /\
  stage_payload (stages validator_tool 0 (validator_arguments question ner_dict sql_dict))
  = Returned validated.

(** The first [n] attempts fail: attempt [i], counted from the execute call
    number [from], runs [queries i] and is answered by the error-bearing
    [failures i]. *)
Definition attempts_fail (stages : Stages) (from : nat) (queries failures : nat -> json)
    (n : nat) : Prop :=
  forall i, i < n ->
    stage_payload (stages execute_tool (from + i) (execute_arguments (queries i)))
    = Returned (failures i) /\
    error_bearing (failures i) = true.

(** The first [n] repairs answer: the repair of attempt [i], counted from
    the repair call number [from], gives the next query. *)
Definition repairs_answer (stages : Stages) (from : nat) (queries failures : nat -> json)
    (n : nat) : Prop :=
  forall i, i < n ->
    stage_payload (stages repair_tool (from + i)
                     (repair_arguments (queries i) (error_of (failures i))))
    = Returned (queries (S i)).

(** ** The order of the calls *)

(** What may follow what: each call [ask] makes is fixed by the question
    and by the call before it, its arguments and its decoded reply. *)
Inductive follows (question : str) : option Event -> Event -> Prop :=
| first_call o :
    follows question None (mkEvent ner_tool (ner_arguments question) o)
| after_extraction a o ner_dict o' :
    stage_payload o = Returned ner_dict ->
    follows question (Some (mkEvent ner_tool a o))
            (mkEvent sql_tool (sql_arguments question ner_dict) o')
| after_synthesis ner_dict o sql_dict o' :
    stage_payload o = Returned sql_dict ->
    follows question (Some (mkEvent sql_tool (sql_arguments question ner_dict) o))
            (mkEvent validator_tool (validator_arguments question ner_dict sql_dict) o')
| after_validation a o v o' :
    stage_payload o = Returned v ->
    follows question (Some (mkEvent validator_tool a o))
            (mkEvent execute_tool (execute_arguments v) o')
| after_success v o d o' :
    stage_payload o = Returned d -> error_free d = true ->
    follows question (Some (mkEvent execute_tool (execute_arguments v) o))
            (mkEvent answer_tool (answer_arguments question d) o')
| after_failure v o d o' :
    stage_payload o = Returned d -> error_bearing d = true ->
    follows question (Some (mkEvent execute_tool (execute_arguments v) o))
            (mkEvent repair_tool (repair_arguments v (error_of d)) o')
| after_repair a o v o' :
    stage_payload o = Returned v ->
    follows question (Some (mkEvent repair_tool a o))
            (mkEvent execute_tool (execute_arguments v) o').

Fixpoint chained (question : str) (prev : option Event) (tr : list Event) : Prop :=
  match tr with
  | [] => True
  | ev :: later => follows question prev ev /\ chained question (Some ev) later
  end.

(** ** Sample runs *)

(** A runtime for the samples, none of which renders a float or quotes a
    string. *)
Definition plain_runtime : PyRuntime :=
  mkRuntime (fun s => py "'" ++ s ++ py "'") (fun f => f) (fun f => f) (fun _ => false).

Definition connected_client : SQLAgentClient :=
  mkClient (Some (client_session (stream 0) (stream 1)))
           (Some (stream 0)) (Some (stream 1)).

Definition sample_question : str := py "How many vehicles are there in King county?".

(** A stage answering with a text. *)
Definition answers (text : string) : Outcome CallToolResult :=
  Returned (text_result (sq text)).

Definition no_such_column : string :=
  "{'error': 'Database query failed: no such column: Model_Year', 'data': []}".

(** Every stage answers; the query never runs, whatever the repair. *)
Definition always_failing : Stages :=
  fun name _ _ =>
    if str_eqb name ner_tool
    then answers "{'table': 'King', 'columns_to_select': ['*'], 'filters': {}}"
    else if str_eqb name execute_tool then answers no_such_column
    else if str_eqb name answer_tool then answers "There are 1234 vehicles."
    else answers "{'sql_query': 'SELECT COUNT(Model_Year) FROM King'}".

(** The same, with a repair stage that is unreachable the third time. *)
Definition third_repair_unreachable : Stages :=
  fun name i a =>
    if str_eqb name repair_tool && Nat.eqb i 2
    then Raised (mkExc OtherException (py "Connection closed"))
    else always_failing name i a.

(** The query fails once and runs after one repair. *)
Definition second_attempt_succeeds : Stages :=
  fun name i a =>
    if str_eqb name execute_tool && Nat.eqb i 1
    then answers "{'data': [{'COUNT(*)': 1234}]}"
    else if str_eqb name repair_tool
    then answers "{'sql_query': 'SELECT COUNT(*) FROM King'}"
    else always_failing name i a.

(** Extraction answers with an error payload; the later stages go on as in
    [second_attempt_succeeds]. *)
Definition extraction_error_payload : Stages :=
  fun name i a =>
    if str_eqb name ner_tool
    then answers "{'error': 'No valid JSON found in the response.'}"
    else second_attempt_succeeds name i a.

(** Extraction cannot be reached at all. *)
Definition extraction_unreachable : Stages :=
  fun name i a =>
    if str_eqb name ner_tool
    then Raised (mkExc OtherException (py "Connection closed"))
    else second_attempt_succeeds name i a.

(** The server of this repository behind the execute stage, with a database
    that would run any query; the first query fails, and the repair stage
    answers with the payload of a parse failure. *)
Definition any_query_runs : json -> Outcome json :=
  fun _ => Returned (JList [JDict [(py "COUNT(*)", JInt 1234)]]).

Definition served (o : Outcome str) : Outcome CallToolResult :=
  match o with
  | Returned text => Returned (text_result text)
  | Raised e => Raised e
  end.

Definition repair_unparsable : Stages :=
  fun name i a =>
    if str_eqb name execute_tool && Nat.eqb i 0 then answers no_such_column
    else if str_eqb name execute_tool then
      served (obind (py_get a (py "sql_dict") JNull)
                    (run_sqlite_query plain_runtime any_query_runs))
    else if str_eqb name repair_tool
    then answers "{'error': 'No valid JSON found in the response.'}"
    else always_failing name i a.

(** A language model that wraps its answer in prose. *)
Definition chatty_llm : LLM :=
  fun _ =>
    Returned [TextBlock
                (sq "Here you go: {'table': 'King', 'columns_to_select': ['*'], 'filters': {}} Hope it helps.")].

Definition file_not_found : PyExc :=
  mkExc FileNotFoundError (py "[Errno 2] No such file or directory: 'data/data_dictionary.csv'").

(** The payloads of the sample runs. *)
Definition sample_entities : json :=
  JDict [(py "table", JStr (py "King"));
         (py "columns_to_select", JList [JStr (py "*")]);
         (py "filters", JDict [])].

Definition first_query : json :=
  JDict [(py "sql_query", JStr (py "SELECT COUNT(Model_Year) FROM King"))].

Definition repaired_query : json :=
  JDict [(py "sql_query", JStr (py "SELECT COUNT(*) FROM King"))].

Definition no_such_column_result : json :=
  JDict [(py "error", JStr (py "Database query failed: no such column: Model_Year"));
         (py "data", JList [])].

Definition count_result : json :=
  JDict [(py "data", JList [JDict [(py "COUNT(*)", JInt 1234)]])].

Definition two_objects : str := sq "{'a': 1} {'b': 2}".

(** What the execute tool answers when it is given no query. *)
Definition no_query_text : str := sq "{'error': 'No SQL query provided.', 'data': []}".

Definition no_query_result : json :=
  JDict [(py "error", JStr (py "No SQL query provided.")); (py "data", JList [])].

(** A language model that answers every request with the same text, and
    one that cannot be reached. *)
Definition replies (text : str) : LLM := fun _ => Returned [TextBlock text].

Definition unreachable_llm : LLM :=
  fun _ => Raised (mkExc OtherException (py "Connection error.")).

(** A query the model has wrapped in a fence. *)
Definition fenced_query : str :=
  py "```sql" ++ [Ch.newline] ++ py "SELECT COUNT(*) FROM King" ++ [Ch.newline]
  ++ py "```".

(** A database that refuses every query. *)
Definition no_such_column_db : json -> Outcome json :=
  fun _ => Raised (mkExc OtherException (py "no such column: Model_Year")).

(** A database whose table has a column named [error]. *)
Definition error_column_db : json -> Outcome json :=
  fun _ => Returned (JList [JDict [(py "error", JStr (py "E0420"));
                                   (py "count", JInt 2)]]).

(** A row of the dictionary, and one without a definition. *)
Definition complete_row : Row :=
  [(py "Column Header", py "Make"); (py "Business Header", py "Manufacturer");
   (py "Definition", py "The maker of the vehicle"); (py "Example", py "TESLA")].

Definition incomplete_row : Row :=
  [(py "Column Header", py "Model"); (py "Business Header", py "Model name");
   (py "Example", py "MODEL 3")].

(** A database with one table, and one with a second table whose name has
    a space in it, which the [PRAGMA] statement cannot take. *)
Definition king_columns : list (str * str) :=
  [(py "VIN", py "TEXT"); (py "Model Year", py "INTEGER")].

Definition one_table : Database :=
  mkDatabase (Returned tt) (fun _ => Returned [py "King"])
             (fun _ => Returned king_columns).

Definition spaced_table : Database :=
  mkDatabase (Returned tt) (fun _ => Returned [py "King"; py "Pierce County"])
             (fun statement =>
                if str_eqb statement (py "PRAGMA table_info(King);")
                then Returned king_columns
                else Raised (mkExc OtherException (sq "near 'County': syntax error"))).

(** The query runs at once, and the answer stage is this repository's tool
    with a model that cannot be reached. *)
Definition answer_stage_fails : Stages :=
  fun name i a =>
    if str_eqb name execute_tool then answers "{'data': [{'COUNT(*)': 1234}]}"
    else if str_eqb name answer_tool
    then served (generate_final_answer plain_runtime unreachable_llm sample_question
                   count_result)
    else always_failing name i a.

(** Three ways of starting the server: the interpreter is missing, the
    handshake fails, and all goes well. *)
Definition server_missing : Launcher :=
  mkLauncher
    (fun _ => Raised (mkExc FileNotFoundError
                        (py "[Errno 2] No such file or directory: 'python'")))
    (fun s => Returned s) (fun _ => Returned tt) (fun _ => Returned [])
    (fun _ => Returned tt).

Definition handshake_fails : Launcher :=
  mkLauncher
    (fun _ => Returned (stream 0, stream 1))
    (fun s => Returned s)
    (fun _ => Raised (mkExc OtherException (py "Connection closed")))
    (fun _ => Returned []) (fun _ => Returned tt).

Definition server_starts : Launcher :=
  mkLauncher
    (fun _ => Returned (stream 0, stream 1))
    (fun s => Returned s) (fun _ => Returned tt)
    (fun _ => Returned [ner_tool; sql_tool; validator_tool; execute_tool; repair_tool;
                        answer_tool])
    (fun _ => Returned tt).

(** The object [connect] leaves behind when it has gone through. *)
Definition connected : Connected :=
  mkConnected connected_client
              [session_context (client_session (stream 0) (stream 1));
               stdio_context (py "server.py")].

(** ** Auxiliary notions for the proofs *)

(** A scan that ends makes progress, and none runs out of depth. *)
Definition shorter {A} (res : scan A) (s : str) : Prop :=
  match res with
  | Scanned _ r => List.length r < List.length s
  | TooDeep => False
  | _ => True
  end.

(** What the parser makes of the span it has cut out. *)
Definition decoded (body : str) : Outcome json :=
  match json_loads body with
  | Returned v => Returned v
  | Raised e => Returned (error_payload (py "JSON decoding error: " ++ exc_str e))
  end.

Functional Scheme scanstring_from_ind := Induction for scanstring_from Sort Prop.

(** Deciding the comparisons between the names of the stages. *)
Ltac decide_names :=
  repeat match goal with
         | |- context [str_eqb ?a ?b] =>
             let v := eval vm_compute in (str_eqb a b) in
             change (str_eqb a b) with v
         end;
  cbv beta iota.

(** Evaluating how often a stage was called in a known history. *)
Ltac decide_seen :=
  repeat match goal with
         | |- context [seen ?n ?h] =>
             let v := eval vm_compute in (seen n h) in
             change (seen n h) with v
         end.

(** *** Values that keep their identity on the way to the client *)

(** A string that [json.dumps] and [json.loads] hand back unchanged: made
    of code points, and with no high surrogate right before a low one (the
    two escapes the encoder writes for such a pair read back as the one
    character they spell). *)

Fixpoint transportable (s : str) : bool :=
  match s with
  | [] => true
  | c :: s' =>
      N.ltb c 1114112 &&
      match s' with
      | d :: _ => negb (is_high_surrogate c && is_low_surrogate d)
      | [] => true
      end &&
      transportable s'
  end.

(** A list of keys as a Python dict has them: none twice. *)

Fixpoint distinct (keys : list str) : bool :=
  match keys with
  | [] => true
  | k :: keys' => negb (existsb (fun k' => str_eqb k' k) keys') && distinct keys'
  end.

(** The values that keep their identity on the way through [json.dumps] and
    [json.loads]: no float (a float comes back as whatever its [repr] reads
    as), strings without a surrogate pair spelled as two code points, dicts
    as Python has them, with no key twice. *)
Fixpoint portable (v : json) : bool :=
  match v with
  | JNull | JBool _ | JInt _ => true
  | JFloat _ => false
  | JStr s => transportable s
  | JList l => forallb portable l
  | JDict d =>
      distinct (map fst d) &&
      forallb (fun kv => transportable (fst kv) && portable (snd kv)) d
  end.

Definition ascii_only (s : str) : bool := forallb (fun c => N.ltb c 128) s.

Definition is_dict (v : json) : bool :=
  match v with JDict _ => true | _ => false end.

(** *** The texts the helpers build *)

Definition dictionary_header : str :=
  py "This is the data dictionary. It explains the columns in the database tables:"
  ++ [Ch.newline].

Definition list_tables : str := py "SELECT name FROM sqlite_master WHERE type='table';".

Definition pragma (table_name : str) : str :=
  py "PRAGMA table_info(" ++ table_name ++ py ");".

Definition schema_header (names : list str) : str :=
  py "Database schema contains the following tables: "
  ++ join (py ",") (map (replace_char Ch.space []) names)
  ++ py ". Each table contains various columns with specific data types.".

Definition table_section (table_name : str) (columns : list (str * str)) : str :=
  [Ch.newline; Ch.newline] ++ py "Table: " ++ table_name ++ [Ch.newline]
  ++ py "Columns:" ++ [Ch.newline] ++ List.concat (map column_line columns).

(** *** Reading back what the encoder wrote *)

(** The text of a string after its opening quote, and what follows it. *)

Definition escaped (s rest : str) : str :=
  flat_map escape_char s ++ Ch.dquote :: rest.

(** Whether the scanner, having read a high surrogate, would take the
    text that follows for the escape of a low one. *)

Definition low_escape_follows (t : str) : bool :=
  match t with
  | b :: u2 :: k1 :: k2 :: k3 :: k4 :: _ :: _ =>
      N.eqb b Ch.backslash && N.eqb u2 117 &&
      match hex4 k1 k2 k3 k4 with
      | Some lo => is_low_surrogate lo
      | None => true
      end
  | _ => false
  end.

(** The four shapes in which the encoder writes a character. *)

Inductive escape_shape (c : N) : str -> Prop :=
| shape_plain :
    N.eqb c Ch.dquote = false -> N.eqb c Ch.backslash = false -> N.leb c 31 = false ->
    escape_shape c [c]
| shape_simple (e : N) :
    N.eqb e 117 = false -> simple_escape e = Some c ->
    escape_shape c [Ch.backslash; e]
| shape_u (h1 h2 h3 h4 : N) :
    hex4 h1 h2 h3 h4 = Some c ->
    escape_shape c [Ch.backslash; 117%N; h1; h2; h3; h4]
| shape_pair (h1 h2 h3 h4 k1 k2 k3 k4 hi lo : N) :
    hex4 h1 h2 h3 h4 = Some hi -> is_high_surrogate hi = true ->
    is_low_surrogate hi = false ->
    hex4 k1 k2 k3 k4 = Some lo -> is_low_surrogate lo = true ->
    join_surrogates hi lo = c ->
    escape_shape c [Ch.backslash; 117%N; h1; h2; h3; h4;
                    Ch.backslash; 117%N; k1; k2; k3; k4].

(** Where a number may end: at the end of the text, or in front of a
    character that continues neither its digits, a fraction nor an exponent. *)
Definition number_ends (rest : str) : bool :=
  match rest with
  | [] => true
  | c :: _ => negb (is_digit c || N.eqb c Ch.dot || N.eqb c 101 || N.eqb c 69)
  end.

Definition digits_of (d : Decimal.uint) : str := py (NilEmpty.string_of_uint d).

Definition leading_nonzero (d : Decimal.uint) : bool :=
  match d with
  | Decimal.Nil | Decimal.D0 _ => false
  | _ => true
  end.

Definition digit_step (acc : Z) (c : N) : Z := (acc * 10 + Z.of_N (c - Ch.zero))%Z.

(** The decimal text of an integer starts with a digit, or with a minus
    sign and a digit. *)
Definition opens_number (s : str) : bool :=
  match s with
  | c :: t =>
      is_digit c ||
      (N.eqb c Ch.minus && match t with d :: _ => is_digit d | [] => false end)
  | [] => false
  end.

(** A text that opens a value: its first character is neither white space,
    a closing bracket nor a byte order mark. *)
Definition opens_value (s : str) : bool :=
  match s with
  | c :: _ =>
      negb (is_whitespace c) && negb (N.eqb c Ch.rbracket) && negb (N.eqb c Ch.rbrace)
      && negb (N.eqb c 65279)
  | [] => false
  end.

(** The text of one member of a dict. *)
Definition member_text (rt : PyRuntime) (kv : str * json) : str :=
  encode_basestring_ascii (fst kv) ++ py ": " ++ json_dumps rt (snd kv).

(** What reading a serialised value back means: the scanner gives the
    value and stops where its text ends. *)
Definition reads_back (rt : PyRuntime) (v : json) : Prop :=
  portable v = true ->
  forall n rest,
    2 * List.length (json_dumps rt v) + 1 <= n ->
    number_ends rest = true ->
    scan_once n (json_dumps rt v ++ rest) = Scanned v rest.

(** Induction on a JSON value, through its lists and dicts. *)

Section JsonInduction.
Variable P : json -> Prop.
Hypothesis HNull : P JNull.
Hypothesis HBool : forall b, P (JBool b).
Hypothesis HInt : forall z, P (JInt z).
Hypothesis HFloat : forall f, P (JFloat f).
Hypothesis HStr : forall s, P (JStr s).
Hypothesis HList : forall l, Forall P l -> P (JList l).
Hypothesis HDict : forall d, Forall (fun kv => P (snd kv)) d -> P (JDict d).

Fixpoint json_induction (v : json) : P v :=
  match v with
  | JNull => HNull
  | JBool b => HBool b
  | JInt z => HInt z
  | JFloat f => HFloat f
  | JStr s => HStr s
  | JList l =>
      HList l ((fix items (l : list json) : Forall P l :=
                  match l with
                  | [] => Forall_nil P
                  | x :: l' => Forall_cons x (json_induction x) (items l')
                  end) l)
  | JDict d =>
      HDict d ((fix fields (d : list (str * json)) : Forall (fun kv => P (snd kv)) d :=
                  match d with
                  | [] => Forall_nil _
                  | kv :: d' => Forall_cons kv (json_induction (snd kv)) (fields d')
                  end) d)
  end.
End JsonInduction.

Ltac char_codes :=
  repeat match goal with
         | |- context [N_of_ascii ?a] =>
             let v := eval vm_compute in (N_of_ascii a) in change (N_of_ascii a) with v
         end.

(** * Properties *)

(** ** The decoder *)

Lemma scanstring_from_shorter (begin_ acc s : str) :
  shorter (scanstring_from begin_ acc s) s.
Proof.
  functional induction (scanstring_from begin_ acc s); simpl in *;
    try exact I; try lia;
    repeat match goal with
           | H : shorter ?x _ |- shorter ?x _ =>
               destruct x; simpl in *; try exact I; try contradiction; try lia
           end.
Qed.

Lemma shorter_weaken {A} (res : scan A) (s s' : str) :
  shorter res s -> List.length s <= List.length s' -> shorter res s'.
Proof. destruct res; simpl; intros; try exact I; try contradiction; lia. Qed.

Lemma scanstring_shorter (s : str) : shorter (scanstring s) s.
Proof.
  destruct s as [|c s]; simpl; [exact I|].
  eapply shorter_weaken; [apply scanstring_from_shorter | simpl; lia].
Qed.

Lemma skip_ws_length (s : str) : List.length (skip_ws s) <= List.length s.
Proof.
  induction s as [|c s IH]; simpl; [lia|].
  destruct (is_whitespace c); simpl; lia.
Qed.

Lemma span_digits_length (s : str) :
  List.length (snd (span_digits s)) <= List.length s.
Proof.
  induction s as [|c s IH]; simpl; [lia|].
  destruct (is_digit c); simpl; [|lia].
  destruct (span_digits s) as [ds r]. simpl in *. lia.
Qed.

Lemma match_integer_length (s ds r : str) :
  match_integer s = Some (ds, r) -> List.length r < List.length s.
Proof.
  destruct s as [|c s]; simpl; [discriminate|].
  destruct (N.eqb c Ch.zero).
  - intro H. injection H as <- <-. lia.
  - destruct (is_digit c); [|discriminate].
    pose proof (span_digits_length s) as Hl.
    destruct (span_digits s) as [ds' r']. intro H. injection H as <- <-.
    simpl in *. lia.
Qed.

Lemma match_frac_length (s ds r : str) :
  match_frac s = Some (ds, r) -> List.length r <= List.length s.
Proof.
  destruct s as [|c s]; simpl; [discriminate|].
  destruct (N.eqb c Ch.dot); [|discriminate].
  pose proof (span_digits_length s) as Hl.
  destruct (span_digits s) as [[|d ds'] r']; [discriminate|].
  intro H. injection H as <- <-. simpl in *. lia.
Qed.

Lemma match_exp_length (s ds r : str) :
  match_exp s = Some (ds, r) -> List.length r <= List.length s.
Proof.
  destruct s as [|c s]; simpl; [discriminate|].
  destruct (N.eqb c 101 || N.eqb c 69); [|discriminate].
  assert (Hs : forall s'' sign,
             List.length s'' <= List.length s ->
             match span_digits s'' with
             | ([], _) => None
             | (ds0, r0) => Some (c :: sign ++ ds0, r0)
             end = Some (ds, r) -> List.length r <= S (List.length s)).
  { intros s'' sign Hle. pose proof (span_digits_length s'') as Hl.
    destruct (span_digits s'') as [[|d ds'] r']; [discriminate|].
    intro H. injection H as <- <-. simpl in *. lia. }
  destruct s as [|g t]; [apply (Hs [] []); simpl; lia|].
  destruct (N.eqb g Ch.minus || N.eqb g Ch.plus).
  - apply Hs. simpl. lia.
  - apply (Hs (g :: t) []). lia.
Qed.

Lemma match_number_length (s : str) (v : json) (r : str) :
  match_number s = Some (v, r) -> List.length r < List.length s.
Proof.
  unfold match_number.
  set (p := match s with
            | c :: s' => if N.eqb c Ch.minus then (true, s') else (false, s)
            | [] => (false, s)
            end).
  assert (Hp : List.length (snd p) <= List.length s).
  { subst p. destruct s as [|c s']; simpl; [lia|].
    destruct (N.eqb c Ch.minus); simpl; lia. }
  destruct p as [neg s0]. simpl in Hp.
  destruct (match_integer s0) as [[int_part r1]|] eqn:Hi; [|discriminate].
  apply match_integer_length in Hi.
  set (q := match match_frac r1 with Some (f, r0) => (f, r0) | None => ([], r1) end).
  assert (Hq : List.length (snd q) <= List.length r1).
  { subst q. destruct (match_frac r1) as [[f r0]|] eqn:Hf; simpl; [|lia].
    apply match_frac_length in Hf. exact Hf. }
  destruct q as [frac r2]. simpl in Hq.
  set (q' := match match_exp r2 with Some (e, r0) => (e, r0) | None => ([], r2) end).
  assert (Hq' : List.length (snd q') <= List.length r2).
  { subst q'. destruct (match_exp r2) as [[e r0]|] eqn:He; simpl; [|lia].
    apply match_exp_length in He. exact He. }
  destruct q' as [exp r3]. simpl in Hq'.
  destruct frac, exp; intro H; injection H as _ <-; lia.
Qed.

Lemma starts_with_length (p s : str) :
  starts_with p s = true -> List.length p <= List.length s.
Proof.
  revert s. induction p as [|x p IH]; intros [|y s]; simpl; try lia; try discriminate.
  intro H. apply andb_true_iff in H as [_ H]. apply IH in H. lia.
Qed.

Lemma literal_length (name : string) (v0 : json) (s : str) (v : json) (r : str) :
  py name <> [] -> literal name v0 s = Some (v, r) -> List.length r < List.length s.
Proof.
  unfold literal. intros Hn.
  destruct (starts_with (py name) s) eqn:Hs; [|discriminate].
  intro H. injection H as _ <-. apply starts_with_length in Hs.
  rewrite length_skipn. destruct (py name); [contradiction Hn; reflexivity|].
  simpl in *. lia.
Qed.

Lemma scan_atom_shorter (s : str) : shorter (scan_atom s) s.
Proof.
  unfold scan_atom.
  repeat match goal with
         | |- context [first_some (literal ?n ?v s) ?rest] =>
             let H := fresh "H" in
             destruct (literal n v s) as [[? ?]|] eqn:H;
             [apply literal_length in H; [simpl; exact H | discriminate] |];
             unfold first_some at 1
         end.
  destruct (match_number s) as [[v r]|] eqn:Hm; simpl; [|exact I].
  apply match_number_length in Hm. exact Hm.
Qed.

Lemma scan_shorter (n : nat) :
  (forall s, 2 * List.length s + 1 <= n -> shorter (scan_once n s) s) /\
  (forall acc s, 2 * List.length s + 2 <= n -> shorter (parse_members n acc s) s) /\
  (forall acc s, 2 * List.length s + 2 <= n -> shorter (parse_elements n acc s) s).
Proof.
  induction n as [|n [IHs [IHm IHe]]].
  - repeat split; intros; lia.
  - repeat split.
    + intros s Hn. cbn [scan_once]. destruct s as [|c s1]; [exact I|].
      destruct (N.eqb c Ch.dquote).
      { pose proof (scanstring_shorter (c :: s1)) as Hs.
        destruct (scanstring (c :: s1)); simpl in *; try exact I; try contradiction; lia. }
      destruct (N.eqb c Ch.lbrace).
      { pose proof (skip_ws_length s1) as Hw.
        destruct (skip_ws s1) as [|c2 s2] eqn:Hk.
        - eapply shorter_weaken; [apply IHm|]; simpl in *; lia.
        - destruct (N.eqb c2 Ch.rbrace); [simpl in *; lia|].
          eapply shorter_weaken; [apply IHm|]; simpl in *; lia. }
      destruct (N.eqb c Ch.lbracket).
      { pose proof (skip_ws_length s1) as Hw.
        destruct (skip_ws s1) as [|c2 s2] eqn:Hk.
        - eapply shorter_weaken; [apply IHe|]; simpl in *; lia.
        - destruct (N.eqb c2 Ch.rbracket); [simpl in *; lia|].
          eapply shorter_weaken; [apply IHe|]; simpl in *; lia. }
      apply scan_atom_shorter.
    + intros acc s Hn. cbn [parse_members]. destruct s as [|c s1]; [exact I|].
      destruct (negb (N.eqb c Ch.dquote)); [exact I|].
      pose proof (scanstring_shorter (c :: s1)) as Hs.
      destruct (scanstring (c :: s1)) as [key r1| | |]; simpl in Hs; try exact I;
        try contradiction.
      pose proof (skip_ws_length r1) as Hw1.
      destruct (skip_ws r1) as [|c2 r2]; [exact I|].
      destruct (negb (N.eqb c2 Ch.colon)); [exact I|].
      pose proof (skip_ws_length r2) as Hw2.
      assert (Hv : shorter (scan_once n (skip_ws r2)) (skip_ws r2)).
      { apply IHs. simpl in *. lia. }
      destruct (scan_once n (skip_ws r2)) as [v r3| | |]; simpl in Hv; try exact I;
        try contradiction.
      pose proof (skip_ws_length r3) as Hw3.
      destruct (skip_ws r3) as [|c3 r4]; [exact I|].
      destruct (N.eqb c3 Ch.rbrace); [simpl in *; lia|].
      destruct (N.eqb c3 Ch.comma); [|exact I].
      pose proof (skip_ws_length r4) as Hw4.
      eapply shorter_weaken; [apply IHm|]; simpl in *; lia.
    + intros acc s Hn. cbn [parse_elements].
      assert (Hv : shorter (scan_once n s) s) by (apply IHs; lia).
      destruct (scan_once n s) as [v r1| | |]; simpl in Hv; try exact I;
        try contradiction.
      pose proof (skip_ws_length r1) as Hw1.
      destruct (skip_ws r1) as [|c r2]; [exact I|].
      destruct (N.eqb c Ch.rbracket); [simpl in *; lia|].
      destruct (N.eqb c Ch.comma); [|exact I].
      pose proof (skip_ws_length r2) as Hw2.
      eapply shorter_weaken; [apply IHe|]; simpl in *; lia.
Qed.

(** [json.loads] raises nothing but [JSONDecodeError]. *)
Lemma json_loads_raises_JSONDecodeError (doc : str) (e : PyExc) :
  json_loads doc = Raised e -> exc_class e = JSONDecodeError.
Proof.
  unfold json_loads.
  destruct (starts_with [65279%N] doc); [intro H; injection H as <-; reflexivity|].
  pose proof (skip_ws_length doc) as Hw.
  assert (Hs : shorter (scan_once (S (2 * List.length doc)) (skip_ws doc)) (skip_ws doc)).
  { apply scan_shorter. lia. }
  destruct (scan_once (S (2 * List.length doc)) (skip_ws doc)) as [v r| | |];
    simpl in Hs; try contradiction.
  - destruct (skip_ws r); [discriminate|]. intro H. injection H as <-. reflexivity.
  - intro H. injection H as <-. reflexivity.
  - intro H. injection H as <-. reflexivity.
Qed.

Lemma parse_members_dict (n : nat) :
  forall acc s v r, parse_members n acc s = Scanned v r -> exists d, v = JDict d.
Proof.
  induction n as [|n IH]; intros acc s v r; cbn [parse_members]; [discriminate|].
  destruct s as [|c s1]; [discriminate|].
  destruct (negb (N.eqb c Ch.dquote)); [discriminate|].
  destruct (scanstring (c :: s1)) as [key r1| | |]; try discriminate.
  destruct (skip_ws r1) as [|c2 r2]; [discriminate|].
  destruct (negb (N.eqb c2 Ch.colon)); [discriminate|].
  destruct (scan_once n (skip_ws r2)) as [v1 r3| | |]; try discriminate.
  destruct (skip_ws r3) as [|c3 r4]; [discriminate|].
  destruct (N.eqb c3 Ch.rbrace).
  - intro H. injection H as <- _. eexists. reflexivity.
  - destruct (N.eqb c3 Ch.comma); [|discriminate]. apply IH.
Qed.

(** A document that opens with a brace decodes to a dict, if at all. *)
Lemma json_loads_object (s : str) (v : json) :
  json_loads (Ch.lbrace :: s) = Returned v -> exists d, v = JDict d.
Proof.
  unfold json_loads. change (starts_with [65279%N] (Ch.lbrace :: s)) with false.
  cbv iota. change (skip_ws (Ch.lbrace :: s)) with (Ch.lbrace :: s).
  destruct (scan_once _ (Ch.lbrace :: s)) as [v1 r| | |] eqn:Hs; try discriminate.
  destruct (skip_ws r); [|discriminate]. intro H. injection H as <-.
  cbn [scan_once] in Hs. change (N.eqb Ch.lbrace Ch.dquote) with false in Hs.
  change (N.eqb Ch.lbrace Ch.lbrace) with true in Hs. cbv iota in Hs.
  destruct (skip_ws s) as [|c2 s2].
  - apply parse_members_dict in Hs. exact Hs.
  - destruct (N.eqb c2 Ch.rbrace).
    + injection Hs as <- _. eexists. reflexivity.
    + apply parse_members_dict in Hs. exact Hs.
Qed.

(** [find] and [rfind] give the first and the last occurrence. *)
Lemma find_from_absent (c : N) (s : str) (i : Z) :
  ~ In c s -> find_from c s i = (-1)%Z.
Proof.
  revert i. induction s as [|x s IH]; intros i Hn; simpl; [reflexivity|].
  destruct (N.eqb_spec x c) as [->|Hne].
  - contradiction Hn. left. reflexivity.
  - apply IH. intro Hi. apply Hn. right. exact Hi.
Qed.

Lemma find_from_first (c : N) (pre rest : str) (i : Z) :
  ~ In c pre ->
  find_from c (pre ++ c :: rest) i = (i + Z.of_nat (List.length pre))%Z.
Proof.
  revert i. induction pre as [|x pre IH]; intros i Hn; simpl.
  - rewrite N.eqb_refl. lia.
  - destruct (N.eqb_spec x c) as [->|Hne].
    + contradiction Hn. left. reflexivity.
    + rewrite IH; [lia|]. intro Hi. apply Hn. right. exact Hi.
Qed.

Lemma find_from_cases (c : N) (s : str) (i : Z) :
  (~ In c s /\ find_from c s i = (-1)%Z) \/
  (exists pre rest, s = pre ++ c :: rest /\ ~ In c pre /\
                    find_from c s i = (i + Z.of_nat (List.length pre))%Z).
Proof.
  revert i. induction s as [|x s IH]; intro i.
  - left. split; [intros []|reflexivity].
  - simpl. destruct (N.eqb_spec x c) as [->|Hne].
    + right. exists [], s. repeat split; [intros []|simpl; lia].
    + destruct (IH (i + 1)%Z) as [[Hn He] | (pre & rest & -> & Hn & He)].
      * left. split; [|exact He]. intros [Hx|Hi]; [contradiction|contradiction].
      * right. exists (x :: pre), rest. repeat split.
        -- intros [Hx|Hi]; [contradiction|contradiction].
        -- rewrite He. simpl List.length. lia.
Qed.

Lemma rfind_from_absent (c : N) (s : str) (i last : Z) :
  ~ In c s -> rfind_from c s i last = last.
Proof.
  revert i last. induction s as [|x s IH]; intros i last Hn; simpl; [reflexivity|].
  destruct (N.eqb_spec x c) as [->|Hne].
  - contradiction Hn. left. reflexivity.
  - apply IH. intro Hi. apply Hn. right. exact Hi.
Qed.

Lemma rfind_from_last (c : N) (pre rest : str) (i last : Z) :
  ~ In c rest ->
  rfind_from c (pre ++ c :: rest) i last = (i + Z.of_nat (List.length pre))%Z.
Proof.
  revert i last. induction pre as [|x pre IH]; intros i last Hn; simpl.
  - rewrite N.eqb_refl. rewrite rfind_from_absent by exact Hn. lia.
  - rewrite IH by exact Hn. lia.
Qed.

Lemma slice_middle (pre body post : str) :
  slice (pre ++ body ++ post) (Z.of_nat (List.length pre))
        (Z.of_nat (List.length pre) + Z.of_nat (List.length body)) = body.
Proof.
  unfold slice. rewrite Nat2Z.id.
  replace (Z.to_nat (Z.of_nat (List.length pre) + Z.of_nat (List.length body)
                     - Z.of_nat (List.length pre))) with (List.length body) by lia.
  rewrite skipn_app, skipn_all, Nat.sub_diag. simpl.
  rewrite firstn_app, firstn_all, Nat.sub_diag. simpl. apply app_nil_r.
Qed.

Lemma parse_no_open (text : str) :
  ~ In Ch.lbrace text ->
  _parse_llm_json_response text =
  Returned (error_payload (py "No valid JSON found in the response.")).
Proof.
  intro Hn. unfold _parse_llm_json_response, find.
  rewrite find_from_absent by exact Hn. reflexivity.
Qed.

Lemma parse_no_close (text : str) :
  ~ In Ch.rbrace text ->
  _parse_llm_json_response text =
  Returned (error_payload (py "No valid JSON found in the response.")).
Proof.
  intro Hn. unfold _parse_llm_json_response, rfind.
  rewrite rfind_from_absent by exact Hn. simpl Z.eqb.
  rewrite andb_false_r. reflexivity.
Qed.

Lemma parse_span (pre mid post : str) :
  ~ In Ch.lbrace pre -> ~ In Ch.rbrace post ->
  _parse_llm_json_response (pre ++ [Ch.lbrace] ++ mid ++ [Ch.rbrace] ++ post) =
  decoded ([Ch.lbrace] ++ mid ++ [Ch.rbrace]).
Proof.
  intros Hpre Hpost. unfold _parse_llm_json_response, find, rfind.
  cbn [app]. rewrite find_from_first by exact Hpre.
  replace (pre ++ Ch.lbrace :: mid ++ Ch.rbrace :: post)
    with ((pre ++ Ch.lbrace :: mid) ++ Ch.rbrace :: post)
    by (rewrite <- app_assoc; reflexivity).
  rewrite rfind_from_last by exact Hpost.
  rewrite length_app. cbn [List.length].
  destruct (Z.eqb_spec (0 + Z.of_nat (List.length pre)) (-1)) as [Hc|_]; [lia|].
  destruct (Z.eqb_spec (0 + Z.of_nat (List.length pre + S (List.length mid)) + 1) 0)
    as [Hc|_]; [lia|].
  cbn [negb andb].
  replace ((pre ++ Ch.lbrace :: mid) ++ Ch.rbrace :: post)
    with (pre ++ (Ch.lbrace :: mid ++ [Ch.rbrace]) ++ post)
    by (cbn [app]; rewrite <- !app_assoc; reflexivity).
  replace (0 + Z.of_nat (List.length pre))%Z with (Z.of_nat (List.length pre)) by lia.
  replace (0 + Z.of_nat (List.length pre + S (List.length mid)) + 1)%Z
    with (Z.of_nat (List.length pre)
          + Z.of_nat (List.length (Ch.lbrace :: mid ++ [Ch.rbrace])))%Z
    by (cbn [List.length]; rewrite length_app; cbn [List.length]; lia).
  rewrite slice_middle. unfold decoded.
  destruct (json_loads (Ch.lbrace :: mid ++ [Ch.rbrace])) as [v|e] eqn:Hl;
    cbn [obind]; [reflexivity|].
  apply json_loads_raises_JSONDecodeError in Hl. rewrite Hl. reflexivity.
Qed.

Lemma parse_inverted (a b c : str) :
  ~ In Ch.lbrace (a ++ Ch.rbrace :: b) -> ~ In Ch.rbrace (b ++ Ch.lbrace :: c) ->
  _parse_llm_json_response (a ++ Ch.rbrace :: b ++ Ch.lbrace :: c) =
  Returned (error_payload
              (py "JSON decoding error: Expecting value: line 1 column 1 (char 0)")).
Proof.
  intros Hl Hr. unfold _parse_llm_json_response, find, rfind.
  rewrite rfind_from_last by exact Hr.
  replace (a ++ Ch.rbrace :: b ++ Ch.lbrace :: c)
    with ((a ++ Ch.rbrace :: b) ++ Ch.lbrace :: c)
    by (rewrite <- app_assoc; reflexivity).
  rewrite find_from_first by exact Hl.
  rewrite length_app. cbn [List.length].
  destruct (Z.eqb_spec (0 + Z.of_nat (List.length a + S (List.length b))) (-1))
    as [Hc|_]; [lia|].
  destruct (Z.eqb_spec (0 + Z.of_nat (List.length a) + 1) 0) as [Hc|_]; [lia|].
  cbn [negb andb]. unfold slice.
  replace (Z.to_nat (0 + Z.of_nat (List.length a) + 1
                     - (0 + Z.of_nat (List.length a + S (List.length b)))))
    with 0 by lia.
  reflexivity.
Qed.

(** The parser returns, and what it returns is a dict. *)
Lemma parse_returns_dict (text : str) :
  exists d, _parse_llm_json_response text = Returned (JDict d).
Proof.
  unfold _parse_llm_json_response, find.
  destruct (find_from_cases Ch.lbrace text 0) as [[Hn He] | (pre & rest & -> & Hn & He)];
    rewrite He.
  - eexists. reflexivity.
  - destruct (Z.eqb_spec (0 + Z.of_nat (List.length pre)) (-1)) as [Hc|_]; [lia|].
    cbn [negb andb].
    destruct (negb (Z.eqb (rfind (pre ++ Ch.lbrace :: rest) Ch.rbrace + 1) 0));
      [|eexists; reflexivity].
    unfold slice.
    replace (Z.to_nat (0 + Z.of_nat (List.length pre))) with (List.length pre + 0) by lia.
    rewrite skipn_app, skipn_all2 by lia.
    replace (List.length pre + 0 - List.length pre) with 0 by lia.
    cbn [skipn app].
    destruct (Z.to_nat _) as [|k]; cbn [firstn].
    + eexists. reflexivity.
    + destruct (json_loads (Ch.lbrace :: firstn k rest)) as [v|e] eqn:Hl; cbn [obind].
      * apply json_loads_object in Hl as [d ->]. eexists. reflexivity.
      * apply json_loads_raises_JSONDecodeError in Hl. rewrite Hl.
        eexists. reflexivity.
Qed.

(** ** The parser and the dictionary *)

(** What C5 says of two objects in a row fails: the span from the first
    brace to the last is the whole text, it does not decode, and the parser
    answers with the payload of the failure. *)
Lemma two_objects_do_not_parse :
  slice two_objects (find two_objects Ch.lbrace) (rfind two_objects Ch.rbrace + 1)
  = two_objects /\
  json_loads two_objects
  = Raised (mkExc JSONDecodeError (py "Extra data: line 1 column 10 (char 9)")) /\
  _parse_llm_json_response two_objects
  = Returned (error_payload
                (py "JSON decoding error: Extra data: line 1 column 10 (char 9)")).
Proof.
  repeat split; vm_compute; reflexivity.
Qed.

(** C5, as the code has it.  An object inside prose is extracted; a text
    without an opening brace is a parse failure; two objects in a row are
    taken as one span, from the first brace to the last, which does not
    decode, so that they are a parse failure too. *)
Theorem parser_three_cases :
  _parse_llm_json_response (sq "foo {'a': 1} bar") = Returned (JDict [(py "a", JInt 1)]) /\
  (forall text, ~ In Ch.lbrace text ->
     _parse_llm_json_response text
     = Returned (error_payload (py "No valid JSON found in the response."))) /\
  slice two_objects (find two_objects Ch.lbrace) (rfind two_objects Ch.rbrace + 1)
  = two_objects /\
  _parse_llm_json_response two_objects
  = Returned (error_payload
                (py "JSON decoding error: Extra data: line 1 column 10 (char 9)")).
Proof.
  split; [vm_compute; reflexivity|].
  split; [exact parse_no_open|].
  split; vm_compute; reflexivity.
Qed.

Lemma parser_three_cases_witness :
  ~ In Ch.lbrace (py "I could not find the table.") /\
  _parse_llm_json_response (py "I could not find the table.")
  = Returned (error_payload (py "No valid JSON found in the response.")).
Proof.
  assert (Hn : ~ In Ch.lbrace (py "I could not find the table.")).
  { vm_compute. intuition discriminate. }
  split; [exact Hn|].
  exact (proj1 (proj2 parser_three_cases) (py "I could not find the table.") Hn).
Defined.



Section Dictionary.
Variable rt : PyRuntime.

(** The helper converts every failure into a string. *)
Lemma get_data_dictionary_description_returns (read_csv : Outcome DataFrame) :
  exists description, get_data_dictionary_description read_csv = Returned description.
Proof.
  unfold get_data_dictionary_description.
  destruct (obind read_csv _) as [description | e]; [eexists; reflexivity|].
  destruct (ExcClass_eqb (exc_class e) FileNotFoundError); eexists; reflexivity.
Qed.

Lemma ner_generator_dynamic_returns (read_csv : Outcome DataFrame) (llm : LLM)
    (question : str) :
  exists out, ner_generator_dynamic rt read_csv llm question = Returned out.
Proof.
  unfold ner_generator_dynamic.
  destruct (get_data_dictionary_description_returns read_csv) as [description ->].
  cbn [obind]. unfold except_Exception.
  destruct (obind (llm _) _) as [out | e]; eexists; reflexivity.
Qed.

End Dictionary.


(** ** Running computations *)

Section RunLemmas.
Context {World : Type}.
Variable h : Session World.

Lemma run_bind {A B} (p : Prog A) (f : A -> Prog B) (w : World) :
  run (bind p f) h w =
  match run p h w with
  | (Returned a, w1, tr1) =>
      let '(r, w2, tr2) := run (f a) h w1 in (r, w2, tr1 ++ tr2)
  | (Raised e, w1, tr1) => (Raised e, w1, tr1)
  end.
Proof.
  revert w. induction p as [a | e | name args k IH]; intro w; simpl.
  - destruct (run (f a) h w) as [[r w2] tr2]. reflexivity.
  - reflexivity.
  - destruct (h w name args) as [o w1]. rewrite IH.
    destruct (run (k o) h w1) as [[[a | e] w2] tr1]; [|reflexivity].
    destruct (run (f a) h w2) as [[r w3] tr2]. reflexivity.
Qed.

Lemma run_try_except {A} (p : Prog A) (handler : PyExc -> Prog A) (w : World) :
  run (try_except p handler) h w =
  match run p h w with
  | (Returned a, w1, tr1) => (Returned a, w1, tr1)
  | (Raised e, w1, tr1) =>
      let '(r, w2, tr2) := run (handler e) h w1 in (r, w2, tr1 ++ tr2)
  end.
Proof.
  revert w. induction p as [a | e | name args k IH]; intro w; simpl.
  - reflexivity.
  - destruct (run (handler e) h w) as [[r w2] tr2]. reflexivity.
  - destruct (h w name args) as [o w1]. rewrite IH.
    destruct (run (k o) h w1) as [[[a | e] w2] tr1]; [reflexivity|].
    destruct (run (handler e) h w2) as [[r w3] tr2]. reflexivity.
Qed.

Lemma run_lift {A} (o : Outcome A) (w : World) :
  run (lift o) h w = (o, w, []).
Proof. destruct o; reflexivity. Qed.

Lemma run_call_tool (name : str) (args : json) (w : World) :
  run (call_tool name args) h w =
  (fst (h w name args), snd (h w name args),
   [mkEvent name args (fst (h w name args))]).
Proof.
  unfold call_tool. simpl. destruct (h w name args) as [o w1].
  rewrite run_lift. reflexivity.
Qed.

(** A call followed by the rest of the computation. *)
Lemma run_call_then {A} (name : str) (args : json) (f : CallToolResult -> Prog A)
    (w : World) :
  run (bind (call_tool name args) f) h w =
  match h w name args with
  | (Returned r, w1) =>
      let '(res, w2, tr) := run (f r) h w1 in
      (res, w2, mkEvent name args (Returned r) :: tr)
  | (Raised e, w1) => (Raised e, w1, [mkEvent name args (Raised e)])
  end.
Proof.
  rewrite run_bind, run_call_tool.
  destruct (h w name args) as [[r | e] w1]; cbn [fst snd]; [|reflexivity].
  destruct (run (f r) h w1) as [[res w2] tr]. reflexivity.
Qed.

(** An evaluation step that makes no call. *)
Lemma run_lift_then {A B} (o : Outcome A) (f : A -> Prog B) (w : World) :
  run (bind (lift o) f) h w =
  match o with
  | Returned a => run (f a) h w
  | Raised e => (Raised e, w, [])
  end.
Proof.
  destruct o as [a | e]; cbn [lift bind]; reflexivity.
Qed.
End RunLemmas.

Lemma count_calls_app (name : str) (a b : list Event) :
  count_calls name (a ++ b) = count_calls name a + count_calls name b.
Proof.
  unfold count_calls, calls_to. rewrite filter_app, length_app. reflexivity.
Qed.

Lemma count_calls_cons (name : str) (ev : Event) (tr : list Event) :
  count_calls name (ev :: tr) =
  (if str_eqb (tool ev) name then 1 else 0) + count_calls name tr.
Proof.
  unfold count_calls, calls_to. simpl. destruct (str_eqb (tool ev) name); reflexivity.
Qed.

Lemma count_calls_nil (name : str) : count_calls name [] = 0.
Proof. reflexivity. Qed.

Lemma calls_to_cons (name : str) (ev : Event) (tr : list Event) :
  calls_to name (ev :: tr) =
  if str_eqb (tool ev) name then ev :: calls_to name tr else calls_to name tr.
Proof. reflexivity. Qed.

Lemma seen_app (name : str) (a b : list str) :
  seen name (a ++ b) = seen name a + seen name b.
Proof. unfold seen. rewrite filter_app, length_app. reflexivity. Qed.

Lemma str_eqb_refl (s : str) : str_eqb s s = true.
Proof. induction s as [|c s IH]; simpl; [reflexivity|]. rewrite N.eqb_refl. exact IH. Qed.

Lemma str_eqb_sym (a b : str) : str_eqb a b = str_eqb b a.
Proof.
  revert b. induction a as [|x a IH]; intros [|y b]; simpl; try reflexivity.
  rewrite N.eqb_sym, IH. reflexivity.
Qed.

Lemma seen_tools (name : str) (prefix : list Event) :
  seen name (map tool prefix) = count_calls name prefix.
Proof.
  unfold seen, count_calls, calls_to.
  induction prefix as [|ev prefix IH]; simpl; [reflexivity|].
  rewrite (str_eqb_sym name (tool ev)).
  destruct (str_eqb (tool ev) name); simpl; rewrite IH; reflexivity.
Qed.

Lemma replay_next (name : str) (args a : json) (o : Outcome CallToolResult)
    (prefix rest : list Event) :
  replay (prefix ++ mkEvent name args o :: rest) name (count_calls name prefix) a = o.
Proof.
  unfold replay, count_calls, calls_to. rewrite filter_app.
  rewrite nth_error_app2 by lia. rewrite Nat.sub_diag.
  simpl. rewrite str_eqb_refl. reflexivity.
Qed.

Section Replay.
Context {World : Type}.
Variable h : Session World.

(** Stages that replay the trace of a run give that run again. *)
Lemma run_replayed {A} (p : Prog A) :
  forall (w : World) (prefix : list Event),
    run p (staged (replay (prefix ++ snd (run p h w)))) (map tool prefix)
    = (fst (fst (run p h w)), map tool (prefix ++ snd (run p h w)), snd (run p h w)).
Proof.
  induction p as [a | e | name args k IH]; intros w prefix.
  - cbn [run fst snd]. rewrite app_nil_r. reflexivity.
  - cbn [run fst snd]. rewrite app_nil_r. reflexivity.
  - cbn [run]. destruct (h w name args) as [o w1].
    specialize (IH o w1 (prefix ++ [mkEvent name args o])).
    destruct (run (k o) h w1) as [[r w2] tr]. cbn [fst snd] in *.
    unfold staged at 1. rewrite seen_tools, replay_next.
    rewrite <- app_assoc in IH. cbn [app] in IH.
    rewrite map_app in IH. cbn [map tool] in IH. rewrite IH. reflexivity.
Qed.

(** So what holds of [ask] against all stages holds of it against every
    session: each run against a session is a run against stages. *)
Lemma every_run_is_staged (rt : PyRuntime) (self : SQLAgentClient) (question : str)
    (w : World) :
  exists stages,
    ask_staged rt stages self question
    = (fst (fst (run (ask rt self question) h w)), snd (run (ask rt self question) h w)).
Proof.
  exists (replay (snd (run (ask rt self question) h w))).
  unfold ask_staged.
  pose proof (run_replayed (ask rt self question) w []) as Hr.
  cbn [app map] in Hr. rewrite Hr. reflexivity.
Qed.
End Replay.

(** Counting the calls of a stage in a trace whose stages are known. *)
Ltac count_events :=
  cbn [fst snd app];
  rewrite ?count_calls_app, ?count_calls_cons, ?count_calls_nil,
          ?calls_to_cons;
  cbn [tool];
  decide_names.

Section Staged.
Variable rt : PyRuntime.
Variable stages : Stages.

(** A call whose answer is decoded at once. *)
Lemma run_staged_call_payload {A} (name : str) (args : json) (f : json -> Prog A)
    (history : list str) :
  run (bind (call_tool name args) (fun r => bind (lift (payload r)) f))
      (staged stages) history =
  match stage_payload (stages name (seen name history) args) with
  | Returned d =>
      let '(res, w, tr) := run (f d) (staged stages) (history ++ [name]) in
      (res, w, mkEvent name args (stages name (seen name history) args) :: tr)
  | Raised e =>
      (Raised e, history ++ [name],
       [mkEvent name args (stages name (seen name history) args)])
  end.
Proof.
  rewrite run_call_then. unfold staged at 1.
  destruct (stages name (seen name history) args) as [r | e];
    cbn [stage_payload obind]; [|reflexivity].
  rewrite run_lift_then. destruct (payload r) as [d | e]; reflexivity.
Qed.

Lemma error_bearing_in (d : json) :
  error_bearing d = true -> py_in (py "error") d = Returned true.
Proof.
  destruct d; simpl; try discriminate. intros ->. reflexivity.
Qed.

Lemma error_bearing_get (d default : json) :
  error_bearing d = true -> py_get d (py "error") default = Returned (error_of d).
Proof.
  destruct d as [| | | | | |fields]; simpl; try discriminate.
  unfold dict_has. destruct (dict_lookup fields (py "error")); [reflexivity|discriminate].
Qed.

Lemma error_free_in (d : json) :
  error_free d = true -> py_in (py "error") d = Returned false.
Proof.
  unfold error_free. destruct (py_in (py "error") d) as [[|]|]; try discriminate.
  reflexivity.
Qed.

(** One attempt that fails and is repaired. *)
Lemma retry_loop_failed_attempt (question : str) (i : nat) (later : list nat)
    (v : json) (d0 : option json) (history : list str) (d v' : json) :
  stage_payload (stages execute_tool (seen execute_tool history) (execute_arguments v))
  = Returned d ->
  error_bearing d = true ->
  stage_payload (stages repair_tool (seen repair_tool history)
                   (repair_arguments v (error_of d)))
  = Returned v' ->
  exists o1 o2,
    run (retry_loop rt question (i :: later) v d0) (staged stages) history =
    (let '(res, w, tr) :=
       run (retry_loop rt question later v' (Some d)) (staged stages)
           (history ++ [execute_tool; repair_tool]) in
     (res, w,
      mkEvent execute_tool (execute_arguments v) o1
      :: mkEvent repair_tool (repair_arguments v (error_of d)) o2 :: tr)).
Proof.
  intros He Hd Hr. cbn [retry_loop].
  rewrite run_call_then. unfold staged at 1.
  fold (execute_arguments v).
  destruct (stages execute_tool (seen execute_tool history) (execute_arguments v))
    as [r | e]; [|discriminate He].
  cbn [stage_payload obind] in He.
  rewrite run_lift_then, He, run_lift_then, (error_bearing_in _ Hd).
  cbn [negb]. rewrite run_lift_then, (error_bearing_get _ _ Hd).
  rewrite run_call_then. unfold staged at 1.
  fold (repair_arguments v (error_of d)).
  rewrite seen_app.
  change (seen repair_tool [execute_tool]) with 0. rewrite Nat.add_0_r.
  destruct (stages repair_tool (seen repair_tool history)
              (repair_arguments v (error_of d))) as [r2 | e]; [|discriminate Hr].
  cbn [stage_payload obind] in Hr.
  rewrite run_lift_then, Hr. rewrite <- app_assoc. cbn [app].
  exists (Returned r), (Returned r2).
  destruct (run (retry_loop rt question later v' (Some d)) (staged stages)
              (history ++ [execute_tool; repair_tool])) as [[res w] tr].
  reflexivity.
Qed.

(** The attempt that succeeds, and the answer. *)
Lemma retry_loop_successful_attempt (question : str) (i : nat) (later : list nat)
    (v : json) (d0 : option json) (history : list str) (result : json) (answer : str) :
  stage_payload (stages execute_tool (seen execute_tool history) (execute_arguments v))
  = Returned result ->
  error_free result = true ->
  stage_text (stages answer_tool (seen answer_tool history)
                (answer_arguments question result))
  = Returned answer ->
  exists o1 o2,
    run (retry_loop rt question (i :: later) v d0) (staged stages) history =
    (Returned answer, history ++ [execute_tool; answer_tool],
     [mkEvent execute_tool (execute_arguments v) o1;
      mkEvent answer_tool (answer_arguments question result) o2]).
Proof.
  intros He Hd Ha. cbn [retry_loop].
  rewrite run_call_then. unfold staged at 1.
  fold (execute_arguments v).
  destruct (stages execute_tool (seen execute_tool history) (execute_arguments v))
    as [r | e]; [|discriminate He].
  cbn [stage_payload obind] in He.
  rewrite run_lift_then, He, run_lift_then, (error_free_in _ Hd).
  cbn [negb]. rewrite run_call_then. unfold staged at 1.
  fold (answer_arguments question result).
  rewrite seen_app.
  change (seen answer_tool [execute_tool]) with 0. rewrite Nat.add_0_r.
  destruct (stages answer_tool (seen answer_tool history)
              (answer_arguments question result)) as [r2 | e]; [|discriminate Ha].
  cbn [stage_text obind] in Ha. rewrite run_lift, Ha.
  rewrite <- app_assoc. cbn [app].
  exists (Returned r), (Returned r2). reflexivity.
Qed.

(** The loop when the attempt after [j] failures succeeds. *)
Lemma retry_loop_succeeds (question : str) (result : json) (answer : str) (j : nat) :
  forall (attempts : list nat) (queries failures : nat -> json) (d0 : option json)
         (history : list str),
    j < List.length attempts ->
    attempts_fail stages (seen execute_tool history) queries failures j ->
    repairs_answer stages (seen repair_tool history) queries failures j ->
    stage_payload (stages execute_tool (seen execute_tool history + j)
                     (execute_arguments (queries j)))
    = Returned result ->
    error_free result = true ->
    stage_text (stages answer_tool (seen answer_tool history)
                  (answer_arguments question result))
    = Returned answer ->
    exists w tr,
      run (retry_loop rt question attempts (queries 0) d0) (staged stages) history
      = (Returned answer, w, tr) /\
      count_calls execute_tool tr = S j /\
      count_calls repair_tool tr = j /\
      map arguments_of (calls_to answer_tool tr) = [answer_arguments question result].
Proof.
  induction j as [|j IH];
    intros attempts queries failures d0 history Hlen Hfail Hrep Hok Hfree Hans;
    (destruct attempts as [|i later]; [simpl in Hlen; lia|]).
  - rewrite Nat.add_0_r in Hok.
    destruct (retry_loop_successful_attempt question i later (queries 0) d0 history _ _
                Hok Hfree Hans) as (o1 & o2 & Hrun).
    rewrite Hrun. do 2 eexists. split; [reflexivity|].
    repeat split; count_events; reflexivity.
  - destruct (Hfail 0) as (Hd & Hb); [lia|]. rewrite Nat.add_0_r in Hd.
    assert (Hv : 0 < S j) by lia. apply Hrep in Hv. rewrite Nat.add_0_r in Hv.
    destruct (retry_loop_failed_attempt question i later (queries 0) d0 history _ _
                Hd Hb Hv) as (o1 & o2 & Hrun).
    rewrite Hrun. clear Hrun.
    destruct (IH later (fun i => queries (S i)) (fun i => failures (S i))
                (Some (failures 0)) (history ++ [execute_tool; repair_tool]))
      as (w & tr & Hrun & Hce & Hcr & Hca).
    + simpl in Hlen. lia.
    + intros i0 Hi. rewrite seen_app.
      change (seen execute_tool [execute_tool; repair_tool]) with 1.
      replace (seen execute_tool history + 1 + i0)
        with (seen execute_tool history + S i0) by lia.
      apply Hfail. lia.
    + intros i0 Hi. rewrite seen_app.
      change (seen repair_tool [execute_tool; repair_tool]) with 1.
      replace (seen repair_tool history + 1 + i0)
        with (seen repair_tool history + S i0) by lia.
      apply Hrep. lia.
    + rewrite seen_app.
      change (seen execute_tool [execute_tool; repair_tool]) with 1.
      replace (seen execute_tool history + 1 + j)
        with (seen execute_tool history + S j) by lia.
      exact Hok.
    + exact Hfree.
    + rewrite seen_app.
      change (seen answer_tool [execute_tool; repair_tool]) with 0.
      rewrite Nat.add_0_r. exact Hans.
    + rewrite Hrun. do 2 eexists. split; [reflexivity|].
      repeat split; count_events; [lia | lia | exact Hca].
Qed.

(** The loop when every attempt fails and every repair answers. *)
Lemma retry_loop_exhausted (question : str) (attempts : list nat) :
  forall (queries failures : nat -> json) (d0 : option json) (history : list str),
    attempts_fail stages (seen execute_tool history) queries failures
                  (List.length attempts) ->
    repairs_answer stages (seen repair_tool history) queries failures
                   (List.length attempts) ->
    (attempts = [] -> exists d, d0 = Some d /\ error_bearing d = true) ->
    exists w tr last,
      run (retry_loop rt question attempts (queries 0) d0) (staged stages) history
      = (Returned (failed_message rt (error_of last)), w, tr) /\
      (last = match List.length attempts with
              | O => match d0 with Some d => d | None => JNull end
              | S n => failures n
              end) /\
      count_calls execute_tool tr = List.length attempts /\
      count_calls repair_tool tr = List.length attempts.
Proof.
  induction attempts as [|i later IH]; intros queries failures d0 history Hfail Hrep Hd0.
  - destruct (Hd0 eq_refl) as (d & -> & Hd).
    cbn [retry_loop]. rewrite run_lift_then, (error_bearing_get _ _ Hd).
    cbn [run]. exists history, [], d. repeat split.
  - destruct (Hfail 0) as (Hd & Hb); [simpl; lia|]. rewrite Nat.add_0_r in Hd.
    assert (Hv : 0 < List.length (i :: later)) by (simpl; lia).
    apply Hrep in Hv. rewrite Nat.add_0_r in Hv.
    destruct (retry_loop_failed_attempt question i later (queries 0) d0 history _ _
                Hd Hb Hv) as (o1 & o2 & Hrun).
    rewrite Hrun. clear Hrun.
    destruct (IH (fun i => queries (S i)) (fun i => failures (S i)) (Some (failures 0))
                (history ++ [execute_tool; repair_tool]))
      as (w & tr & last & Hrun & Hl & Hce & Hcr).
    + intros i0 Hi. rewrite seen_app.
      change (seen execute_tool [execute_tool; repair_tool]) with 1.
      replace (seen execute_tool history + 1 + i0)
        with (seen execute_tool history + S i0) by lia.
      apply Hfail. simpl. lia.
    + intros i0 Hi. rewrite seen_app.
      change (seen repair_tool [execute_tool; repair_tool]) with 1.
      replace (seen repair_tool history + 1 + i0)
        with (seen repair_tool history + S i0) by lia.
      apply Hrep. simpl. lia.
    + intros _. exists (failures 0). split; [reflexivity | exact Hb].
    + rewrite Hrun. exists w. eexists. exists last. split; [reflexivity|].
      split; [|split; count_events; cbn [List.length]; lia].
      rewrite Hl. cbn [List.length]. destruct (List.length later); reflexivity.
Qed.

(** The three stages before the loop, when each answers with a payload. *)
Lemma pipeline_staged (question : str) (ner_dict sql_dict v : json) :
  stage_payload (stages ner_tool 0 (ner_arguments question)) = Returned ner_dict ->
  stage_payload (stages sql_tool 0 (sql_arguments question ner_dict))
  = Returned sql_dict ->
  stage_payload (stages validator_tool 0
                   (validator_arguments question ner_dict sql_dict))
  = Returned v ->
  exists o1 o2 o3,
    run (pipeline rt question) (staged stages) [] =
    (let '(res, w, tr) :=
       run (retry_loop rt question (seq 0 max_retries) v None) (staged stages)
           [ner_tool; sql_tool; validator_tool] in
     (res, w,
      mkEvent ner_tool (ner_arguments question) o1
      :: mkEvent sql_tool (sql_arguments question ner_dict) o2
      :: mkEvent validator_tool (validator_arguments question ner_dict sql_dict) o3
      :: tr)).
Proof.
  intros H1 H2 H3. unfold pipeline.
  rewrite run_call_then. unfold staged at 1.
  fold (ner_arguments question). change (seen ner_tool []) with 0.
  destruct (stages ner_tool 0 (ner_arguments question)) as [r1 | e]; [|discriminate H1].
  cbn [stage_payload obind] in H1. rewrite run_lift_then, H1.
  rewrite run_call_then. unfold staged at 1.
  fold (sql_arguments question ner_dict). change (seen sql_tool ([] ++ [ner_tool])) with 0.
  destruct (stages sql_tool 0 (sql_arguments question ner_dict)) as [r2 | e];
    [|discriminate H2].
  cbn [stage_payload obind] in H2. rewrite run_lift_then, H2.
  rewrite run_call_then. unfold staged at 1.
  fold (validator_arguments question ner_dict sql_dict).
  change (seen validator_tool (([] ++ [ner_tool]) ++ [sql_tool])) with 0.
  destruct (stages validator_tool 0 (validator_arguments question ner_dict sql_dict))
    as [r3 | e]; [|discriminate H3].
  cbn [stage_payload obind] in H3. rewrite run_lift_then, H3.
  cbn [app].
  exists (Returned r1), (Returned r2), (Returned r3).
  destruct (run (retry_loop rt question (seq 0 max_retries) v None) (staged stages)
              [ner_tool; sql_tool; validator_tool]) as [[res w] tr].
  reflexivity.
Qed.
End Staged.

(** ** The orchestrator, against any session *)

Section AskProperties.
Variable rt : PyRuntime.
Context {World : Type}.
Variable h : Session World.



(** An iteration of the loop makes one execute call. *)
Lemma retry_loop_executes_at_most (attempts : list nat) :
  forall question v d w,
    count_calls execute_tool (snd (run (retry_loop rt question attempts v d) h w))
    <= List.length attempts.
Proof.
  induction attempts as [| i later IH]; intros question v d w.
  - cbn [retry_loop]. destruct d as [d|]; [|cbn; lia].
    rewrite run_lift_then. destruct (py_get d (py "error") JNull); cbn; lia.
  - cbn [retry_loop List.length]. rewrite run_call_then.
    destruct (h w execute_tool _) as [[r | e] w1]; [|count_events; lia].
    rewrite run_lift_then. destruct (payload r) as [db | e]; [|count_events; lia].
    rewrite run_lift_then.
    destruct (py_in (py "error") db) as [b | e]; [|count_events; lia].
    destruct b; cbn [negb].
    + rewrite run_lift_then. destruct (py_get db _ _) as [m | e]; [|count_events; lia].
      rewrite run_call_then.
      destruct (h w1 repair_tool _) as [[r2 | e] w2]; [|count_events; lia].
      rewrite run_lift_then. destruct (payload r2) as [v2 | e]; [|count_events; lia].
      specialize (IH question v2 (Some db) w2).
      destruct (run (retry_loop rt question later v2 (Some db)) h w2) as [[res w3] tr].
      cbn [fst snd] in *. count_events. lia.
    + rewrite run_call_then.
      destruct (h w1 answer_tool _) as [[r2 | e] w2]; [|count_events; lia].
      rewrite run_lift. destruct (first_text (content r2)); count_events; lia.
Qed.

(** C8.  Whatever the stages answer, [ask] makes at most three execute
    calls for a question. *)
Theorem ask_executes_at_most_three (self : SQLAgentClient) (question : str) (w : World) :
  count_calls execute_tool (snd (run (ask rt self question) h w)) <= max_retries.
Proof.
  unfold ask. destruct (session self) as [s|]; [|cbn; lia].
  rewrite run_try_except.
  assert (Hp : count_calls execute_tool (snd (run (pipeline rt question) h w))
               <= max_retries).
  { unfold pipeline. rewrite run_call_then.
    destruct (h w ner_tool _) as [[r1 | e] w1]; [|count_events; lia].
    rewrite run_lift_then. destruct (payload r1) as [ner_dict | e]; [|count_events; lia].
    rewrite run_call_then.
    destruct (h w1 sql_tool _) as [[r2 | e] w2]; [|count_events; lia].
    rewrite run_lift_then. destruct (payload r2) as [sql_dict | e]; [|count_events; lia].
    rewrite run_call_then.
    destruct (h w2 validator_tool _) as [[r3 | e] w3]; [|count_events; lia].
    rewrite run_lift_then. destruct (payload r3) as [v | e]; [|count_events; lia].
    pose proof (retry_loop_executes_at_most (seq 0 max_retries) question v None w3) as Hl.
    rewrite length_seq in Hl.
    destruct (run (retry_loop rt question (seq 0 max_retries) v None) h w3)
      as [[res w4] tr].
    cbn [fst snd] in *. count_events. lia. }
  destruct (run (pipeline rt question) h w) as [[[a | e] w1] tr]; cbn [fst snd] in *.
  - exact Hp.
  - cbn [run]. rewrite app_nil_r. exact Hp.
Qed.
End AskProperties.

(** ** The orchestrator, stage by stage *)

Section StagedAsk.
Variable rt : PyRuntime.
Variable stages : Stages.

Lemma ask_staged_connected (self : SQLAgentClient) (question : str) :
  session self <> None ->
  ask_staged rt stages self question =
  match run (pipeline rt question) (staged stages) [] with
  | (Returned a, _, tr) => (Returned a, tr)
  | (Raised e, _, tr) => (Returned (critical_message e), tr)
  end.
Proof.
  intro Hs. unfold ask_staged, ask.
  destruct (session self) as [s|]; [|contradiction Hs; reflexivity].
  rewrite run_try_except.
  destruct (run (pipeline rt question) (staged stages) []) as [[[a | e] w] tr];
    [reflexivity|].
  cbn [run]. rewrite app_nil_r. reflexivity.
Qed.


(** What the loop does when the query fails on all three attempts: three
    execute calls and three repair calls, the last of them for nothing, and
    the message that reports the third failure. *)
Lemma ask_exhausted (self : SQLAgentClient) (question : str)
    (ner_dict sql_dict : json) (queries failures : nat -> json) :
  session self <> None ->
  pre_loop_answers stages question ner_dict sql_dict (queries 0) ->
  attempts_fail stages 0 queries failures max_retries ->
  repairs_answer stages 0 queries failures max_retries ->
  fst (ask_staged rt stages self question)
  = Returned (failed_message rt (error_of (failures 2))) /\
  count_calls execute_tool (snd (ask_staged rt stages self question)) = 3 /\
  count_calls repair_tool (snd (ask_staged rt stages self question)) = 3.
Proof.
  intros Hs (H1 & H2 & H3) Hfail Hrep.
  rewrite (ask_staged_connected self question Hs).
  destruct (pipeline_staged rt stages question _ _ _ H1 H2 H3) as (o1 & o2 & o3 & Hrun).
  rewrite Hrun. clear Hrun.
  destruct (retry_loop_exhausted rt stages question (seq 0 max_retries)
              queries failures None [ner_tool; sql_tool; validator_tool])
    as (w & tr & last & Hrun & Hl & Hce & Hcr).
  - rewrite length_seq. exact Hfail.
  - rewrite length_seq. exact Hrep.
  - discriminate.
  - rewrite Hrun. cbn [fst snd]. rewrite Hl.
    split; [reflexivity|].
    rewrite length_seq in Hce, Hcr. split; count_events; assumption.
Qed.
End StagedAsk.

(** C2.  A query that fails on all three attempts: [ask] makes three execute
    calls and three repair calls, not two, and then reports the last error
    and the number of attempts. *)
Theorem three_failures_three_repairs (rt : PyRuntime) :
  fst (ask_staged rt always_failing connected_client sample_question)
  = Returned (py "Failed to execute the query after 3 attempts. Last error: Database query failed: no such column: Model_Year") /\
  count_calls execute_tool
    (snd (ask_staged rt always_failing connected_client sample_question)) = 3 /\
  count_calls repair_tool
    (snd (ask_staged rt always_failing connected_client sample_question)) = 3.
Proof.
  repeat split; vm_compute; reflexivity.
Qed.

(** The third repair call can only do harm: when it fails, the report of the
    last error is lost. *)
Lemma third_repair_failure_hides_the_error (rt : PyRuntime) :
  fst (ask_staged rt third_repair_unreachable connected_client sample_question)
  = Returned (py "A critical error occurred in the pipeline: Connection closed").
Proof. vm_compute. reflexivity. Qed.


Section PreLoop.
Variable rt : PyRuntime.
Variable stages : Stages.

Lemma extraction_fault (question : str) (e : PyExc) :
  stage_payload (stages ner_tool 0 (ner_arguments question)) = Raised e ->
  exists w o1,
    run (pipeline rt question) (staged stages) [] =
    (Raised e, w, [mkEvent ner_tool (ner_arguments question) o1]).
Proof.
  intro H1. unfold pipeline. fold (ner_arguments question).
  rewrite run_staged_call_payload. decide_seen. rewrite H1.
  do 2 eexists. reflexivity.
Qed.

Lemma synthesis_fault (question : str) (ner_dict : json) (e : PyExc) :
  stage_payload (stages ner_tool 0 (ner_arguments question)) = Returned ner_dict ->
  stage_payload (stages sql_tool 0 (sql_arguments question ner_dict)) = Raised e ->
  exists w o1 o2,
    run (pipeline rt question) (staged stages) [] =
    (Raised e, w, [mkEvent ner_tool (ner_arguments question) o1;
                   mkEvent sql_tool (sql_arguments question ner_dict) o2]).
Proof.
  intros H1 H2. unfold pipeline. fold (ner_arguments question).
  rewrite run_staged_call_payload. decide_seen. rewrite H1.
  fold (sql_arguments question ner_dict).
  rewrite run_staged_call_payload. decide_seen. rewrite H2.
  do 3 eexists. reflexivity.
Qed.

Lemma validation_fault (question : str) (ner_dict sql_dict : json) (e : PyExc) :
  stage_payload (stages ner_tool 0 (ner_arguments question)) = Returned ner_dict ->
  stage_payload (stages sql_tool 0 (sql_arguments question ner_dict))
  = Returned sql_dict ->
  stage_payload (stages validator_tool 0
                   (validator_arguments question ner_dict sql_dict)) = Raised e ->
  exists w o1 o2 o3,
    run (pipeline rt question) (staged stages) [] =
    (Raised e, w,
     [mkEvent ner_tool (ner_arguments question) o1;
      mkEvent sql_tool (sql_arguments question ner_dict) o2;
      mkEvent validator_tool (validator_arguments question ner_dict sql_dict) o3]).
Proof.
  intros H1 H2 H3. unfold pipeline. fold (ner_arguments question).
  rewrite run_staged_call_payload. decide_seen. rewrite H1.
  fold (sql_arguments question ner_dict).
  rewrite run_staged_call_payload. decide_seen. rewrite H2.
  fold (validator_arguments question ner_dict sql_dict).
  rewrite run_staged_call_payload. decide_seen. rewrite H3.
  do 4 eexists. reflexivity.
Qed.

Lemma payloads_are_handed_on (question : str) (ner_dict sql_dict v : json) :
  stage_payload (stages ner_tool 0 (ner_arguments question)) = Returned ner_dict ->
  stage_payload (stages sql_tool 0 (sql_arguments question ner_dict))
  = Returned sql_dict ->
  stage_payload (stages validator_tool 0
                   (validator_arguments question ner_dict sql_dict)) = Returned v ->
  exists res w o1 o2 o3 o4 rest,
    run (pipeline rt question) (staged stages) [] =
    (res, w,
     mkEvent ner_tool (ner_arguments question) o1
     :: mkEvent sql_tool (sql_arguments question ner_dict) o2
     :: mkEvent validator_tool (validator_arguments question ner_dict sql_dict) o3
     :: mkEvent execute_tool (execute_arguments v) o4 :: rest).
Proof.
  intros H1 H2 H3.
  destruct (pipeline_staged rt stages question _ _ _ H1 H2 H3)
    as (o1 & o2 & o3 & Hrun).
  rewrite Hrun. clear Hrun.
  cbn [seq max_retries retry_loop]. rewrite run_call_then.
  fold (execute_arguments v).
  destruct (staged stages [ner_tool; sql_tool; validator_tool] execute_tool
              (execute_arguments v)) as [[r | e4] w1].
  - destruct (run _ (staged stages) w1) as [[res w2] tr].
    repeat eexists.
  - repeat eexists.
Qed.

End PreLoop.

Section RepairFailure.
Variable rt : PyRuntime.

(** The execute tool on a dict without a usable [sql_query]: it reports an
    error and does not touch the database. *)
Lemma run_sqlite_query_without_query (sqlite : json -> Outcome json) (fields : dict) :
  truthy rt (match dict_lookup fields (py "sql_query") with
             | Some q => q
             | None => JNull
             end) = false ->
  run_sqlite_query rt sqlite (JDict fields) = Returned no_query_text.
Proof.
  intro Hq. unfold run_sqlite_query. cbn [py_get obind]. rewrite Hq. reflexivity.
Qed.

Lemma run_sqlite_query_on_error_payload (sqlite : json -> Outcome json) (message : str) :
  run_sqlite_query rt sqlite (error_payload message) = Returned no_query_text.
Proof. apply run_sqlite_query_without_query. reflexivity. Qed.

Lemma no_query_text_decodes :
  payload (text_result no_query_text) = Returned no_query_result.
Proof. vm_compute. reflexivity. Qed.

Lemma no_query_result_in : py_in (py "error") no_query_result = Returned true.
Proof. reflexivity. Qed.

Lemma no_query_result_get (default : json) :
  py_get no_query_result (py "error") default
  = Returned (JStr (py "No SQL query provided.")).
Proof. reflexivity. Qed.

(** The repair tool answers an unreachable model with an error payload. *)
Lemma handle_error_agent_invocation_error (llm : LLM) (fields : dict)
    (error_message : str) (e : PyExc) :
  (forall request, llm request = Raised e) ->
  handle_error_agent rt llm (JDict fields) error_message =
  Returned (json_dumps rt
              (error_payload (py "LLM Error in handle_error_agent: " ++ exc_str e))).
Proof.
  intro Hl. unfold handle_error_agent. cbn [py_get obind]. rewrite Hl. reflexivity.
Qed.

(** And a reply without braces with the payload of the parse failure. *)
Lemma handle_error_agent_parse_failure (llm : LLM) (fields : dict)
    (error_message text : str) :
  (forall request, llm request = Returned [TextBlock text]) ->
  ~ In Ch.lbrace text ->
  handle_error_agent rt llm (JDict fields) error_message =
  Returned (json_dumps rt (error_payload (py "No valid JSON found in the response."))).
Proof.
  intros Hl Hn. unfold handle_error_agent. cbn [py_get obind]. rewrite Hl.
  cbn [first_text obind except_Exception]. rewrite (parse_no_open text Hn).
  reflexivity.
Qed.

Variable stages : Stages.
Variable sqlite : json -> Outcome json.

(** The loop when the repair after [S j] failed attempts yields an error
    payload, and the execute stage is the tool of this repository. *)
Lemma retry_loop_unusable_repair (question message : str) (j : nat) :
  forall (attempts : list nat) (queries failures : nat -> json) (d0 : option json)
         (history : list str),
    S j < List.length attempts ->
    attempts_fail stages (seen execute_tool history) queries failures (S j) ->
    repairs_answer stages (seen repair_tool history) queries failures j ->
    stage_payload (stages repair_tool (seen repair_tool history + j)
                     (repair_arguments (queries j) (error_of (failures j))))
    = Returned (error_payload message) ->
    stages execute_tool (seen execute_tool history + S j)
           (execute_arguments (error_payload message))
    = served (run_sqlite_query rt sqlite (error_payload message)) ->
    exists res w tr o,
      run (retry_loop rt question attempts (queries 0) d0) (staged stages) history
      = (res, w, tr) /\
      nth_error (calls_to execute_tool tr) (S j)
      = Some (mkEvent execute_tool (execute_arguments (error_payload message))
                      (Returned (text_result no_query_text))) /\
      nth_error (calls_to repair_tool tr) (S j)
      = Some (mkEvent repair_tool
                      (repair_arguments (error_payload message)
                                        (JStr (py "No SQL query provided.")))
                      o).
Proof.
  induction j as [|j IH];
    intros attempts queries failures d0 history Hlen Hfail Hrep Hbad Hserver;
    (destruct attempts as [|i later]; [simpl in Hlen; lia|]).
  - destruct later as [|i' later]; [simpl in Hlen; lia|].
    destruct (Hfail 0) as (Hd & Hb); [lia|]. rewrite Nat.add_0_r in Hd.
    rewrite Nat.add_0_r in Hbad.
    destruct (retry_loop_failed_attempt rt stages question i (i' :: later) (queries 0)
                d0 history _ _ Hd Hb Hbad) as (o1 & o2 & Hrun).
    rewrite Hrun. clear Hrun. cbn [retry_loop].
    fold (execute_arguments (error_payload message)).
    rewrite run_staged_call_payload, seen_app.
    change (seen execute_tool [execute_tool; repair_tool]) with 1.
    rewrite Hserver, run_sqlite_query_on_error_payload.
    cbn [served stage_payload obind]. rewrite no_query_text_decodes.
    rewrite run_lift_then, no_query_result_in. cbn [negb].
    rewrite run_lift_then, no_query_result_get.
    fold (repair_arguments (error_payload message) (JStr (py "No SQL query provided."))).
    rewrite run_staged_call_payload. clear Hd Hbad.
    match goal with
    | |- context [stage_payload (stages repair_tool ?k ?a)] =>
        destruct (stage_payload (stages repair_tool k a)) as [v2 | e]
    end.
    + destruct (run _ (staged stages) _) as [[res w] tr].
      do 4 eexists. split; [reflexivity|]. count_events. split; reflexivity.
    + do 4 eexists. split; [reflexivity|]. count_events. split; reflexivity.
  - destruct (Hfail 0) as (Hd & Hb); [lia|]. rewrite Nat.add_0_r in Hd.
    assert (Hv : 0 < S j) by lia. apply Hrep in Hv. rewrite Nat.add_0_r in Hv.
    destruct (retry_loop_failed_attempt rt stages question i later (queries 0) d0
                history _ _ Hd Hb Hv) as (o1 & o2 & Hrun).
    rewrite Hrun. clear Hrun.
    destruct (IH later (fun i => queries (S i)) (fun i => failures (S i))
                (Some (failures 0)) (history ++ [execute_tool; repair_tool]))
      as (res & w & tr & o & Hrun & He & Hr).
    + simpl in Hlen. lia.
    + intros i0 Hi. rewrite seen_app.
      change (seen execute_tool [execute_tool; repair_tool]) with 1.
      replace (seen execute_tool history + 1 + i0)
        with (seen execute_tool history + S i0) by lia.
      apply Hfail. lia.
    + intros i0 Hi. rewrite seen_app.
      change (seen repair_tool [execute_tool; repair_tool]) with 1.
      replace (seen repair_tool history + 1 + i0)
        with (seen repair_tool history + S i0) by lia.
      apply Hrep. lia.
    + rewrite seen_app.
      change (seen repair_tool [execute_tool; repair_tool]) with 1.
      replace (seen repair_tool history + 1 + j)
        with (seen repair_tool history + S j) by lia.
      exact Hbad.
    + rewrite seen_app.
      change (seen execute_tool [execute_tool; repair_tool]) with 1.
      replace (seen execute_tool history + 1 + S j)
        with (seen execute_tool history + S (S j)) by lia.
      exact Hserver.
    + rewrite Hrun. do 3 eexists. exists o. split; [reflexivity|].
      count_events. cbn [nth_error]. split; assumption.
Qed.

End RepairFailure.

(** ** From the encoder to the decoder and back *)

(** *** Strings *)

Lemma hex_value_digit (d : N) : (d < 16)%N -> hex_value (hex_digit d) = Some d.
Proof.
  intro Hd.
  assert (H : In d [0;1;2;3;4;5;6;7;8;9;10;11;12;13;14;15]%N).
  { simpl. lia. }
  simpl in H. repeat (destruct H as [<- | H]; [reflexivity|]). contradiction.
Qed.

Lemma hex4_digits (c : N) :
  (c < 65536)%N ->
  hex4 (hex_digit (c / 4096)) (hex_digit ((c / 256) mod 16))
       (hex_digit ((c / 16) mod 16)) (hex_digit (c mod 16)) = Some c.
Proof.
  intro Hc. unfold hex4.
  rewrite !hex_value_digit by (zify; Z.to_euclidean_division_equations; lia).
  f_equal. zify. Z.to_euclidean_division_equations. lia.
Qed.

(** The steps of [scanstring] on the escapes the encoder writes. *)
Lemma scan_plain (bg acc t : str) (c : N) :
  N.eqb c Ch.dquote = false -> N.eqb c Ch.backslash = false -> N.leb c 31 = false ->
  scanstring_from bg acc (c :: t) = scanstring_from bg (c :: acc) t.
Proof. intros H1 H2 H3. cbn [scanstring_from]. rewrite H1, H2, H3. reflexivity. Qed.

Lemma scan_simple_escape (bg acc t : str) (e ch : N) :
  N.eqb e 117 = false -> simple_escape e = Some ch ->
  scanstring_from bg acc (Ch.backslash :: e :: t) = scanstring_from bg (ch :: acc) t.
Proof.
  intros H1 H2. cbn [scanstring_from].
  change (N.eqb Ch.backslash Ch.dquote) with false.
  change (N.eqb Ch.backslash Ch.backslash) with true. cbv iota.
  rewrite H1, H2. reflexivity.
Qed.

Lemma scan_u_escape (bg acc t : str) (h1 h2 h3 h4 uni : N) :
  hex4 h1 h2 h3 h4 = Some uni ->
  t <> [] ->
  is_high_surrogate uni && low_escape_follows t = false ->
  scanstring_from bg acc (Ch.backslash :: 117%N :: h1 :: h2 :: h3 :: h4 :: t)
  = scanstring_from bg (uni :: acc) t.
Proof.
  intros Hh Ht Hl. cbn [scanstring_from].
  change (N.eqb Ch.backslash Ch.dquote) with false.
  change (N.eqb Ch.backslash Ch.backslash) with true.
  change (N.eqb 117 117) with true. cbv iota.
  destruct t as [|b t1]; [contradiction Ht; reflexivity|].
  rewrite Hh. destruct (is_high_surrogate uni); [|reflexivity].
  cbn [andb] in Hl. unfold low_escape_follows in Hl.
  destruct t1 as [|u2 [|k1 [|k2 [|k3 [|k4 [|x t2]]]]]]; try reflexivity.
  destruct (N.eqb b Ch.backslash && N.eqb u2 117); [|reflexivity].
  cbn [andb] in Hl. destruct (hex4 k1 k2 k3 k4) as [lo|]; [|discriminate Hl].
  rewrite Hl. reflexivity.
Qed.

Lemma scan_u_escape_pair (bg acc t : str) (h1 h2 h3 h4 k1 k2 k3 k4 hi lo : N) :
  hex4 h1 h2 h3 h4 = Some hi -> is_high_surrogate hi = true ->
  hex4 k1 k2 k3 k4 = Some lo -> is_low_surrogate lo = true ->
  t <> [] ->
  scanstring_from bg acc
    (Ch.backslash :: 117%N :: h1 :: h2 :: h3 :: h4
     :: Ch.backslash :: 117%N :: k1 :: k2 :: k3 :: k4 :: t)
  = scanstring_from bg (join_surrogates hi lo :: acc) t.
Proof.
  intros Hh Hhi Hk Hlo Ht. cbn [scanstring_from].
  change (N.eqb Ch.backslash Ch.dquote) with false.
  change (N.eqb Ch.backslash Ch.backslash) with true.
  change (N.eqb 117 117) with true. cbv iota.
  rewrite Hh, Hhi. destruct t as [|x t1]; [contradiction Ht; reflexivity|].
  cbn [andb]. rewrite Hk, Hlo. reflexivity.
Qed.

Lemma low_escape_first (b : N) (t : str) :
  N.eqb b Ch.backslash = false -> low_escape_follows (b :: t) = false.
Proof.
  intro Hb. unfold low_escape_follows.
  destruct t as [|u2 [|k1 [|k2 [|k3 [|k4 [|x t]]]]]]; try reflexivity.
  rewrite Hb. reflexivity.
Qed.

Lemma low_escape_second (b u2 : N) (t : str) :
  N.eqb u2 117 = false -> low_escape_follows (b :: u2 :: t) = false.
Proof.
  intro Hu. unfold low_escape_follows.
  destruct t as [|k1 [|k2 [|k3 [|k4 [|x t]]]]]; try reflexivity.
  rewrite Hu, andb_false_r. reflexivity.
Qed.

Lemma low_escape_hex (b u2 k1 k2 k3 k4 v : N) (t : str) :
  hex4 k1 k2 k3 k4 = Some v -> is_low_surrogate v = false ->
  low_escape_follows (b :: u2 :: k1 :: k2 :: k3 :: k4 :: t) = false.
Proof.
  intros Hh Hv. unfold low_escape_follows. destruct t as [|x t]; [reflexivity|].
  rewrite Hh, Hv, andb_false_r. reflexivity.
Qed.

Lemma escaped_cons (c : N) (s rest : str) :
  escaped (c :: s) rest = escape_char c ++ escaped s rest.
Proof. unfold escaped. cbn [flat_map]. rewrite <- app_assoc. reflexivity. Qed.

Lemma escape_char_cons (c : N) : exists b t, escape_char c = b :: t.
Proof.
  unfold escape_char, u_escape.
  repeat match goal with
         | |- context [if ?b then _ else _] => destruct b
         end; cbn [app]; eauto.
Qed.

Lemma escaped_nonempty (s rest : str) : escaped s rest <> [].
Proof.
  destruct s as [|c s]; [discriminate|].
  rewrite escaped_cons. destruct (escape_char_cons c) as (b & t & ->). discriminate.
Qed.

(** The surrogate halves the encoder writes for a code point beyond the
    basic plane. *)
Lemma surrogate_halves (c : N) :
  (65536 <= c < 1114112)%N ->
  let n := (c - 65536)%N in
  let hi := (55296 + (n / 1024) mod 1024)%N in
  let lo := (56320 + n mod 1024)%N in
  (hi < 65536)%N /\ (lo < 65536)%N /\
  is_high_surrogate hi = true /\ is_low_surrogate hi = false /\
  is_low_surrogate lo = true /\ join_surrogates hi lo = c.
Proof.
  intros Hc n hi lo. subst n hi lo.
  unfold is_high_surrogate, is_low_surrogate, join_surrogates.
  repeat split;
    rewrite ?andb_true_iff, ?andb_false_iff, ?N.leb_le, ?N.leb_gt;
    zify; Z.to_euclidean_division_equations; lia.
Qed.

Lemma escape_char_shape (c : N) :
  (c < 1114112)%N -> escape_shape c (escape_char c).
Proof.
  intro Hc. unfold escape_char.
  destruct (N.eqb_spec c Ch.backslash) as [->|H1];
    [apply (shape_simple Ch.backslash Ch.backslash); reflexivity|].
  destruct (N.eqb_spec c Ch.dquote) as [->|H2];
    [apply (shape_simple Ch.dquote Ch.dquote); reflexivity|].
  destruct (N.eqb_spec c Ch.backspace) as [->|H3];
    [apply (shape_simple Ch.backspace 98%N); reflexivity|].
  destruct (N.eqb_spec c Ch.formfeed) as [->|H4];
    [apply (shape_simple Ch.formfeed 102%N); reflexivity|].
  destruct (N.eqb_spec c Ch.newline) as [->|H5];
    [apply (shape_simple Ch.newline 110%N); reflexivity|].
  destruct (N.eqb_spec c Ch.cr) as [->|H6];
    [apply (shape_simple Ch.cr 114%N); reflexivity|].
  destruct (N.eqb_spec c Ch.tab) as [->|H7];
    [apply (shape_simple Ch.tab 116%N); reflexivity|].
  destruct (N.leb 32 c && N.leb c 126) eqn:Hp.
  - apply andb_true_iff in Hp as [Hlo Hhi]. apply N.leb_le in Hlo.
    apply shape_plain.
    + apply N.eqb_neq. exact H2.
    + apply N.eqb_neq. exact H1.
    + apply N.leb_gt. lia.
  - destruct (N.ltb_spec c 65536) as [Hs|Hs].
    + unfold u_escape. apply shape_u. apply hex4_digits. exact Hs.
    + destruct (surrogate_halves c ltac:(lia)) as (Hh & Hl & Hhi & Hnl & Hlo & Hj).
      unfold u_escape. cbn [app].
      eapply shape_pair; try eassumption; apply hex4_digits; assumption.
Qed.

Lemma low_escape_after (s rest : str) :
  match s with
  | d :: _ => is_low_surrogate d = false /\ (d < 1114112)%N
  | [] => True
  end ->
  low_escape_follows (escaped s rest) = false.
Proof.
  destruct s as [|d s'].
  - intros _. apply low_escape_first. reflexivity.
  - intros [Hd Hr]. rewrite escaped_cons.
    destruct (escape_char_shape d Hr); cbn [app].
    + apply low_escape_first. assumption.
    + apply low_escape_second. assumption.
    + eapply low_escape_hex; eassumption.
    + eapply low_escape_hex; eassumption.
Qed.

(** The scanner reads back what the encoder wrote. *)
Lemma scan_escaped (s : str) :
  forall bg acc rest,
    transportable s = true ->
    scanstring_from bg acc (escaped s rest) = Scanned (rev acc ++ s) rest.
Proof.
  induction s as [|c s IH]; intros bg acc rest Ht.
  - unfold escaped. cbn [flat_map app scanstring_from].
    change (N.eqb Ch.dquote Ch.dquote) with true. cbv iota.
    rewrite app_nil_r. reflexivity.
  - cbn [transportable] in Ht.
    apply andb_true_iff in Ht as [Ht Hs]. apply andb_true_iff in Ht as [Hc Hp].
    apply N.ltb_lt in Hc.
    assert (Hnext : forall a, scanstring_from bg (c :: a) (escaped s rest)
                              = Scanned (rev a ++ c :: s) rest).
    { intro a. rewrite IH by exact Hs. cbn [rev]. rewrite <- app_assoc. reflexivity. }
    rewrite escaped_cons.
    destruct (escape_char_shape c Hc); cbn [app].
    + rewrite scan_plain by assumption. apply Hnext.
    + rewrite (scan_simple_escape bg acc _ e c) by assumption. apply Hnext.
    + rewrite (scan_u_escape bg acc _ h1 h2 h3 h4 c); [apply Hnext | assumption | |].
      * apply escaped_nonempty.
      * destruct (is_high_surrogate c) eqn:Hh; [|reflexivity].
        cbn [andb]. apply low_escape_after.
        destruct s as [|d s']; [exact I|].
        cbn [andb] in Hp. apply negb_true_iff in Hp. split; [exact Hp|].
        cbn [transportable] in Hs. apply andb_true_iff in Hs as [Hs _].
        apply andb_true_iff in Hs as [Hs _]. apply N.ltb_lt. exact Hs.
    + subst c.
      rewrite (scan_u_escape_pair bg acc _ h1 h2 h3 h4 k1 k2 k3 k4 hi lo);
        try assumption; [apply Hnext | apply escaped_nonempty].
Qed.

Lemma scanstring_encoded (s rest : str) :
  transportable s = true ->
  scanstring (encode_basestring_ascii s ++ rest) = Scanned s rest.
Proof.
  intro Ht. unfold encode_basestring_ascii, scanstring. cbn [app].
  rewrite <- app_assoc. cbn [app]. fold (escaped s rest).
  rewrite scan_escaped by exact Ht. reflexivity.
Qed.

(** *** Integers *)

Lemma py_String (c : ascii) (s : string) : py (String c s) = N_of_ascii c :: py s.
Proof. reflexivity. Qed.

Lemma span_digits_of (d : Decimal.uint) (rest : str) :
  number_ends rest = true ->
  span_digits (digits_of d ++ rest) = (digits_of d, rest).
Proof.
  intro Hr. unfold digits_of.
  induction d; cbn [NilEmpty.string_of_uint]; rewrite ?py_String;
    try (cbn [app span_digits];
         match goal with
         | |- context [is_digit ?c] =>
             let v := eval vm_compute in (is_digit c) in change (is_digit c) with v
         end; cbv iota; rewrite IHd; reflexivity).
  change (py "") with (@nil N). cbn [app].
  destruct rest as [|c rest]; [reflexivity|].
  cbn [number_ends] in Hr. apply negb_true_iff in Hr.
  apply orb_false_iff in Hr as [Hr _]. apply orb_false_iff in Hr as [Hr _].
  apply orb_false_iff in Hr as [Hr _].
  cbn [span_digits]. rewrite Hr. reflexivity.
Qed.

Lemma digits_value_acc (d : Decimal.uint) :
  forall acc : positive,
    fold_left digit_step (digits_of d) (Z.pos acc) = Z.pos (Pos.of_uint_acc d acc).
Proof.
  unfold digits_of.
  induction d; intro acc; cbn [NilEmpty.string_of_uint Pos.of_uint_acc];
    rewrite ?py_String; [reflexivity|..];
    cbn [fold_left];
    match goal with
    | |- fold_left _ _ ?z = Z.pos (Pos.of_uint_acc _ ?a) =>
        replace z with (Z.pos a)
          by (unfold digit_step;
              match goal with
              | |- context [Z.of_N ?n] =>
                  let v := eval vm_compute in (Z.of_N n) in change (Z.of_N n) with v
              end; lia)
    end; apply IHd.
Qed.

Lemma digits_value_of (d : Decimal.uint) :
  digits_value (digits_of d) = Z.of_N (Pos.of_uint d).
Proof.
  unfold digits_value. change (fun acc c => (acc * 10 + Z.of_N (c - Ch.zero))%Z) with digit_step.
  unfold digits_of.
  induction d; cbn [NilEmpty.string_of_uint Pos.of_uint]; rewrite ?py_String;
    [reflexivity|..]; cbn [fold_left];
    try (match goal with
         | |- fold_left _ _ ?z = Z.of_N (N.pos (Pos.of_uint_acc _ ?a)) =>
             change z with (Z.pos a)
         end; apply digits_value_acc).
  exact IHd.
Qed.

Lemma to_uint_leading (p : positive) : leading_nonzero (Pos.to_uint p) = true.
Proof.
  assert (Hn : Pos.to_uint p = Decimal.unorm (Pos.to_uint p)).
  { rewrite <- DecimalPos.Unsigned.to_of, DecimalPos.Unsigned.of_to. reflexivity. }
  pose proof (DecimalPos.Unsigned.to_uint_nonzero p) as Hz.
  pose proof (DecimalFacts.nzhead_nonzero (Pos.to_uint p)) as Hh.
  rewrite Hn. rewrite Hn in Hz. unfold Decimal.unorm in *.
  destruct (Decimal.nzhead (Pos.to_uint p)); try reflexivity.
  - contradiction Hz. reflexivity.
  - exfalso. eapply Hh. reflexivity.
Qed.

Lemma match_integer_digits (d : Decimal.uint) (rest : str) :
  leading_nonzero d = true -> number_ends rest = true ->
  match_integer (digits_of d ++ rest) = Some (digits_of d, rest).
Proof.
  intros Hd Hr.
  destruct d; try discriminate Hd; unfold digits_of;
    cbn [NilEmpty.string_of_uint]; rewrite py_String; cbn [app match_integer];
    match goal with
    | |- context [N.eqb ?c Ch.zero] =>
        let v := eval vm_compute in (N.eqb c Ch.zero) in change (N.eqb c Ch.zero) with v
    end;
    match goal with
    | |- context [is_digit ?c] =>
        let v := eval vm_compute in (is_digit c) in change (is_digit c) with v
    end; cbv iota;
    fold (digits_of d); rewrite span_digits_of by exact Hr; reflexivity.
Qed.

Lemma number_ends_no_frac (rest : str) : number_ends rest = true -> match_frac rest = None.
Proof.
  destruct rest as [|c rest]; [reflexivity|]. cbn [number_ends]. intro H.
  apply negb_true_iff in H. apply orb_false_iff in H as [H _].
  apply orb_false_iff in H as [H _]. apply orb_false_iff in H as [_ H].
  cbn [match_frac]. rewrite H. reflexivity.
Qed.

Lemma number_ends_no_exp (rest : str) : number_ends rest = true -> match_exp rest = None.
Proof.
  destruct rest as [|c rest]; [reflexivity|]. cbn [number_ends]. intro H.
  apply negb_true_iff in H. apply orb_false_iff in H as [H H69].
  apply orb_false_iff in H as [_ H101].
  cbn [match_exp]. rewrite H101, H69. reflexivity.
Qed.

Lemma match_number_digits (d : Decimal.uint) (rest : str) :
  leading_nonzero d = true -> number_ends rest = true ->
  match_number (digits_of d ++ rest) = Some (JInt (Z.of_N (Pos.of_uint d)), rest) /\
  match_number (Ch.minus :: digits_of d ++ rest)
  = Some (JInt (- Z.of_N (Pos.of_uint d)), rest).
Proof.
  intros Hd Hr. unfold match_number. split.
  - assert (Hfirst : exists c t, digits_of d ++ rest = c :: t /\ N.eqb c Ch.minus = false).
    { destruct d; try discriminate Hd; unfold digits_of;
        cbn [NilEmpty.string_of_uint]; rewrite py_String; cbn [app];
        eexists; eexists; (split; [reflexivity|]); reflexivity. }
    destruct Hfirst as (c & t & Heq & Hc). rewrite Heq, Hc. rewrite <- Heq.
    rewrite match_integer_digits by assumption.
    rewrite number_ends_no_frac, number_ends_no_exp by assumption.
    rewrite digits_value_of. reflexivity.
  - change (N.eqb Ch.minus Ch.minus) with true. cbv iota.
    rewrite match_integer_digits by assumption.
    rewrite number_ends_no_frac, number_ends_no_exp by assumption.
    rewrite digits_value_of. reflexivity.
Qed.

Lemma match_number_str_of_Z (z : Z) (rest : str) :
  number_ends rest = true ->
  match_number (str_of_Z z ++ rest) = Some (JInt z, rest).
Proof.
  intro Hr. unfold str_of_Z. destruct z as [|p|p]; cbn [Z.to_int NilZero.string_of_int].
  - change (py (NilZero.string_of_uint (Decimal.D0 Decimal.Nil))) with [Ch.zero].
    cbn [app]. unfold match_number.
    change (N.eqb Ch.zero Ch.minus) with false. cbv iota.
    cbn [match_integer]. change (N.eqb Ch.zero Ch.zero) with true. cbv iota.
    rewrite number_ends_no_frac, number_ends_no_exp by assumption. reflexivity.
  - pose proof (to_uint_leading p) as Hl.
    assert (Hs : NilZero.string_of_uint (Pos.to_uint p)
                 = NilEmpty.string_of_uint (Pos.to_uint p)).
    { destruct (Pos.to_uint p); try reflexivity. discriminate Hl. }
    rewrite Hs. fold (digits_of (Pos.to_uint p)).
    rewrite (proj1 (match_number_digits _ rest Hl Hr)).
    rewrite DecimalPos.Unsigned.of_to. reflexivity.
  - pose proof (to_uint_leading p) as Hl.
    assert (Hs : NilZero.string_of_uint (Pos.to_uint p)
                 = NilEmpty.string_of_uint (Pos.to_uint p)).
    { destruct (Pos.to_uint p); try reflexivity. discriminate Hl. }
    rewrite Hs. rewrite py_String. fold (digits_of (Pos.to_uint p)).
    change (N_of_ascii "-") with Ch.minus. cbn [app].
    rewrite (proj2 (match_number_digits _ rest Hl Hr)).
    rewrite DecimalPos.Unsigned.of_to. reflexivity.
Qed.

(** *** Values *)

Lemma scan_once_S (n : nat) (s : str) :
  scan_once (S n) s =
  match s with
  | [] => StopIteration_at s
  | c :: s1 =>
      if N.eqb c Ch.dquote then
        match scanstring s with
        | Scanned t r => Scanned (JStr t) r
        | DecodeError_at m a => DecodeError_at m a
        | StopIteration_at a => StopIteration_at a
        | TooDeep => TooDeep
        end
      else if N.eqb c Ch.lbrace then
        match skip_ws s1 with
        | c2 :: s2 =>
            if N.eqb c2 Ch.rbrace then Scanned (JDict []) s2
            else parse_members n [] (c2 :: s2)
        | [] => parse_members n [] []
        end
      else if N.eqb c Ch.lbracket then
        match skip_ws s1 with
        | c2 :: s2 =>
            if N.eqb c2 Ch.rbracket then Scanned (JList []) s2
            else parse_elements n [] (c2 :: s2)
        | [] => parse_elements n [] []
        end
      else scan_atom s
  end.
Proof. reflexivity. Qed.

Lemma parse_members_S (n : nat) (acc : dict) (s : str) :
  parse_members (S n) acc s =
  match s with
  | [] => DecodeError_at "Expecting property name enclosed in double quotes" s
  | c :: _ =>
      if negb (N.eqb c Ch.dquote)
      then DecodeError_at "Expecting property name enclosed in double quotes" s
      else
        match scanstring s with
        | Scanned key r1 =>
            match skip_ws r1 with
            | [] => DecodeError_at "Expecting ':' delimiter" []
            | c2 :: r2 =>
                if negb (N.eqb c2 Ch.colon)
                then DecodeError_at "Expecting ':' delimiter" (c2 :: r2)
                else
                  match scan_once n (skip_ws r2) with
                  | Scanned v r3 =>
                      let acc' := dict_set acc key v in
                      match skip_ws r3 with
                      | [] => DecodeError_at "Expecting ',' delimiter" []
                      | c3 :: r4 =>
                          if N.eqb c3 Ch.rbrace then Scanned (JDict acc') r4
                          else if N.eqb c3 Ch.comma
                          then parse_members n acc' (skip_ws r4)
                          else DecodeError_at "Expecting ',' delimiter" (c3 :: r4)
                      end
                  | other => other
                  end
            end
        | DecodeError_at m a => DecodeError_at m a
        | StopIteration_at a => StopIteration_at a
        | TooDeep => TooDeep
        end
  end.
Proof. reflexivity. Qed.

Lemma parse_elements_S (n : nat) (acc : list json) (s : str) :
  parse_elements (S n) acc s =
  match scan_once n s with
  | Scanned v r1 =>
      match skip_ws r1 with
      | [] => DecodeError_at "Expecting ',' delimiter" []
      | c :: r2 =>
          if N.eqb c Ch.rbracket then Scanned (JList (acc ++ [v])) r2
          else if N.eqb c Ch.comma then parse_elements n (acc ++ [v]) (skip_ws r2)
          else DecodeError_at "Expecting ',' delimiter" (c :: r2)
      end
  | other => other
  end.
Proof. reflexivity. Qed.

Lemma literal_head (name : string) (v : json) (c x : N) (p t : str) :
  py name = x :: p -> N.eqb x c = false -> literal name v (c :: t) = None.
Proof.
  intros Hn Hx. unfold literal. rewrite Hn. cbn [starts_with]. rewrite Hx. reflexivity.
Qed.

Lemma literal_second (name : string) (v : json) (c c2 x y : N) (p t : str) :
  py name = x :: y :: p -> N.eqb y c2 = false -> literal name v (c :: c2 :: t) = None.
Proof.
  intros Hn Hy. unfold literal. rewrite Hn. cbn [starts_with]. rewrite Hy.
  rewrite andb_false_r. reflexivity.
Qed.

Lemma digits_of_head (d : Decimal.uint) :
  leading_nonzero d = true ->
  exists c t, digits_of d = c :: t /\ is_digit c = true.
Proof.
  intro Hd. destruct d; try discriminate Hd; unfold digits_of;
    cbn [NilEmpty.string_of_uint]; rewrite py_String;
    eexists; eexists; (split; [reflexivity|reflexivity]).
Qed.

Lemma str_of_Z_opens (z : Z) : opens_number (str_of_Z z) = true.
Proof.
  unfold str_of_Z. destruct z as [|p|p]; cbn [Z.to_int NilZero.string_of_int].
  - reflexivity.
  - pose proof (to_uint_leading p) as Hl.
    assert (Hs : NilZero.string_of_uint (Pos.to_uint p)
                 = NilEmpty.string_of_uint (Pos.to_uint p)).
    { destruct (Pos.to_uint p); try reflexivity. discriminate Hl. }
    rewrite Hs. fold (digits_of (Pos.to_uint p)).
    destruct (digits_of_head _ Hl) as (c & t & -> & Hc).
    cbn [opens_number]. rewrite Hc. reflexivity.
  - pose proof (to_uint_leading p) as Hl.
    assert (Hs : NilZero.string_of_uint (Pos.to_uint p)
                 = NilEmpty.string_of_uint (Pos.to_uint p)).
    { destruct (Pos.to_uint p); try reflexivity. discriminate Hl. }
    rewrite Hs, py_String. fold (digits_of (Pos.to_uint p)).
    destruct (digits_of_head _ Hl) as (c & t & -> & Hc).
    cbn [opens_number]. rewrite Hc.
    change (N.eqb (N_of_ascii "-") Ch.minus) with true. apply orb_true_r.
Qed.

Lemma is_digit_range (c : N) : is_digit c = true -> (48 <= c <= 57)%N.
Proof.
  unfold is_digit. intro H. apply andb_true_iff in H as [H1 H2].
  apply N.leb_le in H1, H2. unfold Ch.zero, Ch.nine in *. lia.
Qed.

Lemma eqb_out_of_range (c k : N) : (c <> k)%N -> N.eqb c k = false.
Proof. apply N.eqb_neq. Qed.

Lemma eqb_out_of_range' (c k : N) : (c <> k)%N -> N.eqb k c = false.
Proof. intro H. apply N.eqb_neq. congruence. Qed.

(** A text that opens a number is no named constant. *)
Lemma scan_atom_number (s : str) :
  opens_number s = true ->
  scan_atom s = match match_number s with
                | Some (v, r) => Scanned v r
                | None => StopIteration_at s
                end.
Proof.
  destruct s as [|c t]; [discriminate|]. cbn [opens_number]. intro H.
  unfold scan_atom.
  assert (Hc : (48 <= c <= 57)%N \/
               (c = Ch.minus /\ exists d t', t = d :: t' /\ (48 <= d <= 57)%N)).
  { apply orb_true_iff in H as [H|H].
    - left. apply is_digit_range. exact H.
    - right. apply andb_true_iff in H as [H1 H2]. apply N.eqb_eq in H1.
      split; [exact H1|]. destruct t as [|d t']; [discriminate|].
      exists d, t'. split; [reflexivity|]. apply is_digit_range. exact H2. }
  assert (H1 : literal "null" JNull (c :: t) = None).
  { eapply literal_head; [reflexivity|]. apply eqb_out_of_range'. char_codes.
    destruct Hc as [Hc|[Hc _]]; [lia|rewrite Hc; discriminate]. }
  assert (H2 : literal "true" (JBool true) (c :: t) = None).
  { eapply literal_head; [reflexivity|]. apply eqb_out_of_range'. char_codes.
    destruct Hc as [Hc|[Hc _]]; [lia|rewrite Hc; discriminate]. }
  assert (H3 : literal "false" (JBool false) (c :: t) = None).
  { eapply literal_head; [reflexivity|]. apply eqb_out_of_range'. char_codes.
    destruct Hc as [Hc|[Hc _]]; [lia|rewrite Hc; discriminate]. }
  assert (H4 : literal "NaN" (JFloat (py "NaN")) (c :: t) = None).
  { eapply literal_head; [reflexivity|]. apply eqb_out_of_range'. char_codes.
    destruct Hc as [Hc|[Hc _]]; [lia|rewrite Hc; discriminate]. }
  assert (H5 : literal "Infinity" (JFloat (py "Infinity")) (c :: t) = None).
  { eapply literal_head; [reflexivity|]. apply eqb_out_of_range'. char_codes.
    destruct Hc as [Hc|[Hc _]]; [lia|rewrite Hc; discriminate]. }
  assert (H6 : literal "-Infinity" (JFloat (py "-Infinity")) (c :: t) = None).
  { destruct Hc as [Hc|(Hc & d & t' & -> & Hd)].
    - eapply literal_head; [reflexivity|]. apply eqb_out_of_range'.
      char_codes. lia.
    - eapply literal_second; [reflexivity|]. apply eqb_out_of_range'.
      char_codes. lia. }
  rewrite H1, H2, H3, H4, H5, H6. reflexivity.
Qed.

Lemma opens_number_app (s rest : str) :
  opens_number s = true -> opens_number (s ++ rest) = true.
Proof.
  destruct s as [|c [|d t]]; try discriminate; cbn [opens_number app]; [|trivial].
  intro H. apply orb_true_iff in H as [H|H]; [rewrite H; reflexivity|].
  rewrite andb_false_r in H. discriminate.
Qed.

Lemma scan_once_int (n : nat) (z : Z) (rest : str) :
  number_ends rest = true ->
  scan_once (S n) (str_of_Z z ++ rest) = Scanned (JInt z) rest.
Proof.
  intro Hr. pose proof (str_of_Z_opens z) as Ho.
  pose proof (opens_number_app _ rest Ho) as Ho'.
  pose proof (match_number_str_of_Z z rest Hr) as Hm.
  pose proof (scan_atom_number _ Ho') as Ha. rewrite Hm in Ha.
  rewrite scan_once_S.
  destruct (str_of_Z z ++ rest) as [|c t] eqn:Heq; [discriminate|].
  assert (Hc : (48 <= c <= 57)%N \/ c = Ch.minus).
  { cbn [opens_number] in Ho'. apply orb_true_iff in Ho' as [H|H].
    - left. apply is_digit_range. exact H.
    - right. apply andb_true_iff in H as [H _]. apply N.eqb_eq. exact H. }
  assert (E1 : N.eqb c Ch.dquote = false).
  { apply eqb_out_of_range. unfold Ch.dquote.
    destruct Hc as [Hc| ->]; [lia|discriminate]. }
  assert (E2 : N.eqb c Ch.lbrace = false).
  { apply eqb_out_of_range. unfold Ch.lbrace.
    destruct Hc as [Hc| ->]; [lia|discriminate]. }
  assert (E3 : N.eqb c Ch.lbracket = false).
  { apply eqb_out_of_range. unfold Ch.lbracket.
    destruct Hc as [Hc| ->]; [lia|discriminate]. }
  rewrite E1, E2, E3. exact Ha.
Qed.

Lemma str_of_Z_opens_value (z : Z) (rest : str) :
  opens_value (str_of_Z z ++ rest) = true.
Proof.
  pose proof (opens_number_app _ rest (str_of_Z_opens z)) as Ho.
  destruct (str_of_Z z ++ rest) as [|c t]; [discriminate|].
  cbn [opens_number] in Ho. cbn [opens_value].
  assert (Hc : (48 <= c <= 57)%N \/ c = Ch.minus).
  { apply orb_true_iff in Ho as [H|H].
    - left. apply is_digit_range. exact H.
    - right. apply andb_true_iff in H as [H _]. apply N.eqb_eq. exact H. }
  assert (E1 : is_whitespace c = false).
  { unfold is_whitespace.
    rewrite !(eqb_out_of_range c); [reflexivity|..];
      unfold Ch.cr, Ch.newline, Ch.tab, Ch.space;
      (destruct Hc as [Hc| ->]; [lia|discriminate]). }
  rewrite E1.
  rewrite !(eqb_out_of_range c); [reflexivity|..];
    unfold Ch.rbracket, Ch.rbrace;
    (destruct Hc as [Hc| ->]; [lia|discriminate]).
Qed.

Lemma join_cons (sep x : str) (l : list str) :
  join sep (x :: l) = x ++ match l with [] => [] | _ :: _ => sep ++ join sep l end.
Proof. destruct l; cbn [join]; [rewrite app_nil_r|]; reflexivity. Qed.

Lemma skip_ws_opens (s : str) : opens_value s = true -> skip_ws s = s.
Proof.
  destruct s as [|c t]; [reflexivity|]. cbn [opens_value skip_ws]. intro H.
  destruct (is_whitespace c); [discriminate|reflexivity].
Qed.

Lemma opens_value_app (s rest : str) :
  opens_value s = true -> opens_value (s ++ rest) = true.
Proof. destruct s; [discriminate|trivial]. Qed.

Lemma opens_value_nonempty (s : str) : opens_value s = true -> 1 <= List.length s.
Proof. destruct s; [discriminate|]. cbn [List.length]. lia. Qed.

Lemma open_bracket {A} (s : str) (closed : str -> A) (go : str -> A) :
  opens_value s = true ->
  match skip_ws s with
  | c2 :: s2 => if N.eqb c2 Ch.rbracket then closed s2 else go (c2 :: s2)
  | [] => go []
  end = go s.
Proof.
  intro H. rewrite skip_ws_opens by exact H.
  destruct s as [|c t]; [discriminate|]. cbn [opens_value] in H.
  destruct (N.eqb c Ch.rbracket); [|reflexivity].
  rewrite andb_false_r in H. discriminate.
Qed.

Lemma open_brace {A} (s : str) (closed : str -> A) (go : str -> A) :
  opens_value s = true ->
  match skip_ws s with
  | c2 :: s2 => if N.eqb c2 Ch.rbrace then closed s2 else go (c2 :: s2)
  | [] => go []
  end = go s.
Proof.
  intro H. rewrite skip_ws_opens by exact H.
  destruct s as [|c t]; [discriminate|]. cbn [opens_value] in H.
  destruct (N.eqb c Ch.rbrace); [|reflexivity].
  rewrite andb_false_r in H. discriminate.
Qed.

Lemma existsb_app_false {A} (f : A -> bool) (a b : list A) :
  existsb f (a ++ b) = false -> existsb f a = false /\ existsb f b = false.
Proof. rewrite existsb_app. apply orb_false_iff. Qed.

Lemma dict_set_fresh (acc : dict) (k : str) (v : json) (d : dict) :
  distinct (map fst (acc ++ (k, v) :: d)) = true ->
  dict_set acc k v = acc ++ [(k, v)].
Proof.
  induction acc as [|[k0 v0] acc IH]; [reflexivity|].
  cbn [app map fst distinct dict_set]. intro H.
  apply andb_true_iff in H as [H1 H2]. apply negb_true_iff in H1.
  rewrite map_app in H1. apply existsb_app_false in H1 as [_ H1].
  cbn [map fst existsb] in H1. apply orb_false_iff in H1 as [H1 _].
  rewrite str_eqb_sym, H1. rewrite IH by exact H2. reflexivity.
Qed.

Section RoundTrip.
Variable rt : PyRuntime.

Lemma json_dumps_dict (d : dict) :
  json_dumps rt (JDict d) = py "{" ++ join (py ", ") (map (member_text rt) d) ++ py "}".
Proof. reflexivity. Qed.

Lemma json_dumps_list (l : list json) :
  json_dumps rt (JList l) = py "[" ++ join (py ", ") (map (json_dumps rt) l) ++ py "]".
Proof. reflexivity. Qed.

Lemma dumps_opens (v : json) :
  portable v = true -> opens_value (json_dumps rt v) = true.
Proof.
  destruct v as [|[|]|z|f|s|l|d]; try reflexivity; try discriminate.
  intros _. cbn [json_dumps]. rewrite <- (app_nil_r (str_of_Z z)).
  apply str_of_Z_opens_value.
Qed.

Lemma member_opens (kv : str * json) : opens_value ((member_text rt) kv) = true.
Proof. reflexivity. Qed.

Lemma elements_read_back (l : list json) :
  Forall (reads_back rt) l -> forallb portable l = true -> l <> [] ->
  forall n acc rest,
    2 * List.length (join (py ", ") (map (json_dumps rt) l)) + 2 <= n ->
    parse_elements n acc (join (py ", ") (map (json_dumps rt) l) ++ Ch.rbracket :: rest)
    = Scanned (JList (acc ++ l)) rest.
Proof.
  induction l as [|x l IH]; [congruence|].
  intros Hall Hp _ n acc rest Hn.
  inversion Hall as [|? ? Hx Hl]; subst.
  cbn [forallb] in Hp. apply andb_true_iff in Hp as [Hpx Hpl].
  cbn [map] in *. rewrite join_cons in *.
  destruct n as [|n]; [lia|]. rewrite parse_elements_S.
  rewrite <- app_assoc. rewrite length_app in Hn.
  destruct l as [|y l'].
  - cbn [map app] in *. rewrite (Hx Hpx n (Ch.rbracket :: rest)) by (try reflexivity; lia).
    reflexivity.
  - cbn [map] in *.
    set (J := join (py ", ") (json_dumps rt y :: map (json_dumps rt) l')) in *.
    rewrite <- app_assoc. rewrite length_app in Hn. cbn [List.length py] in Hn.
    rewrite (Hx Hpx n) by (try reflexivity; change (List.length (py ", ")) with 2 in Hn; lia).
    change (skip_ws (py ", " ++ J ++ Ch.rbracket :: rest))
      with (Ch.comma :: Ch.space :: J ++ Ch.rbracket :: rest).
    cbv iota.
    change (N.eqb Ch.comma Ch.rbracket) with false.
    change (N.eqb Ch.comma Ch.comma) with true. cbv iota.
    change (skip_ws (Ch.space :: J ++ Ch.rbracket :: rest))
      with (skip_ws (J ++ Ch.rbracket :: rest)).
    assert (Ho : opens_value (J ++ Ch.rbracket :: rest) = true).
    { apply opens_value_app. unfold J. rewrite join_cons.
      apply opens_value_app. apply dumps_opens.
      cbn [forallb] in Hpl. apply andb_true_iff in Hpl as [Hy _]. exact Hy. }
    rewrite skip_ws_opens by exact Ho.
    rewrite (IH Hl Hpl) by (try discriminate; change (List.length (py ", ")) with 2 in Hn; lia).
    rewrite <- app_assoc. reflexivity.
Qed.

Lemma parse_member (n : nat) (acc : dict) (k : str) (v : json) (after : str) :
  transportable k = true ->
  opens_value (json_dumps rt v ++ after) = true ->
  scan_once n (json_dumps rt v ++ after) = Scanned v after ->
  parse_members (S n) acc (encode_basestring_ascii k ++ py ": " ++ json_dumps rt v ++ after)
  = match skip_ws after with
    | [] => DecodeError_at "Expecting ',' delimiter" []
    | c3 :: r4 =>
        if N.eqb c3 Ch.rbrace then Scanned (JDict (dict_set acc k v)) r4
        else if N.eqb c3 Ch.comma
        then parse_members n (dict_set acc k v) (skip_ws r4)
        else DecodeError_at "Expecting ',' delimiter" (c3 :: r4)
    end.
Proof.
  intros Hk Ho Hv. rewrite parse_members_S.
  pose proof (scanstring_encoded k (py ": " ++ json_dumps rt v ++ after) Hk) as Hs.
  assert (Hq : exists t, encode_basestring_ascii k = Ch.dquote :: t).
  { eexists. reflexivity. }
  destruct Hq as [t Hq]. rewrite Hq in *. cbn [app] in Hs |- *.
  change (N.eqb Ch.dquote Ch.dquote) with true. cbn [negb]. cbv iota.
  rewrite Hs.
  change (skip_ws (py ": " ++ json_dumps rt v ++ after))
    with (Ch.colon :: Ch.space :: json_dumps rt v ++ after).
  cbv iota.
  change (N.eqb Ch.colon Ch.colon) with true. cbn [negb]. cbv iota.
  change (skip_ws (Ch.space :: json_dumps rt v ++ after))
    with (skip_ws (json_dumps rt v ++ after)).
  rewrite skip_ws_opens by exact Ho. rewrite Hv. reflexivity.
Qed.

Lemma members_read_back (d : dict) :
  Forall (fun kv => (reads_back rt) (snd kv)) d ->
  forallb (fun kv => transportable (fst kv) && portable (snd kv)) d = true ->
  d <> [] ->
  forall n acc rest,
    distinct (map fst (acc ++ d)) = true ->
    2 * List.length (join (py ", ") (map (member_text rt) d)) + 2 <= n ->
    parse_members n acc (join (py ", ") (map (member_text rt) d) ++ Ch.rbrace :: rest)
    = Scanned (JDict (acc ++ d)) rest.
Proof.
  induction d as [|[k v] d IH]; [congruence|].
  intros Hall Hp _ n acc rest Hk Hn.
  inversion Hall as [|? ? Hx Hl]; subst. cbn [snd] in Hx.
  cbn [forallb fst snd] in Hp. apply andb_true_iff in Hp as [Hpx Hpl].
  apply andb_true_iff in Hpx as [Htk Hpv].
  destruct n as [|n]; [lia|].
  pose proof (opens_value_nonempty _ (dumps_opens v Hpv)) as Hlen.
  destruct d as [|kv d'].
  - assert (Htext : join (py ", ") (map (member_text rt) [(k, v)]) ++ Ch.rbrace :: rest
                    = encode_basestring_ascii k ++ py ": " ++ json_dumps rt v
                      ++ Ch.rbrace :: rest).
    { cbn [map join]. unfold member_text. cbn [fst snd].
      rewrite <- !app_assoc. reflexivity. }
    rewrite Htext.
    assert (Hsize : List.length (join (py ", ") (map (member_text rt) [(k, v)]))
                    = List.length (encode_basestring_ascii k) + 2
                      + List.length (json_dumps rt v)).
    { cbn [map join]. unfold member_text. cbn [fst snd].
      rewrite !length_app. change (List.length (py ": ")) with 2. lia. }
    rewrite Hsize in Hn.
    rewrite parse_member.
    + rewrite (dict_set_fresh acc k v [] Hk). reflexivity.
    + exact Htk.
    + apply opens_value_app, dumps_opens. exact Hpv.
    + apply (Hx Hpv); [lia|reflexivity].
  - set (J := join (py ", ") (map (member_text rt) (kv :: d'))) in *.
    assert (Htext : join (py ", ") (map (member_text rt) ((k, v) :: kv :: d'))
                    ++ Ch.rbrace :: rest
                    = encode_basestring_ascii k ++ py ": " ++ json_dumps rt v
                      ++ Ch.comma :: Ch.space :: J ++ Ch.rbrace :: rest).
    { change (join (py ", ") (map (member_text rt) ((k, v) :: kv :: d')))
        with ((member_text rt) (k, v) ++ py ", " ++ J).
      unfold member_text at 1. cbn [fst snd].
      rewrite <- !app_assoc. reflexivity. }
    rewrite Htext.
    assert (Hsize : List.length (join (py ", ") (map (member_text rt) ((k, v) :: kv :: d')))
                    = List.length (encode_basestring_ascii k) + 2
                      + List.length (json_dumps rt v) + 2 + List.length J).
    { change (join (py ", ") (map (member_text rt) ((k, v) :: kv :: d')))
        with ((member_text rt) (k, v) ++ py ", " ++ J).
      unfold member_text at 1. cbn [fst snd].
      rewrite !length_app. change (List.length (py ": ")) with 2.
      change (List.length (py ", ")) with 2. lia. }
    rewrite Hsize in Hn.
    assert (Ho : opens_value (J ++ Ch.rbrace :: rest) = true).
    { apply opens_value_app. unfold J. cbn [map]. rewrite join_cons.
      apply opens_value_app. apply member_opens. }
    rewrite parse_member.
    + change (skip_ws (Ch.comma :: Ch.space :: J ++ Ch.rbrace :: rest))
        with (Ch.comma :: Ch.space :: J ++ Ch.rbrace :: rest).
      cbv iota.
      change (N.eqb Ch.comma Ch.rbrace) with false.
      change (N.eqb Ch.comma Ch.comma) with true. cbv iota.
      change (skip_ws (Ch.space :: J ++ Ch.rbrace :: rest))
        with (skip_ws (J ++ Ch.rbrace :: rest)).
      rewrite skip_ws_opens by exact Ho.
      rewrite (dict_set_fresh acc k v (kv :: d') Hk).
      rewrite (IH Hl Hpl); try discriminate; try lia.
      * rewrite <- app_assoc. reflexivity.
      * rewrite <- app_assoc. exact Hk.
    + exact Htk.
    + apply opens_value_app, dumps_opens. exact Hpv.
    + apply (Hx Hpv); [lia|reflexivity].
Qed.

Lemma reads_back_all (v : json) : (reads_back rt) v.
Proof.
  induction v using json_induction; unfold reads_back; intros Hp n rest Hn Hr.
  - destruct n; [lia|]. reflexivity.
  - destruct n; [lia|]. destruct b; reflexivity.
  - destruct n; [lia|]. apply scan_once_int. exact Hr.
  - discriminate Hp.
  - destruct n; [lia|]. rewrite scan_once_S. cbn [json_dumps].
    pose proof (scanstring_encoded s rest Hp) as Hs.
    assert (Hq : exists t, encode_basestring_ascii s = Ch.dquote :: t).
    { eexists. reflexivity. }
    destruct Hq as [t Hq]. rewrite Hq in *. cbn [app] in *.
    change (N.eqb Ch.dquote Ch.dquote) with true. cbv iota.
    rewrite Hs. reflexivity.
  - destruct n; [lia|]. rewrite scan_once_S. rewrite json_dumps_list in *.
    cbn [portable] in Hp.
    change (py "[" ++ join (py ", ") (map (json_dumps rt) l) ++ py "]")
      with (Ch.lbracket :: join (py ", ") (map (json_dumps rt) l) ++ [Ch.rbracket]) in *.
    cbn [app]. rewrite <- app_assoc. cbn [app].
    change (N.eqb Ch.lbracket Ch.dquote) with false.
    change (N.eqb Ch.lbracket Ch.lbrace) with false.
    change (N.eqb Ch.lbracket Ch.lbracket) with true. cbv iota.
    destruct l as [|x l'].
    + reflexivity.
    + rewrite (open_bracket _ (fun s2 => Scanned (JList []) s2) (parse_elements n [])).
      * cbn [List.length] in Hn. rewrite length_app in Hn. cbn [List.length] in Hn.
        rewrite (elements_read_back (x :: l') H Hp) by (try discriminate; lia).
        reflexivity.
      * apply opens_value_app. cbn [map]. rewrite join_cons.
        apply opens_value_app, dumps_opens.
        cbn [forallb] in Hp. apply andb_true_iff in Hp as [Hx _]. exact Hx.
  - destruct n; [lia|]. rewrite scan_once_S. rewrite json_dumps_dict in *.
    cbn [portable] in Hp. apply andb_true_iff in Hp as [Hk Hp].
    change (py "{" ++ join (py ", ") (map (member_text rt) d) ++ py "}")
      with (Ch.lbrace :: join (py ", ") (map (member_text rt) d) ++ [Ch.rbrace]) in *.
    cbn [app]. rewrite <- app_assoc. cbn [app].
    change (N.eqb Ch.lbrace Ch.dquote) with false.
    change (N.eqb Ch.lbrace Ch.lbrace) with true. cbv iota.
    destruct d as [|kv d'].
    + reflexivity.
    + rewrite (open_brace _ (fun s2 => Scanned (JDict []) s2) (parse_members n [])).
      * cbn [List.length] in Hn. rewrite length_app in Hn. cbn [List.length] in Hn.
        rewrite (members_read_back (kv :: d') H Hp) by (try discriminate; try exact Hk; lia).
        reflexivity.
      * apply opens_value_app. cbn [map]. rewrite join_cons.
        apply opens_value_app, member_opens.
Qed.

(** [json.loads(json.dumps(v)) == v]. *)
Lemma loads_dumps (v : json) :
  portable v = true -> json_loads (json_dumps rt v) = Returned v.
Proof.
  intro Hp. unfold json_loads.
  pose proof (dumps_opens v Hp) as Ho.
  assert (Hb : starts_with [65279%N] (json_dumps rt v) = false).
  { destruct (json_dumps rt v) as [|c t]; [reflexivity|].
    cbn [opens_value] in Ho. cbn [starts_with].
    destruct (N.eqb c 65279) eqn:E.
    - rewrite andb_false_r in Ho. discriminate.
    - rewrite N.eqb_sym, E. reflexivity. }
  rewrite Hb, skip_ws_opens by exact Ho.
  pose proof (reads_back_all v Hp (S (2 * List.length (json_dumps rt v))) []) as Hs.
  rewrite app_nil_r in Hs. rewrite Hs by (try reflexivity; lia).
  reflexivity.
Qed.

End RoundTrip.

(** Why a string must not spell a surrogate pair as two code points: the
    two come back as the one character they encode. *)
Lemma surrogate_pair_is_joined (rt : PyRuntime) :
  json_loads (json_dumps rt (JStr [55357; 56832]%N)) = Returned (JStr [128512%N]).
Proof. vm_compute. reflexivity. Qed.

Lemma transportable_app_ascii (a b : str) :
  ascii_only a = true -> transportable b = true -> transportable (a ++ b) = true.
Proof.
  intros Ha Hb. induction a as [|c a IH]; [exact Hb|].
  cbn [ascii_only forallb] in Ha. apply andb_true_iff in Ha as [Hc Ha].
  apply N.ltb_lt in Hc. cbn [app transportable].
  rewrite (IH Ha), andb_true_r.
  assert (Hh : is_high_surrogate c = false).
  { unfold is_high_surrogate. apply andb_false_iff. left. apply N.leb_gt. lia. }
  rewrite Hh. cbn [andb negb].
  replace (N.ltb c 1114112) with true by (symmetry; apply N.ltb_lt; lia).
  destruct (a ++ b); reflexivity.
Qed.

Lemma payload_text_result (text : str) : payload (text_result text) = json_loads text.
Proof. reflexivity. Qed.

(** ** The tools of the server *)

Section Transport.
Variable rt : PyRuntime.



Lemma except_Exception_returns {A} (o : Outcome A) (handler : PyExc -> Outcome A) :
  (forall e, exists a, handler e = Returned a) ->
  exists a, except_Exception o handler = Returned a.
Proof.
  intro H. destruct o as [a|e]; [exists a; reflexivity|]. apply H.
Qed.

Lemma create_sql_returns (llm : LLM) (question : str) (ner_dict : json) :
  exists out, create_sql rt llm question ner_dict = Returned out.
Proof.
  unfold create_sql. apply except_Exception_returns. intro e. eexists. reflexivity.
Qed.

Lemma run_sqlite_query_returns (sqlite : json -> Outcome json) (sql_dict : json) :
  exists out, run_sqlite_query rt sqlite sql_dict = Returned out.
Proof.
  unfold run_sqlite_query. apply except_Exception_returns. intro e. eexists. reflexivity.
Qed.

Lemma generate_final_answer_returns (llm : LLM) (question : str) (d : json) :
  exists out, generate_final_answer rt llm question d = Returned out.
Proof.
  unfold generate_final_answer. apply except_Exception_returns. intro e.
  eexists. reflexivity.
Qed.

Lemma ner_returns (read_csv : Outcome DataFrame) (llm : LLM) (question : str) :
  exists out, ner_generator_dynamic rt read_csv llm question = Returned out.
Proof.
  unfold ner_generator_dynamic.
  destruct (get_data_dictionary_description_returns read_csv) as [d ->]. cbn [obind].
  apply except_Exception_returns. intro e. eexists. reflexivity.
Qed.



(** X5.  An argument that is no dict: [handle_error_agent] calls [.get] on
    it before its [try] and raises the [AttributeError]; [run_sqlite_query]
    calls it inside and reports the same fault as a failed query. *)
Theorem argument_that_is_no_dict (llm : LLM) (sqlite : json -> Outcome json)
    (arg : json) (error_message : str) :
  is_dict arg = false ->
  handle_error_agent rt llm arg error_message
  = Raised (mkExc AttributeError
              (py "'" ++ type_name arg ++ py "' object has no attribute 'get'")) /\
  run_sqlite_query rt sqlite arg
  = Returned (json_dumps rt
                (JDict [(py "error",
                         JStr (py "Database query failed: '" ++ type_name arg
                               ++ py "' object has no attribute 'get'"));
                        (py "data", JList [])])).
Proof.
  intro H. destruct arg; try discriminate H; split; reflexivity.
Qed.

(** X6.  When the database refuses the query, the client decodes from the
    reply of [run_sqlite_query] a dict that holds an [error], the text
    ["Database query failed: "] and the message of the exception: the
    branch of [ask] that calls for a repair. *)
Theorem database_failure_reaches_the_client (sqlite : json -> Outcome json)
    (sql_dict sql_query : json) (e : PyExc) :
  py_get sql_dict (py "sql_query") JNull = Returned sql_query ->
  truthy rt sql_query = true ->
  sqlite sql_query = Raised e ->
  transportable (exc_str e) = true ->
  exists d,
    stage_payload (served (run_sqlite_query rt sqlite sql_dict)) = Returned d /\
    error_bearing d = true /\
    error_of d = JStr (py "Database query failed: " ++ exc_str e).
Proof.
  intros Hq Ht Hs He.
  exists (JDict [(py "error", JStr (py "Database query failed: " ++ exc_str e));
                 (py "data", JList [])]).
  split; [|split; reflexivity].
  unfold run_sqlite_query. rewrite Hq. cbn [obind]. rewrite Ht. cbn [negb].
  rewrite Hs. cbn [obind except_Exception served stage_payload].
  rewrite payload_text_result. apply loads_dumps.
  cbn [portable map fst snd distinct existsb forallb].
  rewrite (transportable_app_ascii (py "Database query failed: ") _ eq_refl He).
  reflexivity.
Qed.

(** X20.  When the database runs the query, the client decodes from the
    reply of [run_sqlite_query] the dict that holds the rows under [data]
    and nothing else, and takes it for a success, whatever the rows hold,
    a column named [error] included. *)
Theorem query_result_reaches_the_client (sqlite : json -> Outcome json)
    (sql_dict sql_query rows : json) :
  py_get sql_dict (py "sql_query") JNull = Returned sql_query ->
  truthy rt sql_query = true ->
  sqlite sql_query = Returned rows ->
  portable rows = true ->
  stage_payload (served (run_sqlite_query rt sqlite sql_dict))
  = Returned (JDict [(py "data", rows)]) /\
  error_free (JDict [(py "data", rows)]) = true.
Proof.
  intros Hq Ht Hs Hp. split; [|reflexivity].
  unfold run_sqlite_query. rewrite Hq. cbn [obind]. rewrite Ht. cbn [negb].
  rewrite Hs. cbn [obind except_Exception served stage_payload].
  rewrite payload_text_result. apply loads_dumps.
  cbn [portable map fst snd distinct existsb forallb]. rewrite Hp. reflexivity.
Qed.

End Transport.

Section ParsedReplies.
Variable rt : PyRuntime.

Lemma reply_pipeline (llm : LLM) (request : LLMRequest) (prefix : str)
    (text : str) (blocks : list ContentBlock) (parsed : json) :
  llm request = Returned (TextBlock text :: blocks) ->
  _parse_llm_json_response text = Returned parsed ->
  except_Exception
    (obind (llm request) (fun content =>
     obind (first_text content) (fun text =>
     obind (_parse_llm_json_response text) (fun parsed_dict =>
     Returned (json_dumps rt parsed_dict)))))
    (fun e => Returned (json_dumps rt (error_payload (prefix ++ exc_str e))))
  = Returned (json_dumps rt parsed).
Proof. intros H1 H2. rewrite H1. cbn [obind first_text]. rewrite H2. reflexivity. Qed.



End ParsedReplies.

(** ** The data dictionary *)

Lemma describe_rows_complete (rows : list Row) (lines : list str) :
  Forall2 (fun row line => describe_row row = Returned line) rows lines ->
  forall description,
    describe_rows description rows = Returned (description ++ List.concat lines).
Proof.
  induction 1 as [|row line rows lines Hrow _ IH]; intro description.
  - cbn [describe_rows List.concat]. rewrite app_nil_r. reflexivity.
  - cbn [describe_rows List.concat]. rewrite Hrow. cbn [obind]. rewrite IH, <- app_assoc.
    reflexivity.
Qed.

Lemma describe_rows_incomplete (before : list Row) (lines : list str) (row : Row)
    (after : list Row) (e : PyExc) :
  Forall2 (fun row line => describe_row row = Returned line) before lines ->
  describe_row row = Raised e ->
  forall description,
    describe_rows description (before ++ row :: after) = Raised e.
Proof.
  induction 1 as [|r line rows lines Hr _ IH]; intros Hrow description.
  - cbn [app describe_rows]. rewrite Hrow. reflexivity.
  - cbn [app describe_rows]. rewrite Hr. cbn [obind]. apply IH. exact Hrow.
Qed.

(** X9.  With every label in every row, the description is the header
    and one line for each row, in the order of the file. *)
Theorem dictionary_lists_every_row (rows : list Row) (lines : list str) :
  Forall2 (fun row line => describe_row row = Returned line) rows lines ->
  get_data_dictionary_description (Returned rows)
  = Returned (dictionary_header ++ List.concat lines).
Proof.
  intro H. unfold get_data_dictionary_description. cbn [obind].
  fold dictionary_header. rewrite (describe_rows_complete rows lines H). reflexivity.
Qed.

(** X10.  A row that lacks one of the four labels costs the whole
    dictionary: the lines of the rows before it are dropped, and the
    description is the error text that names the first label missing. *)
Theorem dictionary_is_all_or_nothing (before : list Row) (lines : list str) (row : Row)
    (after : list Row) (label : str) :
  Forall2 (fun row line => describe_row row = Returned line) before lines ->
  In label [py "Column Header"; py "Business Header"; py "Definition"; py "Example"] ->
  row_lookup row label = None ->
  exists missing,
    In missing [py "Column Header"; py "Business Header"; py "Definition"; py "Example"] /\
    row_lookup row missing = None /\
    get_data_dictionary_description (Returned (before ++ row :: after))
    = Returned (py "Error reading data dictionary: '" ++ missing ++ py "'").
Proof.
  intros Hbefore Hin Hnone.
  assert (Hrow : exists missing,
             In missing [py "Column Header"; py "Business Header"; py "Definition";
                         py "Example"] /\
             row_lookup row missing = None /\
             describe_row row = Raised (mkExc KeyError (py "'" ++ missing ++ py "'"))).
  { unfold describe_row, row_get.
    destruct (row_lookup row (py "Column Header")) eqn:E1.
    2:{ exists (py "Column Header"). split; [cbn; tauto|]. split; [exact E1|reflexivity]. }
    destruct (row_lookup row (py "Business Header")) eqn:E2.
    2:{ exists (py "Business Header"). split; [cbn; tauto|]. split; [exact E2|reflexivity]. }
    destruct (row_lookup row (py "Definition")) eqn:E3.
    2:{ exists (py "Definition"). split; [cbn; tauto|]. split; [exact E3|reflexivity]. }
    destruct (row_lookup row (py "Example")) eqn:E4.
    2:{ exists (py "Example"). split; [cbn; tauto|]. split; [exact E4|reflexivity]. }
    exfalso. cbn [In] in Hin.
    destruct Hin as [<-|[<-|[<-|[<-|[]]]]]; congruence. }
  destruct Hrow as (missing & Hm & Hl & Hrow).
  exists missing. split; [exact Hm|]. split; [exact Hl|].
  unfold get_data_dictionary_description. cbn [obind].
  rewrite (describe_rows_incomplete before lines row after _ Hbefore Hrow).
  cbn [exc_class ExcClass_eqb exc_str].
  change (py "Error reading data dictionary: '")
    with (py "Error reading data dictionary: " ++ py "'").
  rewrite <- app_assoc. reflexivity.
Qed.

(** ** The schema *)

Lemma replace_char_app (old : N) (new a b : str) :
  replace_char old new (a ++ b) = replace_char old new a ++ replace_char old new b.
Proof. unfold replace_char. apply flat_map_app. Qed.

Lemma remove_spaces_join (names : list str) :
  replace_char Ch.space [] (join (py ", ") names)
  = join (py ",") (map (replace_char Ch.space []) names).
Proof.
  induction names as [|x names IH]; [reflexivity|].
  cbn [map]. rewrite !join_cons. rewrite replace_char_app.
  destruct names as [|y names'].
  - cbn [map]. reflexivity.
  - rewrite replace_char_app, IH. reflexivity.
Qed.

Lemma fold_column_lines (columns : list (str * str)) :
  forall description,
    fold_left (fun description col => description ++ column_line col) columns description
    = description ++ List.concat (map column_line columns).
Proof.
  induction columns as [|col columns IH]; intro description.
  - cbn. rewrite app_nil_r. reflexivity.
  - cbn [fold_left map List.concat]. rewrite IH, <- app_assoc. reflexivity.
Qed.

Lemma describe_tables_all (db : Database) (names : list str)
    (infos : list (list (str * str))) :
  Forall2 (fun name columns => db_table_info db (pragma name) = Returned columns)
          names infos ->
  forall description,
    describe_tables db description names
    = Returned (description ++ List.concat (map (fun p => table_section (fst p) (snd p))
                                           (combine names infos))).
Proof.
  induction 1 as [|name columns names infos Hname _ IH]; intro description.
  - cbn. rewrite app_nil_r. reflexivity.
  - cbn [describe_tables]. fold (pragma name). rewrite Hname. cbn [obind].
    rewrite fold_column_lines, IH. cbn [combine map List.concat fst snd].
    unfold table_section. rewrite <- !app_assoc. reflexivity.
Qed.

Lemma describe_tables_failing (db : Database) (before : list str)
    (infos : list (list (str * str))) (name : str) (after : list str) (e : PyExc) :
  Forall2 (fun name columns => db_table_info db (pragma name) = Returned columns)
          before infos ->
  db_table_info db (pragma name) = Raised e ->
  forall description,
    describe_tables db description (before ++ name :: after) = Raised e.
Proof.
  induction 1 as [|n columns names infos Hn _ IH]; intros Hname description.
  - cbn [app describe_tables]. fold (pragma name). rewrite Hname. reflexivity.
  - cbn [app describe_tables]. fold (pragma n). rewrite Hn. cbn [obind].
    apply IH. exact Hname.
Qed.

(** X11.  The schema is a header and one section for each table, in
    order.  The header joins the names with every space taken out, the
    spaces inside a name too; the sections keep the names as they are. *)
Theorem schema_lists_every_table (db : Database) (names : list str)
    (infos : list (list (str * str))) :
  db_connect db = Returned tt ->
  db_tables db list_tables = Returned names ->
  Forall2 (fun name columns => db_table_info db (pragma name) = Returned columns)
          names infos ->
  get_database_schema db
  = Returned (schema_header names
              ++ List.concat (map (fun p => table_section (fst p) (snd p))
                             (combine names infos))).
Proof.
  intros Hc Ht Hi. unfold get_database_schema. rewrite Hc. cbn [obind].
  fold list_tables. rewrite Ht. cbn [obind].
  rewrite (describe_tables_all db names infos Hi), remove_spaces_join.
  unfold schema_header. rewrite <- !app_assoc. reflexivity.
Qed.

Section SchemaFailure.
Variable rt : PyRuntime.

(** X12.  A table whose columns cannot be read fails the whole schema,
    and with it the validator, which raises the exception of the database
    instead of returning an error payload. *)
Theorem unreadable_table_fails_the_validator (db : Database) (llm : LLM)
    (before : list str) (infos : list (list (str * str))) (name : str)
    (after : list str) (e : PyExc) (question : str) (ner_dict generated : json) :
  db_connect db = Returned tt ->
  db_tables db list_tables = Returned (before ++ name :: after) ->
  Forall2 (fun name columns => db_table_info db (pragma name) = Returned columns)
          before infos ->
  db_table_info db (pragma name) = Raised e ->
  get_database_schema db = Raised e /\
  validator_sql_agent rt db llm question ner_dict generated = Raised e.
Proof.
  intros Hc Ht Hi He.
  assert (Hs : get_database_schema db = Raised e).
  { unfold get_database_schema. rewrite Hc. cbn [obind]. fold list_tables.
    rewrite Ht. cbn [obind]. apply (describe_tables_failing db before infos); assumption. }
  split; [exact Hs|]. unfold validator_sql_agent. rewrite Hs. reflexivity.
Qed.

End SchemaFailure.

(** ** The calls of the orchestrator, against any session *)

Lemma in_and_get (d m : json) :
  py_in (py "error") d = Returned true ->
  py_get d (py "error") (JStr (py "Unknown database error")) = Returned m ->
  error_bearing d = true /\ m = error_of d.
Proof.
  destruct d; cbn [py_in py_get error_bearing error_of]; intros Hin Hget;
    try discriminate Hin; try discriminate Hget.
  injection Hin as Hin. split; [exact Hin|].
  injection Hget as <-. unfold dict_has in Hin.
  destruct (dict_lookup fields (py "error")); [reflexivity|discriminate].
Qed.

Lemma not_in_error_free (d : json) :
  py_in (py "error") d = Returned false -> error_free d = true.
Proof. intro H. unfold error_free. rewrite H. reflexivity. Qed.

Section Chain.
Variable rt : PyRuntime.
Context {World : Type}.
Variable h : Session World.

Lemma retry_loop_chained (attempts : list nat) :
  forall question v d w name a o,
    name = validator_tool \/ name = repair_tool ->
    stage_payload o = Returned v ->
    chained question (Some (mkEvent name a o))
            (snd (run (retry_loop rt question attempts v d) h w)).
Proof.
  induction attempts as [| i later IH]; intros question v d w name a o Hname Ho.
  - cbn [retry_loop]. destruct d as [d|]; [|exact I].
    rewrite run_lift_then. destruct (py_get d (py "error") JNull); exact I.
  - assert (Hfirst : forall o',
              follows question (Some (mkEvent name a o))
                      (mkEvent execute_tool (execute_arguments v) o')).
    { intro o'. destruct Hname as [-> | ->].
      - apply after_validation. exact Ho.
      - apply after_repair. exact Ho. }
    cbn [retry_loop]. rewrite run_call_then.
    fold (execute_arguments v).
    destruct (h w execute_tool _) as [[r | e] w1]; [|cbn; auto].
    rewrite run_lift_then. destruct (payload r) as [db | e] eqn:Hdb; [|cbn; auto].
    rewrite run_lift_then.
    destruct (py_in (py "error") db) as [b | e] eqn:Hin; [|cbn; auto].
    destruct b; cbn [negb].
    + rewrite run_lift_then.
      destruct (py_get db _ _) as [m | e] eqn:Hget; [|cbn; auto].
      destruct (in_and_get db m Hin Hget) as [Hbear ->].
      fold (repair_arguments v (error_of db)).
      assert (Hsecond : forall o',
                follows question
                        (Some (mkEvent execute_tool (execute_arguments v) (Returned r)))
                        (mkEvent repair_tool (repair_arguments v (error_of db)) o')).
      { intro o'. apply after_failure; assumption. }
      rewrite run_call_then.
      destruct (h w1 repair_tool _) as [[r2 | e] w2]; [|cbn; auto].
      rewrite run_lift_then. destruct (payload r2) as [v2 | e] eqn:Hv2; [|cbn; auto].
      specialize (IH question v2 (Some db) w2 repair_tool
                     (repair_arguments v (error_of db)) (Returned r2)
                     (or_intror eq_refl) Hv2).
      destruct (run (retry_loop rt question later v2 (Some db)) h w2) as [[res w3] tr].
      cbn [fst snd chained] in *. auto.
    + fold (answer_arguments question db).
      assert (Hsecond : forall o',
                follows question
                        (Some (mkEvent execute_tool (execute_arguments v) (Returned r)))
                        (mkEvent answer_tool (answer_arguments question db) o')).
      { intro o'. apply after_success; [exact Hdb|]. apply not_in_error_free. exact Hin. }
      rewrite run_call_then.
      destruct (h w1 answer_tool _) as [[r2 | e] w2]; [|cbn; auto].
      rewrite run_lift. destruct (first_text (content r2)); cbn; auto.
Qed.

Lemma pipeline_chained (question : str) (w : World) :
  chained question None (snd (run (pipeline rt question) h w)).
Proof.
  unfold pipeline. rewrite run_call_then. fold (ner_arguments question).
  pose proof (first_call question) as H1.
  destruct (h w ner_tool _) as [[r1 | e] w1]; [|cbn; auto].
  rewrite run_lift_then. destruct (payload r1) as [ner_dict | e] eqn:Hn; [|cbn; auto].
  rewrite run_call_then. fold (sql_arguments question ner_dict).
  assert (H2 : forall o',
            follows question
                    (Some (mkEvent ner_tool (ner_arguments question) (Returned r1)))
                    (mkEvent sql_tool (sql_arguments question ner_dict) o')).
  { intro o'. apply after_extraction. exact Hn. }
  destruct (h w1 sql_tool _) as [[r2 | e] w2]; [|cbn; auto].
  rewrite run_lift_then. destruct (payload r2) as [sql_dict | e] eqn:Hs; [|cbn; auto].
  rewrite run_call_then. fold (validator_arguments question ner_dict sql_dict).
  assert (H3 : forall o',
            follows question
                    (Some (mkEvent sql_tool (sql_arguments question ner_dict) (Returned r2)))
                    (mkEvent validator_tool
                             (validator_arguments question ner_dict sql_dict) o')).
  { intro o'. apply after_synthesis. exact Hs. }
  destruct (h w2 validator_tool _) as [[r3 | e] w3]; [|cbn; auto].
  rewrite run_lift_then. destruct (payload r3) as [v | e] eqn:Hv; [|cbn; auto].
  pose proof (retry_loop_chained (seq 0 max_retries) question v None w3 validator_tool
                (validator_arguments question ner_dict sql_dict) (Returned r3)
                (or_introl eq_refl) Hv) as Hl.
  destruct (run (retry_loop rt question (seq 0 max_retries) v None) h w3)
    as [[res w4] tr].
  cbn [fst snd chained] in *. auto.
Qed.

Lemma ask_trace (self : SQLAgentClient) (question : str) (w : World) :
  snd (run (ask rt self question) h w) = []
  \/ snd (run (ask rt self question) h w) = snd (run (pipeline rt question) h w).
Proof.
  unfold ask. destruct (session self) as [s|]; [|left; reflexivity].
  right. rewrite run_try_except.
  destruct (run (pipeline rt question) h w) as [[[a | e] w1] tr]; cbn [fst snd run].
  - reflexivity.
  - apply app_nil_r.
Qed.

(** X13.  Whatever the far end does, every call of [ask] follows from the
    call before it: extraction comes first, synthesis takes the decoded
    entities, validation the entities and the query, every execute call the
    payload decoded from the validation or repair reply just before it,
    every repair call the query that failed and the error stored in the
    payload of that failure, and the answer call the payload of an execute
    call that reported no error. *)
Theorem ask_calls_are_chained (self : SQLAgentClient) (question : str) (w : World) :
  chained question None (snd (run (ask rt self question) h w)).
Proof.
  destruct (ask_trace self question w) as [-> | ->].
  - exact I.
  - apply pipeline_chained.
Qed.

(** How many calls the loop can make. *)
Lemma retry_loop_calls (attempts : list nat) :
  forall question v d w,
    let tr := snd (run (retry_loop rt question attempts v d) h w) in
    List.length tr <= 2 * List.length attempts /\
    count_calls repair_tool tr <= List.length attempts /\
    count_calls answer_tool tr <= 1 /\
    count_calls ner_tool tr = 0 /\
    count_calls sql_tool tr = 0 /\
    count_calls validator_tool tr = 0.
Proof.
  induction attempts as [| i later IH]; intros question v d w.
  - cbn [retry_loop]. destruct d as [d|]; [|cbn; lia].
    rewrite run_lift_then. destruct (py_get d (py "error") JNull); cbn; lia.
  - cbn [retry_loop List.length]. rewrite run_call_then.
    destruct (h w execute_tool _) as [[r | e] w1];
      [|cbn zeta; count_events; cbn [List.length]; lia].
    rewrite run_lift_then.
    destruct (payload r) as [db | e]; [|cbn zeta; count_events; cbn [List.length]; lia].
    rewrite run_lift_then.
    destruct (py_in (py "error") db) as [b | e];
      [|cbn zeta; count_events; cbn [List.length]; lia].
    destruct b; cbn [negb].
    + rewrite run_lift_then.
      destruct (py_get db _ _) as [m | e];
        [|cbn zeta; count_events; cbn [List.length]; lia].
      rewrite run_call_then.
      destruct (h w1 repair_tool _) as [[r2 | e] w2];
        [|cbn zeta; count_events; cbn [List.length]; lia].
      rewrite run_lift_then.
      destruct (payload r2) as [v2 | e];
        [|cbn zeta; count_events; cbn [List.length]; lia].
      specialize (IH question v2 (Some db) w2). cbn zeta in IH.
      destruct (run (retry_loop rt question later v2 (Some db)) h w2) as [[res w3] tr].
      cbn [fst snd] in *. cbn zeta. count_events. cbn [List.length]. lia.
    + rewrite run_call_then.
      destruct (h w1 answer_tool _) as [[r2 | e] w2];
        [|cbn zeta; count_events; cbn [List.length]; lia].
      rewrite run_lift.
      destruct (first_text (content r2)); cbn zeta; count_events; cbn [List.length]; lia.
Qed.

Lemma pipeline_calls (question : str) (w : World) :
  let tr := snd (run (pipeline rt question) h w) in
  List.length tr <= 9 /\
  count_calls repair_tool tr <= 3 /\
  count_calls answer_tool tr <= 1 /\
  count_calls ner_tool tr <= 1 /\
  count_calls sql_tool tr <= 1 /\
  count_calls validator_tool tr <= 1.
Proof.
  unfold pipeline. rewrite run_call_then.
  destruct (h w ner_tool _) as [[r1 | e] w1];
    [|cbn zeta; count_events; cbn [List.length]; lia].
  rewrite run_lift_then.
  destruct (payload r1) as [ner_dict | e];
    [|cbn zeta; count_events; cbn [List.length]; lia].
  rewrite run_call_then.
  destruct (h w1 sql_tool _) as [[r2 | e] w2];
    [|cbn zeta; count_events; cbn [List.length]; lia].
  rewrite run_lift_then.
  destruct (payload r2) as [sql_dict | e];
    [|cbn zeta; count_events; cbn [List.length]; lia].
  rewrite run_call_then.
  destruct (h w2 validator_tool _) as [[r3 | e] w3];
    [|cbn zeta; count_events; cbn [List.length]; lia].
  rewrite run_lift_then.
  destruct (payload r3) as [v | e];
    [|cbn zeta; count_events; cbn [List.length]; lia].
  pose proof (retry_loop_calls (seq 0 max_retries) question v None w3) as Hl.
  cbn zeta in Hl. rewrite length_seq in Hl.
  assert (Hmax : max_retries = 3) by reflexivity.
  destruct (run (retry_loop rt question (seq 0 max_retries) v None) h w3)
    as [[res w4] tr].
  cbn [fst snd] in *. cbn zeta. count_events. cbn [List.length]. lia.
Qed.

(** X14.  Whatever the far end does, [ask] makes at most nine calls for a
    question, at most three of them repair calls and at most one the answer
    call. *)
Theorem ask_makes_at_most_nine_calls (self : SQLAgentClient) (question : str)
    (w : World) :
  List.length (snd (run (ask rt self question) h w)) <= 3 + 2 * max_retries /\
  count_calls repair_tool (snd (run (ask rt self question) h w)) <= max_retries /\
  count_calls answer_tool (snd (run (ask rt self question) h w)) <= 1.
Proof.
  change max_retries with 3.
  destruct (ask_trace self question w) as [-> | ->]; [cbn; lia|].
  pose proof (pipeline_calls question w) as H. cbn zeta in H. lia.
Qed.

Lemma chained_answer_last (question : str) (before : list Event) :
  forall prev ev after,
    chained question prev (before ++ ev :: after) ->
    tool ev = answer_tool -> after = [].
Proof.
  induction before as [|b before IH]; intros prev ev after Hc Ht.
  - cbn [app chained] in Hc. destruct Hc as [_ Hc].
    destruct after as [|next after]; [reflexivity|].
    cbn [chained] in Hc. destruct Hc as [Hf _].
    inversion Hf; subst; cbn [tool] in Ht; vm_compute in Ht; discriminate Ht.
  - cbn [app chained] in Hc. destruct Hc as [_ Hc]. eapply IH; eassumption.
Qed.

Lemma retry_loop_answer (attempts : list nat) :
  forall question v d w ev,
    In ev (snd (run (retry_loop rt question attempts v d) h w)) ->
    tool ev = answer_tool ->
    fst (fst (run (retry_loop rt question attempts v d) h w))
    = stage_text (outcome_of ev).
Proof.
  induction attempts as [| i later IH]; intros question v d w ev.
  - cbn [retry_loop]. destruct d as [d|]; [|intros []].
    rewrite run_lift_then. destruct (py_get d (py "error") JNull); intros [].
  - cbn [retry_loop]. rewrite run_call_then.
    destruct (h w execute_tool _) as [[r | e] w1].
    2:{ cbn [fst snd In]. intros [<-|[]] Ht. vm_compute in Ht. discriminate Ht. }
    rewrite run_lift_then. destruct (payload r) as [db | e].
    2:{ cbn [fst snd In]. intros [<-|[]] Ht. vm_compute in Ht. discriminate Ht. }
    rewrite run_lift_then.
    destruct (py_in (py "error") db) as [b | e].
    2:{ cbn [fst snd In]. intros [<-|[]] Ht. vm_compute in Ht. discriminate Ht. }
    destruct b; cbn [negb].
    + rewrite run_lift_then.
      destruct (py_get db _ _) as [m | e].
      2:{ cbn [fst snd In]. intros [<-|[]] Ht. vm_compute in Ht. discriminate Ht. }
      rewrite run_call_then.
      destruct (h w1 repair_tool _) as [[r2 | e] w2].
      2:{ cbn [fst snd In]. intros [<-|[<-|[]]] Ht; vm_compute in Ht; discriminate Ht. }
      rewrite run_lift_then. destruct (payload r2) as [v2 | e].
      2:{ cbn [fst snd In]. intros [<-|[<-|[]]] Ht; vm_compute in Ht; discriminate Ht. }
      specialize (IH question v2 (Some db) w2 ev).
      destruct (run (retry_loop rt question later v2 (Some db)) h w2) as [[res w3] tr].
      cbn [fst snd In] in *.
      intros [<-|[<-|Hin]] Ht; [vm_compute in Ht; discriminate Ht
                               |vm_compute in Ht; discriminate Ht|].
      apply IH; assumption.
    + rewrite run_call_then.
      destruct (h w1 answer_tool _) as [[r2 | e] w2].
      2:{ cbn [fst snd In]. intros [<-|[<-|[]]] Ht; [vm_compute in Ht; discriminate Ht|].
          reflexivity. }
      rewrite run_lift.
      cbn [fst snd In]. intros [<-|[<-|[]]] Ht; [vm_compute in Ht; discriminate Ht|].
      reflexivity.
Qed.

Lemma pipeline_answer (question : str) (w : World) (ev : Event) :
  In ev (snd (run (pipeline rt question) h w)) ->
  tool ev = answer_tool ->
  fst (fst (run (pipeline rt question) h w)) = stage_text (outcome_of ev).
Proof.
  unfold pipeline. rewrite run_call_then.
  destruct (h w ner_tool _) as [[r1 | e] w1].
  2:{ cbn [fst snd In]. intros [<-|[]] Ht. vm_compute in Ht. discriminate Ht. }
  rewrite run_lift_then. destruct (payload r1) as [ner_dict | e].
  2:{ cbn [fst snd In]. intros [<-|[]] Ht. vm_compute in Ht. discriminate Ht. }
  rewrite run_call_then.
  destruct (h w1 sql_tool _) as [[r2 | e] w2].
  2:{ cbn [fst snd In]. intros [<-|[<-|[]]] Ht; vm_compute in Ht; discriminate Ht. }
  rewrite run_lift_then. destruct (payload r2) as [sql_dict | e].
  2:{ cbn [fst snd In]. intros [<-|[<-|[]]] Ht; vm_compute in Ht; discriminate Ht. }
  rewrite run_call_then.
  destruct (h w2 validator_tool _) as [[r3 | e] w3].
  2:{ cbn [fst snd In]. intros [<-|[<-|[<-|[]]]] Ht; vm_compute in Ht; discriminate Ht. }
  rewrite run_lift_then. destruct (payload r3) as [v | e].
  2:{ cbn [fst snd In]. intros [<-|[<-|[<-|[]]]] Ht; vm_compute in Ht; discriminate Ht. }
  pose proof (retry_loop_answer (seq 0 max_retries) question v None w3 ev) as Hl.
  destruct (run (retry_loop rt question (seq 0 max_retries) v None) h w3)
    as [[res w4] tr].
  cbn [fst snd In] in *.
  intros [<-|[<-|[<-|Hin]]] Ht;
    [vm_compute in Ht; discriminate Ht
    |vm_compute in Ht; discriminate Ht
    |vm_compute in Ht; discriminate Ht|].
  apply Hl; assumption.
Qed.

(** X15.  The answer call ends the run: no call comes after it, and [ask]
    returns the text of its reply, or the critical-error message when the
    call raised or its reply has no text. *)
Theorem answer_call_ends_the_run (self : SQLAgentClient) (question : str) (w : World)
    (before : list Event) (ev : Event) (after : list Event) :
  snd (run (ask rt self question) h w) = before ++ ev :: after ->
  tool ev = answer_tool ->
  after = [] /\
  fst (fst (run (ask rt self question) h w))
  = match stage_text (outcome_of ev) with
    | Returned text => Returned text
    | Raised e => Returned (critical_message e)
    end.
Proof.
  intros Htr Ht. split.
  - assert (Hc : chained question None (snd (run (ask rt self question) h w))).
    { destruct (ask_trace self question w) as [-> | ->];
        [exact I | apply pipeline_chained]. }
    rewrite Htr in Hc. eapply chained_answer_last; eassumption.
  - revert Htr. unfold ask. destruct (session self) as [s|].
    2:{ cbn [run snd]. intro H. destruct before; discriminate H. }
    rewrite run_try_except. intro Htr.
    pose proof (pipeline_answer question w ev) as Hp.
    destruct (run (pipeline rt question) h w) as [[[a | e] w1] tr]; cbn [fst snd run] in *.
    + rewrite <- Hp; [reflexivity| |exact Ht]. rewrite Htr. apply in_elt.
    + rewrite app_nil_r in Htr.
      rewrite <- Hp; [reflexivity| |exact Ht]. rewrite Htr. apply in_elt.
Qed.

End Chain.

Section FinalAnswer.
Variable rt : PyRuntime.
Variable stages : Stages.


End FinalAnswer.

(** ** Connecting *)

Section Connecting.
Variable launcher : Launcher.




End Connecting.

(** ** The theorems at the sample runs *)





(** ** The further theorems at the sample runs *)



Lemma argument_that_is_no_dict_witness :
  handle_error_agent plain_runtime unreachable_llm (JList [first_query])
                     (py "no such column: Model_Year")
  = Raised (mkExc AttributeError
              (py "'" ++ type_name (JList [first_query])
               ++ py "' object has no attribute 'get'")) /\
  run_sqlite_query plain_runtime any_query_runs (JList [first_query])
  = Returned (json_dumps plain_runtime
                (JDict [(py "error",
                         JStr (py "Database query failed: '"
                               ++ type_name (JList [first_query])
                               ++ py "' object has no attribute 'get'"));
                        (py "data", JList [])])).
Proof.
  apply (argument_that_is_no_dict plain_runtime unreachable_llm any_query_runs
           (JList [first_query]) (py "no such column: Model_Year")).
  reflexivity.
Defined.

Lemma database_failure_reaches_the_client_witness :
  exists d,
    stage_payload (served (run_sqlite_query plain_runtime no_such_column_db first_query))
    = Returned d /\
    error_bearing d = true /\
    error_of d
    = JStr (py "Database query failed: "
            ++ exc_str (mkExc OtherException (py "no such column: Model_Year"))).
Proof.
  apply (database_failure_reaches_the_client plain_runtime no_such_column_db first_query
           (JStr (py "SELECT COUNT(Model_Year) FROM King"))
           (mkExc OtherException (py "no such column: Model_Year"))); reflexivity.
Defined.



Lemma dictionary_lists_every_row_witness :
  get_data_dictionary_description (Returned [complete_row])
  = Returned (dictionary_header
              ++ List.concat
                   [py "- Column 'Make' (also called 'Manufacturer'): The maker of the vehicle. Example: TESLA"
                    ++ [Ch.newline]]).
Proof.
  apply (dictionary_lists_every_row [complete_row]).
  repeat constructor.
Defined.

Lemma dictionary_is_all_or_nothing_witness :
  exists missing,
    In missing [py "Column Header"; py "Business Header"; py "Definition"; py "Example"] /\
    row_lookup incomplete_row missing = None /\
    get_data_dictionary_description
      (Returned ([complete_row] ++ incomplete_row :: [complete_row]))
    = Returned (py "Error reading data dictionary: '" ++ missing ++ py "'").
Proof.
  apply (dictionary_is_all_or_nothing [complete_row]
           [py "- Column 'Make' (also called 'Manufacturer'): The maker of the vehicle. Example: TESLA"
            ++ [Ch.newline]]
           incomplete_row [complete_row] (py "Definition")).
  - repeat constructor.
  - cbn. tauto.
  - reflexivity.
Defined.

Lemma schema_lists_every_table_witness :
  get_database_schema one_table
  = Returned (schema_header [py "King"]
              ++ List.concat
                   (map (fun p => table_section (fst p) (snd p))
                        (combine [py "King"] [king_columns]))).
Proof.
  apply (schema_lists_every_table one_table [py "King"] [king_columns]).
  - reflexivity.
  - reflexivity.
  - repeat constructor.
Defined.

Lemma unreadable_table_fails_the_validator_witness :
  get_database_schema spaced_table
  = Raised (mkExc OtherException (sq "near 'County': syntax error")) /\
  validator_sql_agent plain_runtime spaced_table unreachable_llm sample_question
                      sample_entities first_query
  = Raised (mkExc OtherException (sq "near 'County': syntax error")).
Proof.
  apply (unreadable_table_fails_the_validator plain_runtime spaced_table unreachable_llm
           [py "King"] [king_columns] (py "Pierce County") []).
  - reflexivity.
  - reflexivity.
  - repeat constructor.
  - reflexivity.
Defined.

Lemma answer_call_ends_the_run_witness :
  @nil Event = [] /\
  fst (fst (run (ask plain_runtime connected_client sample_question)
                (staged second_attempt_succeeds) []))
  = match stage_text (answers "There are 1234 vehicles.") with
    | Returned text => Returned text
    | Raised e => Returned (critical_message e)
    end.
Proof.
  apply (answer_call_ends_the_run plain_runtime (staged second_attempt_succeeds)
           connected_client sample_question []
           (firstn 6 (snd (run (ask plain_runtime connected_client sample_question)
                               (staged second_attempt_succeeds) [])))
           (mkEvent answer_tool (answer_arguments sample_question count_result)
                    (answers "There are 1234 vehicles."))
           []).
  - vm_compute. reflexivity.
  - reflexivity.
Defined.





Lemma query_result_reaches_the_client_witness :
  stage_payload (served (run_sqlite_query plain_runtime error_column_db first_query))
  = Returned (JDict [(py "data",
                      JList [JDict [(py "error", JStr (py "E0420"));
                                    (py "count", JInt 2)]])]) /\
  error_free (JDict [(py "data",
                      JList [JDict [(py "error", JStr (py "E0420"));
                                    (py "count", JInt 2)]])]) = true.
Proof.
  apply (query_result_reaches_the_client plain_runtime error_column_db first_query
           (JStr (py "SELECT COUNT(Model_Year) FROM King"))); reflexivity.
Defined.
